(** * Issue endpoints of [plane/app/views/issue/base.py]

    A shallow embedding of the issue views: the relational store is a record
    of tables (lists of rows), a queryset is the list of rows a query selects
    from the store at the moment it is evaluated, and a handler is a function
    from the request and the store to a response, the store it leaves behind
    and the background tasks it queued.

    The permission decorators ([allow_permission]) run before a handler's
    body and are not part of this development: every definition below is the
    body of the handler.  The calls [select_related] and [prefetch_related]
    and the annotations [cycle_id], [link_count], [attachment_count] and
    [sub_issues_count] add columns to the rows a queryset selects and are left
    out of the rows kept here; the three aggregated id arrays are kept. *)

From Stdlib Require Import ZArith.
From stdpp Require Import base tactics option list sorting strings pretty gmap.

Local Open Scope string_scope.
Local Open Scope Z_scope.

(** ** Column types *)

(** Primary and foreign keys ([UUIDField]) and timestamps ([DateTimeField]). *)
Abbreviation UUID := N (only parsing).
Abbreviation Timestamp := Z (only parsing).

(** JSON values, as carried by [JSONField] columns and request payloads. *)
#[warnings="-register-all"] Inductive JSON :=
| JNull
| JBool (b : bool)
| JNum (z : Z)
| JStr (s : string)
| JList (l : list JSON)
| JObj (fields : list (string * JSON)).

(** ** Models

    One module per model class imported from [plane.db.models], holding the
    columns that the views read or write. *)

Module Workspace.
Record t := mk { id : UUID; slug : string }.
End Workspace.

Module Project.
Record t := mk { id : UUID; workspace_id : UUID }.
End Project.

Module Issue.
Record t := mk {
  id : UUID;
  workspace_id : UUID;
  project_id : UUID;
  created_by : option UUID;
  updated_at : Timestamp;
  archived_at : option Timestamp;
  is_draft : bool;
  deleted_at : option Timestamp
}.

#[global] Instance eq_dec : EqDecision t.
Proof. solve_decision. Defined.

Definition set_deleted_at (v : option Timestamp) (i : t) : t :=
  mk (id i) (workspace_id i) (project_id i) (created_by i) (updated_at i)
     (archived_at i) (is_draft i) v.
End Issue.

Module ProjectMember.
Record t := mk {
  workspace_id : UUID;
  project_id : UUID;
  member : UUID;
  role : Z;
  is_active : bool
}.
End ProjectMember.

(** [plane.db.models.Module]; [Module] is a keyword here. *)
Module IssueModuleTarget.
Record t := mk { id : UUID; archived_at : option Timestamp }.
End IssueModuleTarget.

(** Through tables of the many-to-many relations of an issue. *)
Module IssueLabel.
Record t := mk { issue_id : UUID; label_id : UUID }.
End IssueLabel.

Module IssueAssignee.
Record t := mk { issue_id : UUID; assignee_id : UUID }.
End IssueAssignee.

Module IssueModule.
Record t := mk { issue_id : UUID; module_id : UUID }.
End IssueModule.

Module IssueSubscriber.
Record t := mk {
  workspace_id : UUID;
  project_id : UUID;
  issue_id : UUID;
  subscriber : UUID
}.
End IssueSubscriber.

Module IssueUserProperty.
Record t := mk {
  id : UUID;
  user : UUID;
  project_id : UUID;
  filters : JSON;
  display_filters : JSON;
  display_properties : JSON
}.
End IssueUserProperty.

(** ** The store *)

Module DB.
Record t := mk {
  workspaces : list Workspace.t;
  projects : list Project.t;
  issues : list Issue.t;
  project_members : list ProjectMember.t;
  modules : list IssueModuleTarget.t;
  issue_labels : list IssueLabel.t;
  issue_assignees : list IssueAssignee.t;
  issue_modules : list IssueModule.t;
  issue_subscribers : list IssueSubscriber.t;
  issue_user_properties : list IssueUserProperty.t
}.

Definition set_issues (l : list Issue.t) (db : t) : t :=
  mk (workspaces db) (projects db) l (project_members db) (modules db)
     (issue_labels db) (issue_assignees db) (issue_modules db)
     (issue_subscribers db) (issue_user_properties db).

Definition set_issue_user_properties (l : list IssueUserProperty.t) (db : t) : t :=
  mk (workspaces db) (projects db) (issues db) (project_members db) (modules db)
     (issue_labels db) (issue_assignees db) (issue_modules db)
     (issue_subscribers db) l.
End DB.

(** ** Python values *)

(** [request.GET.get(key, False)] yields a string or [False]; [option string]
    holds both, and [truthy] is Python's truth value of the result. *)
Definition truthy (v : option string) : bool :=
  match v with
  | Some s => bool_decide (s ≠ "")
  | None => false
  end.

(** [str.split(sep)] for a one-character separator. *)
Fixpoint split (sep : Ascii.ascii) (s : string) : list string :=
  match s with
  | EmptyString => [""]
  | String c s' =>
      if decide (c = sep) then "" :: split sep s'
      else match split sep s' with
           | [] => [String c ""]
           | w :: ws => String c w :: ws
           end
  end.

Definition comma : Ascii.ascii := Ascii.ascii_of_nat 44.


(** ** Querysets

    A queryset is evaluated against the store it is run on; the combinators
    below are the ORM calls the views chain. *)

(** The lookup [workspace__slug=slug] follows the foreign key to the
    workspace row. *)
Definition workspace__slug (db : DB.t) (workspace_id : UUID) (slug : string) : Prop :=
  Exists (λ w, Workspace.id w = workspace_id ∧ Workspace.slug w = slug)
         (DB.workspaces db).

#[global] Instance workspace__slug_dec db w s : Decision (workspace__slug db w s).
Proof. unfold workspace__slug. apply _. Defined.

(** Modelled from the spec: the manager [Issue.objects] is declared with the
    models, outside the sources at hand; by the invariant of the spec's data
    model a deleted item is excluded from the queries: the manager selects
    the rows on which [deleted_at] is not set. *)
Definition Issue_objects (db : DB.t) : list Issue.t :=
  filter (λ i, Issue.deleted_at i = None) (DB.issues db).

(** Modelled from the spec: the manager [Issue.issue_objects] is declared with
    the models, outside the sources at hand; it is the manager of the read
    paths and of the bulk delete, kept apart from [Issue.objects] by the
    views.  The data model of the spec names three soft-delete markers of an
    item, [archived_at], [deleted_at] and [is_draft], and excludes the items
    that carry one from the queries: the manager selects the rows on which
    none of the three is set. *)
Definition Issue_issue_objects (db : DB.t) : list Issue.t :=
  filter (λ i, Issue.deleted_at i = None
               ∧ Issue.archived_at i = None
               ∧ Issue.is_draft i = false)
         (DB.issues db).

(** Modelled from the spec: [delete()] of a queryset of a model with the
    soft-delete marker [deleted_at] is one update that stamps the marker on
    the rows the query selects; it is declared with the models, outside the
    sources at hand. *)
Definition soft_delete (now : Timestamp) (selected : Issue.t → Prop)
    `{∀ i, Decision (selected i)} (db : DB.t) : DB.t :=
  DB.set_issues
    ((λ i, if decide (selected i) then Issue.set_deleted_at (Some now) i else i)
       <$> DB.issues db)
    db.

(** Modelled from the spec: [delete()] of a model instance is declared with
    the models, outside the sources at hand.  By the data model of the spec
    a deleted item is marked, not removed: the instance leaves the call with
    the same key and with [deleted_at] set.  The call goes through the
    model's own saving of the row, and what that writes to the other columns
    (the audit fields among them) is left open: [Issue_delete] is any
    function on rows with the laws of [InstanceDeleteLaws]. *)
Class InstanceDelete := {
  Issue_delete : Timestamp → Issue.t → Issue.t
}.

Class InstanceDeleteLaws `{InstanceDelete} : Prop := {
  Issue_delete_id now i : Issue.id (Issue_delete now i) = Issue.id i;
  Issue_delete_deleted_at now i : Issue.deleted_at (Issue_delete now i) ≠ None
}.

(** [issue.delete()]: the row with the instance's primary key takes the
    columns that the instance leaves the call with. *)
Definition instance_delete `{InstanceDelete} (now : Timestamp) (issue : Issue.t)
    (db : DB.t) : DB.t :=
  DB.set_issues
    ((λ i, if decide (Issue.id i = Issue.id issue) then Issue_delete now issue else i)
       <$> DB.issues db)
    db.

(** Ascending comparison of two rows on a column. *)
Definition asc {A K} (le : relation K) (key : A → K) : relation A :=
  λ a b, le (key a) (key b).

#[global] Typeclasses Opaque asc.

#[global] Instance asc_dec {A K} (le : relation K)
  (le_dec : ∀ x y, Decision (le x y)) (key : A → K) a b :
  Decision (asc le key a b) := le_dec (key a) (key b).

(** [order_by(key)], ascending, on a timestamp column. *)
Definition order_by {A} (key : A → Timestamp) (qs : list A) : list A :=
  merge_sort (asc Z.le key) qs.

(** [first()]: a queryset without an ordering is ordered by primary key. *)
Definition first {A} (pk : A → UUID) (qs : list A) : option A :=
  head (merge_sort (asc N.le pk) qs).

(** [distinct()]. *)
Definition distinct {A} `{EqDecision A} (qs : list A) : list A := remove_dups qs.

(** Rows of a [LEFT OUTER JOIN] for one row of the left table: the matching
    rows, or a single all-NULL row when there is none. *)
Definition left_outer {B} (matches : list B) : list (option B) :=
  match matches with
  | [] => [None]
  | _ => Some <$> matches
  end.

(** [ArrayAgg(expr, distinct=True, filter=cond)] over the joined rows of one
    issue: NULL when no row passes the filter.  The order of the aggregated
    array is the store's. *)
Definition ArrayAgg {R B} `{EqDecision B} (expr : R → option B)
    (cond : R → Prop) `{∀ r, Decision (cond r)} (rows : list R)
    : option (list (option B)) :=
  match filter cond rows with
  | [] => None
  | rs => Some (remove_dups (expr <$> rs))
  end.

Definition Coalesce {A} (v : option A) (d : A) : A := default d v.

(** [.get(...)] on the rows a lookup selects. *)
Inductive Exception :=
| DoesNotExist
| MultipleObjectsReturned
| ValidationError
| IntegrityError.

Definition get_one {A} (matches : list A) : Exception + A :=
  match matches with
  | [] => inl DoesNotExist
  | [x] => inr x
  | _ => inl MultipleObjectsReturned
  end.

(** ** Annotated rows *)

(** A row of an issue queryset carrying the three aggregated id arrays. *)
Record Row := mkRow {
  issue : Issue.t;
  label_ids : list (option UUID);
  assignee_ids : list (option UUID);
  module_ids : list (option UUID)
}.

#[global] Instance Row_eq_dec : EqDecision Row.
Proof. solve_decision. Defined.

(** Joined row of [assignees__id] with [assignees__member_project__is_active]:
    [member_project] is the reverse relation from the user to the
    project-member rows, of whatever project. *)
Record AssigneeJoin := mkAssigneeJoin {
  assignees__id : option UUID;
  assignees__member_project__is_active : option bool
}.

(** Joined row of [issue_module__module_id] with
    [issue_module__module__archived_at]. *)
Record ModuleJoin := mkModuleJoin {
  issue_module__module_id : option UUID;
  issue_module__module__archived_at : option Timestamp
}.

Definition labels_join (db : DB.t) (i : Issue.t) : list (option UUID) :=
  (λ r : option IssueLabel.t, IssueLabel.label_id <$> r) <$>
    left_outer (filter (λ l, IssueLabel.issue_id l = Issue.id i) (DB.issue_labels db)).

Definition assignees_join (db : DB.t) (i : Issue.t) : list AssigneeJoin :=
  r ← left_outer (filter (λ a, IssueAssignee.issue_id a = Issue.id i)
                          (DB.issue_assignees db));
  match r with
  | None => [mkAssigneeJoin None None]
  | Some a =>
      (λ m : option ProjectMember.t,
         mkAssigneeJoin (Some (IssueAssignee.assignee_id a))
                        (ProjectMember.is_active <$> m)) <$>
        left_outer (filter (λ m, ProjectMember.member m = IssueAssignee.assignee_id a)
                           (DB.project_members db))
  end.

Definition modules_join (db : DB.t) (i : Issue.t) : list ModuleJoin :=
  r ← left_outer (filter (λ im, IssueModule.issue_id im = Issue.id i)
                          (DB.issue_modules db));
  match r with
  | None => [mkModuleJoin None None]
  | Some im =>
      (λ m : option IssueModuleTarget.t,
         mkModuleJoin (Some (IssueModule.module_id im))
                      (m ≫= IssueModuleTarget.archived_at)) <$>
        left_outer (filter (λ m, IssueModuleTarget.id m = IssueModule.module_id im)
                           (DB.modules db))
  end.

(** [label_ids=Coalesce(ArrayAgg("labels__id", distinct=True,
    filter=~Q(labels__id__isnull=True)), Value([]))]. *)
Definition annotate_label_ids (db : DB.t) (i : Issue.t) : list (option UUID) :=
  Coalesce (ArrayAgg id (λ r : option UUID, r ≠ None) (labels_join db i)) [].

(** [assignee_ids=Coalesce(ArrayAgg("assignees__id", distinct=True,
    filter=~Q(assignees__id__isnull=True)
           & Q(assignees__member_project__is_active=True)), Value([]))]. *)
Definition annotate_assignee_ids (db : DB.t) (i : Issue.t) : list (option UUID) :=
  Coalesce
    (ArrayAgg assignees__id
       (λ r, assignees__id r ≠ None ∧ assignees__member_project__is_active r = Some true)
       (assignees_join db i))
    [].

(** [module_ids=Coalesce(ArrayAgg("issue_module__module_id", distinct=True,
    filter=~Q(issue_module__module_id__isnull=True)
           & Q(issue_module__module__archived_at__isnull=True)), Value([]))]. *)
Definition annotate_module_ids (db : DB.t) (i : Issue.t) : list (option UUID) :=
  Coalesce
    (ArrayAgg issue_module__module_id
       (λ r, issue_module__module_id r ≠ None ∧ issue_module__module__archived_at r = None)
       (modules_join db i))
    [].

(** [module_ids=Coalesce(ArrayAgg("issue_module__module_id", distinct=True,
    filter=~Q(issue_module__module_id__isnull=True)), Value([]))], the form
    used by [partial_update]. *)
Definition annotate_module_ids_any (db : DB.t) (i : Issue.t) : list (option UUID) :=
  Coalesce
    (ArrayAgg issue_module__module_id
       (λ r, issue_module__module_id r ≠ None)
       (modules_join db i))
    [].

(** ** Requests, responses and background tasks *)

Record User := mkUser { user_id : UUID; user_timezone : string }.

(** [D] is the type of the values of the request payload [request.data]. *)
Record Request (D : Type) := mkRequest {
  user : User;
  GET : gmap string string;
  data : gmap string D;
  HTTP_ORIGIN : option string
}.
Arguments mkRequest {D}.
Arguments user {D}.
Arguments GET {D}.
Arguments data {D}.
Arguments HTTP_ORIGIN {D}.

(** The view attributes [self.fields] and [self.expand]. *)
Record View := mkView { fields : list string; expand : list string }.

Definition HTTP_200_OK : Z := 200.
Definition HTTP_201_CREATED : Z := 201.
Definition HTTP_204_NO_CONTENT : Z := 204.
Definition HTTP_400_BAD_REQUEST : Z := 400.
Definition HTTP_404_NOT_FOUND : Z := 404.

(** [Q] objects, for the [count_filter] argument handed to the paginators. *)
Inductive Q :=
| Q_lookup (lookup : string) (value : JSON)
| Q_and (a b : Q)
| Q_or (a b : Q).

Inductive PaginatorCls :=
| GroupedOffsetPaginator
| SubGroupedOffsetPaginator.

(** The keyword arguments of one [self.paginate(...)] call of the list view.
    [on_results] holds the [group_by] and [sub_group_by] that the callback
    passes on to [issue_on_results]. *)
Record PaginateCall := mkPaginateCall {
  pc_order_by : string;
  pc_queryset : list Row;
  pc_on_results : option string * option string;
  pc_paginator_cls : option PaginatorCls;
  pc_group_by_fields : option (list string);
  pc_sub_group_by_fields : option (list string);
  pc_group_by_field_name : option string;
  pc_sub_group_by_field_name : option string;
  pc_count_filter : option Q
}.

(** The arguments of the [paginate(...)] call of the paginated sync list;
    [on_result] is [process_paginated_result] on the required fields and the
    user's timezone. *)
Record SyncPaginateCall := mkSyncPaginateCall {
  sp_base_queryset : list Issue.t;
  sp_queryset : list Row;
  sp_cursor : option string;
  sp_fields : list string;
  sp_timezone : string
}.

Inductive Body :=
| ErrorBody (error : string)
| MessageBody (message : string)
| IssueSerializerMany (fields expand : list string) (queryset : list Issue.t)
| ValuesBody (issues : list Row) (timezone : string)
| IssueDetailSerializer (row : Row) (is_subscribed : bool) (expand : list string)
| IssueUserPropertySerializer (issue_property : IssueUserProperty.t)
| SerializerErrors
| NoBody.

(** What a handler ends with: a response of its own, the response of the
    view's paginator, the sync paginator's page in a 200 response, or an
    exception left to the framework. *)
Inductive Outcome :=
| Response (body : Body) (status : Z)
| SelfPaginate (call : PaginateCall)
| ResponsePaginate (call : SyncPaginateCall) (status : Z)
| Raise (e : Exception).

Inductive Task :=
| recent_visited_task (slug : string) (project_id : UUID) (entity_name : string)
    (entity_identifier : UUID) (user_id : UUID)
| issue_activity (type : string) (requested_data : gmap string JSON)
    (actor_id issue_id project_id : UUID) (current_instance : option Row)
    (epoch : Timestamp) (origin : option string).

Record Result := mkResult {
  outcome : Outcome;
  store : DB.t;
  tasks : list Task
}.

(** ** Collaborators

    Functions and constants of the repository that the views import and whose
    definitions are not among the sources, and the conversions done by the
    ORM on lookup values. *)
Class Collaborators := {
  (** [plane.utils.issue_filters.issue_filters(query_params, method)]. *)
  issue_filters : gmap string string → string → gmap string JSON;
  (** The ORM's reading of [queryset.filter] on the unpacked filters, for one
      row. *)
  filter_kwargs : DB.t → gmap string JSON → Issue.t → bool;
  (** [plane.utils.order_queryset.order_issue_queryset]. *)
  order_issue_queryset : DB.t → list Issue.t → string → list Issue.t * string;
  (** [plane.utils.grouper.issue_queryset_grouper]. *)
  issue_queryset_grouper :
    DB.t → list Issue.t → option string → option string → list Row;
  (** [plane.utils.grouper.issue_group_values(field, slug, project_id, filters)]. *)
  issue_group_values : DB.t → string → string → UUID → gmap string JSON → list string;
  (** [UUIDField.to_python] and [DateTimeField.to_python] on a string. *)
  uuid_to_python : string → option UUID;
  datetime_to_python : string → option Timestamp;
  (** [IssueCreateSerializer(issue, data=..., partial=True)]: [is_valid()]
      followed by [save()], or [None] when the payload is invalid. *)
  serializer_save : DB.t → Row → gmap string JSON → option DB.t;
  (** Column defaults of [IssueUserProperty]. *)
  default_filters : JSON;
  default_display_filters : JSON;
  default_display_properties : JSON
}.

(** What the properties below need from the collaborators: ordering and
    annotating select no row that was not in the queryset they were given. *)
Class CollaboratorLaws `{Collaborators} : Prop := {
  order_issue_queryset_sub db qs p i :
    i ∈ (order_issue_queryset db qs p).1 → i ∈ qs;
  issue_queryset_grouper_sub db qs g sg r :
    r ∈ issue_queryset_grouper db qs g sg → issue r ∈ qs
}.

(** [pk__in=issue_ids] on strings: every element goes through the field's
    conversion, which fails on a string that is not a UUID. *)
Definition pk__in `{Collaborators} (issue_ids : list string) : option (list UUID) :=
  mapM uuid_to_python issue_ids.

(** The [count_filter] of the grouped list calls. *)
Definition list_count_filter : Q :=
  Q_and
    (Q_or (Q_or (Q_or (Q_lookup "issue_inbox__status" (JNum 1))
                      (Q_lookup "issue_inbox__status" (JNum (-1))))
                (Q_lookup "issue_inbox__status" (JNum 2)))
          (Q_lookup "issue_inbox__isnull" (JBool true)))
    (Q_and (Q_lookup "archived_at__isnull" (JBool true))
           (Q_lookup "is_draft" (JBool false))).

(** ** [IssueListEndpoint] *)

Module IssueListEndpoint.
Section handlers.
Context `{Collaborators} {D : Type}.

Definition get (self : View) (request : Request D) (slug : string)
    (project_id : UUID) (db : DB.t) : Result :=
  let issue_ids := GET request !! "issues" in
  if negb (truthy issue_ids) then
    mkResult (Response (ErrorBody "Issues are required") HTTP_400_BAD_REQUEST) db []
  else
    let issue_ids :=
      filter (λ issue_id, issue_id ≠ "") (split comma (default "" issue_ids)) in
    match pk__in issue_ids with
    | None => mkResult (Raise ValidationError) db []
    | Some pks =>
        let queryset :=
          distinct
            (filter (λ i, workspace__slug db (Issue.workspace_id i) slug)
               (filter (λ i, workspace__slug db (Issue.workspace_id i) slug
                             ∧ Issue.project_id i = project_id
                             ∧ Issue.id i ∈ pks)
                  (Issue_issue_objects db))) in
        let filters := issue_filters (GET request) "GET" in
        let order_by_param := default "-created_at" (GET request !! "order_by") in
        let issue_queryset := filter (λ i, filter_kwargs db filters i) queryset in
        let issue_queryset := (order_issue_queryset db issue_queryset order_by_param).1 in
        let group_by := GET request !! "group_by" in
        let sub_group_by := GET request !! "sub_group_by" in
        let issue_queryset :=
          issue_queryset_grouper db issue_queryset group_by sub_group_by in
        let queued :=
          [recent_visited_task slug project_id "project" project_id
             (user_id (user request))] in
        if bool_decide (fields self ≠ [] ∨ expand self ≠ []) then
          mkResult
            (Response (IssueSerializerMany (fields self) (expand self) queryset)
                      HTTP_200_OK)
            db queued
        else
          mkResult
            (Response (ValuesBody issue_queryset (user_timezone (user request)))
                      HTTP_200_OK)
            db queued
    end.

End handlers.
End IssueListEndpoint.

(** ** [IssueViewSet] *)

Module IssueViewSet.
Section handlers.
Context `{Collaborators} `{InstanceDelete} {D : Type}.

Definition get_queryset (slug : string) (project_id : UUID) (db : DB.t)
    : list Issue.t :=
  distinct
    (filter (λ i, workspace__slug db (Issue.workspace_id i) slug)
       (filter (λ i, Issue.project_id i = project_id) (Issue_issue_objects db))).

(** The membership test of [list]: an active membership of the requesting
    user in the project with [role=5]. *)
Definition restricted_member (db : DB.t) (slug : string) (project_id : UUID)
    (member : UUID) : Prop :=
  Exists (λ m, workspace__slug db (ProjectMember.workspace_id m) slug
               ∧ ProjectMember.project_id m = project_id
               ∧ ProjectMember.member m = member
               ∧ ProjectMember.role m = 5
               ∧ ProjectMember.is_active m = true)
         (DB.project_members db).

#[global] Instance restricted_member_dec db slug project_id member :
  Decision (restricted_member db slug project_id member).
Proof. unfold restricted_member. apply _. Defined.

(** The annotated query of [retrieve], up to [first()]. *)
Definition retrieve_issue (request : Request D) (slug : string)
    (project_id pk : UUID) (db : DB.t) : option (Row * bool) :=
  first (λ r : Row * bool, Issue.id (issue r.1))
    ((λ i, (mkRow i (annotate_label_ids db i) (annotate_assignee_ids db i)
                    (annotate_module_ids db i),
            bool_decide
              (Exists (λ s, workspace__slug db (IssueSubscriber.workspace_id s) slug
                            ∧ IssueSubscriber.project_id s = project_id
                            ∧ IssueSubscriber.issue_id s = Issue.id i
                            ∧ IssueSubscriber.subscriber s = user_id (user request))
                      (DB.issue_subscribers db))))
       <$> filter (λ i, Issue.id i = pk) (get_queryset slug project_id db)).

Definition retrieve (self : View) (request : Request D) (slug : string)
    (project_id pk : UUID) (db : DB.t) : Result :=
  match retrieve_issue request slug project_id pk db with
  | None =>
      mkResult
        (Response (ErrorBody "The required object does not exist.")
                  HTTP_404_NOT_FOUND)
        db []
  | Some (row, is_subscribed) =>
      mkResult
        (Response (IssueDetailSerializer row is_subscribed (expand self)) HTTP_200_OK)
        db
        [recent_visited_task slug project_id "issue" pk (user_id (user request))]
  end.

(** The annotated query of [partial_update], up to [first()]. *)
Definition partial_update_issue (slug : string) (project_id pk : UUID)
    (db : DB.t) : option Row :=
  first (λ r, Issue.id (issue r))
    (filter (λ r, Issue.id (issue r) = pk)
       ((λ i, mkRow i (annotate_label_ids db i) (annotate_assignee_ids db i)
                    (annotate_module_ids_any db i))
          <$> get_queryset slug project_id db)).

Definition partial_update (request : Request JSON) (slug : string)
    (project_id pk : UUID) (now : Timestamp) (db : DB.t) : Result :=
  match partial_update_issue slug project_id pk db with
  | None =>
      mkResult (Response (ErrorBody "Issue not found") HTTP_404_NOT_FOUND) db []
  | Some issue =>
      let current_instance := issue in
      let requested_data := data request in
      match serializer_save db issue (data request) with
      | Some db' =>
          mkResult (Response NoBody HTTP_204_NO_CONTENT) db'
            [issue_activity "issue.activity.updated" requested_data
               (user_id (user request)) pk project_id (Some current_instance)
               now (HTTP_ORIGIN request)]
      | None => mkResult (Response SerializerErrors HTTP_400_BAD_REQUEST) db []
      end
  end.

Definition destroy (request : Request D) (slug : string) (project_id pk : UUID)
    (now : Timestamp) (db : DB.t) : Result :=
  match get_one (filter (λ i, workspace__slug db (Issue.workspace_id i) slug
                              ∧ Issue.project_id i = project_id
                              ∧ Issue.id i = pk)
                        (Issue_objects db)) with
  | inl e => mkResult (Raise e) db []
  | inr issue =>
      mkResult (Response NoBody HTTP_204_NO_CONTENT)
        (instance_delete now issue db)
        [issue_activity "issue.activity.deleted" {[ "issue_id" := JStr (pretty pk) ]}
           (user_id (user request)) pk project_id None now (HTTP_ORIGIN request)]
  end.

(** [issue_queryset] of [list] as it stands before the membership test. *)
Definition list_queryset (request : Request D) (slug : string)
    (project_id : UUID) (db : DB.t) : list Row * string :=
  let filters := issue_filters (GET request) "GET" in
  let order_by_param := default "-created_at" (GET request !! "order_by") in
  let issue_queryset :=
    filter (λ i, filter_kwargs db filters i) (get_queryset slug project_id db) in
  let '(issue_queryset, order_by_param) :=
    order_issue_queryset db issue_queryset order_by_param in
  let group_by := GET request !! "group_by" in
  let sub_group_by := GET request !! "sub_group_by" in
  (issue_queryset_grouper db issue_queryset group_by sub_group_by, order_by_param).

Definition list (request : Request D) (slug : string) (project_id : UUID)
    (db : DB.t) : Result :=
  let filters := issue_filters (GET request) "GET" in
  let '(issue_queryset, order_by_param) := list_queryset request slug project_id db in
  let group_by := GET request !! "group_by" in
  let sub_group_by := GET request !! "sub_group_by" in
  let queued :=
    [recent_visited_task slug project_id "project" project_id
       (user_id (user request))] in
  let issue_queryset :=
    if decide (restricted_member db slug project_id (user_id (user request))) then
      filter (λ r, Issue.created_by (issue r) = Some (user_id (user request)))
             issue_queryset
    else issue_queryset in
  if truthy group_by then
    if truthy sub_group_by then
      if decide (group_by = sub_group_by) then
        mkResult
          (Response
             (ErrorBody "Group by and sub group by cannot have same parameters")
             HTTP_400_BAD_REQUEST)
          db queued
      else
        mkResult
          (SelfPaginate
             (mkPaginateCall order_by_param issue_queryset (group_by, sub_group_by)
                (Some SubGroupedOffsetPaginator)
                (Some (issue_group_values db (default "" group_by) slug project_id filters))
                (Some (issue_group_values db (default "" sub_group_by) slug project_id filters))
                group_by sub_group_by (Some list_count_filter)))
          db queued
    else
      mkResult
        (SelfPaginate
           (mkPaginateCall order_by_param issue_queryset (group_by, sub_group_by)
              (Some GroupedOffsetPaginator)
              (Some (issue_group_values db (default "" group_by) slug project_id filters))
              None group_by None (Some list_count_filter)))
        db queued
  else
    mkResult
      (SelfPaginate
         (mkPaginateCall order_by_param issue_queryset (group_by, sub_group_by)
            None None None None None None))
      db queued.

End handlers.
End IssueViewSet.

(** ** [IssueUserDisplayPropertyEndpoint] *)

Module IssueUserDisplayPropertyEndpoint.
Section handlers.
Context `{Collaborators} {D : Type}.

(** [issue_property.save()]: the row with the instance's primary key takes
    the instance's columns. *)
Definition save (issue_property : IssueUserProperty.t) (db : DB.t) : DB.t :=
  DB.set_issue_user_properties
    ((λ p, if decide (IssueUserProperty.id p = IssueUserProperty.id issue_property)
           then issue_property else p)
       <$> DB.issue_user_properties db)
    db.

Definition patch (request : Request JSON) (slug : string) (project_id : UUID)
    (db : DB.t) : Result :=
  match get_one (filter (λ p, IssueUserProperty.user p = user_id (user request)
                              ∧ IssueUserProperty.project_id p = project_id)
                        (DB.issue_user_properties db)) with
  | inl e => mkResult (Raise e) db []
  | inr issue_property =>
      let issue_property :=
        IssueUserProperty.mk
          (IssueUserProperty.id issue_property)
          (IssueUserProperty.user issue_property)
          (IssueUserProperty.project_id issue_property)
          (default (IssueUserProperty.filters issue_property)
                   (data request !! "filters"))
          (default (IssueUserProperty.display_filters issue_property)
                   (data request !! "display_filters"))
          (default (IssueUserProperty.display_properties issue_property)
                   (data request !! "display_properties")) in
      mkResult
        (Response (IssueUserPropertySerializer issue_property) HTTP_201_CREATED)
        (save issue_property db) []
  end.

(** [IssueUserProperty.objects.create(user=..., project_id=...)] with the
    primary key [new_id] drawn for the row: the store refuses a project that
    does not exist and a primary key already in use. *)
Definition create (new_id user project_id : UUID) (db : DB.t)
    : Exception + IssueUserProperty.t * DB.t :=
  if decide (Exists (λ p, Project.id p = project_id) (DB.projects db)
             ∧ Forall (λ p, IssueUserProperty.id p ≠ new_id)
                      (DB.issue_user_properties db))
  then
    let issue_property :=
      IssueUserProperty.mk new_id user project_id
        default_filters default_display_filters default_display_properties in
    inr (issue_property,
         DB.set_issue_user_properties
           (DB.issue_user_properties db ++ [issue_property])%list db)
  else inl IntegrityError.

Definition get_or_create (new_id user project_id : UUID) (db : DB.t)
    : Exception + IssueUserProperty.t * DB.t :=
  match get_one (filter (λ p, IssueUserProperty.user p = user
                              ∧ IssueUserProperty.project_id p = project_id)
                        (DB.issue_user_properties db)) with
  | inr issue_property => inr (issue_property, db)
  | inl DoesNotExist => create new_id user project_id db
  | inl e => inl e
  end.

Definition get (request : Request D) (slug : string) (project_id : UUID)
    (new_id : UUID) (db : DB.t) : Result :=
  match get_or_create new_id (user_id (user request)) project_id db with
  | inl e => mkResult (Raise e) db []
  | inr (issue_property, db') =>
      mkResult (Response (IssueUserPropertySerializer issue_property) HTTP_200_OK)
               db' []
  end.

End handlers.
End IssueUserDisplayPropertyEndpoint.

(** ** [BulkDeleteIssuesEndpoint] *)

Module BulkDeleteIssuesEndpoint.
Section handlers.
Context `{Collaborators}.

(** The lookup of the handler's queryset, given the converted primary keys. *)
Definition selected (db : DB.t) (slug : string) (project_id : UUID)
    (pks : list UUID) (i : Issue.t) : Prop :=
  workspace__slug db (Issue.workspace_id i) slug
  ∧ Issue.project_id i = project_id
  ∧ Issue.id i ∈ pks.

#[global] Instance selected_dec db slug project_id pks i :
  Decision (selected db slug project_id pks i).
Proof. unfold selected. apply _. Defined.

Definition delete (request : Request (list string)) (slug : string)
    (project_id : UUID) (now : Timestamp) (db : DB.t) : Result :=
  let issue_ids := default [] (data request !! "issue_ids") in
  if bool_decide (length issue_ids = 0%nat) then
    mkResult (Response (ErrorBody "Issue IDs are required") HTTP_400_BAD_REQUEST)
             db []
  else
    match pk__in issue_ids with
    | None => mkResult (Raise ValidationError) db []
    | Some pks =>
        let issues := filter (selected db slug project_id pks) (Issue_issue_objects db) in
        let total_issues := length issues in
        mkResult
          (Response (MessageBody (pretty total_issues +:+ " issues were deleted"))
                    HTTP_200_OK)
          (soft_delete now (λ i, i ∈ issues) db)
          []
    end.

End handlers.
End BulkDeleteIssuesEndpoint.

(** ** [IssuePaginatedViewSet] *)

Module IssuePaginatedViewSet.
Section handlers.
Context `{Collaborators} {D : Type}.

Definition get_queryset (slug : string) (project_id : UUID) (db : DB.t)
    : list Issue.t :=
  distinct
    (filter (λ i, workspace__slug db (Issue.workspace_id i) slug
                  ∧ Issue.project_id i = project_id)
            (Issue_issue_objects db)).

Definition required_fields : list string :=
  ["id"; "name"; "state_id"; "sort_order"; "completed_at"; "estimate_point";
   "priority"; "start_date"; "target_date"; "sequence_id"; "project_id";
   "parent_id"; "cycle_id"; "created_at"; "updated_at"; "created_by";
   "updated_by"; "is_draft"; "archived_at"; "deleted_at"; "module_ids";
   "label_ids"; "assignee_ids"; "link_count"; "attachment_count";
   "sub_issues_count"].

(** The [annotate(...)] of the three id arrays of [list]. *)
Definition annotate (db : DB.t) (i : Issue.t) : Row :=
  mkRow i (annotate_label_ids db i) (annotate_assignee_ids db i)
        (annotate_module_ids db i).

(** The value of [updated_at__gte] as the lookup receives it: none when the
    parameter is absent or empty, an exception when it is no datetime. *)
Definition updated_at__gte (updated_at : option string)
    : Exception + option Timestamp :=
  if truthy updated_at then
    match datetime_to_python (default "" updated_at) with
    | Some t => inr (Some t)
    | None => inl ValidationError
    end
  else inr None.

Definition list (request : Request D) (slug : string) (project_id : UUID)
    (db : DB.t) : Result :=
  let cursor : option string := GET request !! "cursor" in
  let is_description_required := GET request !! "description" in
  let updated_at : option string := GET request !! "updated_at__gte" in
  let required_fields :=
    if truthy is_description_required
    then (required_fields ++ ["description_html"])%list else required_fields in
  let base_queryset :=
    order_by Issue.updated_at
      (filter (λ i, workspace__slug db (Issue.workspace_id i) slug
                    ∧ Issue.project_id i = project_id)
              (Issue_issue_objects db)) in
  let queryset := order_by Issue.updated_at (get_queryset slug project_id db) in
  match updated_at__gte updated_at with
  | inl e => mkResult (Raise e) db []
  | inr since =>
      let base_queryset :=
        match since with
        | Some t => filter (λ i, t ≤ Issue.updated_at i) base_queryset
        | None => base_queryset
        end in
      let queryset :=
        match since with
        | Some t => filter (λ i, t ≤ Issue.updated_at i) queryset
        | None => queryset
        end in
      let queryset := annotate db <$> queryset in
      mkResult
        (ResponsePaginate
           (mkSyncPaginateCall base_queryset queryset cursor required_fields
              (user_timezone (user request)))
           HTTP_200_OK)
        db []
  end.

End handlers.
End IssuePaginatedViewSet.

(** ** A stand-in for the collaborators

    Used to run the handlers on concrete requests: [issue_filters] finds no
    filter, the order is left as it is, the grouper annotates the three id
    arrays, primary keys and timestamps are written in decimal, the
    serializer accepts every payload and stores nothing, and the delete of an
    instance marks the row and moves its [updated_at] to the time of the
    call. *)

Module Standin.

Definition digit (c : Ascii.ascii) : option N :=
  let n := Ascii.N_of_ascii c in
  if decide (48 ≤ n ∧ n ≤ 57)%N then Some (n - 48)%N else None.

Fixpoint digits (acc : N) (s : string) : option N :=
  match s with
  | EmptyString => Some acc
  | String c s' => d ← digit c; digits (acc * 10 + d)%N s'
  end.

Definition decimal (s : string) : option N :=
  if decide (s = "") then None else digits 0 s.

#[export] Instance collaborators : Collaborators := {|
  issue_filters := λ _ _, ∅;
  filter_kwargs := λ _ _ _, true;
  order_issue_queryset := λ _ qs p, (qs, p);
  issue_queryset_grouper := λ db qs _ _,
    (λ i, mkRow i (annotate_label_ids db i) (annotate_assignee_ids db i)
                (annotate_module_ids db i)) <$> qs;
  issue_group_values := λ _ _ _ _ _, [];
  uuid_to_python := decimal;
  datetime_to_python := λ s, Z.of_N <$> decimal s;
  serializer_save := λ db _ _, Some db;
  default_filters := JObj [];
  default_display_filters := JObj [];
  default_display_properties := JObj []
|}.

#[export] Instance issue_model : InstanceDelete := {|
  Issue_delete := λ now i,
    Issue.mk (Issue.id i) (Issue.workspace_id i) (Issue.project_id i)
             (Issue.created_by i) now (Issue.archived_at i) (Issue.is_draft i)
             (Some now)
|}.

(** A store with one workspace and project, four issues of which the third
    is soft-deleted and the fourth belongs to another project, three project
    members of which the first has [role=5] and the third is inactive, an
    archived and a live module, both linked to the first issue. *)
Definition db : DB.t := {|
  DB.workspaces := [Workspace.mk 1 "acme"];
  DB.projects := [Project.mk 10 1; Project.mk 20 1];
  DB.issues :=
    [Issue.mk 1 1 10 (Some 100%N) 5 None false None;
     Issue.mk 2 1 10 (Some 200%N) 3 None false None;
     Issue.mk 3 1 10 (Some 100%N) 9 None false (Some 50);
     Issue.mk 4 1 20 (Some 200%N) 7 None false None];
  DB.project_members :=
    [ProjectMember.mk 1 10 100 5 true;
     ProjectMember.mk 1 10 200 20 true;
     ProjectMember.mk 1 10 300 20 false];
  DB.modules := [IssueModuleTarget.mk 7 (Some 40); IssueModuleTarget.mk 8 None];
  DB.issue_labels := [IssueLabel.mk 1 60];
  DB.issue_assignees := [IssueAssignee.mk 1 200; IssueAssignee.mk 1 300];
  DB.issue_modules := [IssueModule.mk 1 7; IssueModule.mk 1 8];
  DB.issue_subscribers := [];
  DB.issue_user_properties := []
|}.

(** The store [db] with two more issues of the first project: the fifth is
    archived and the sixth is a draft. *)
Definition db_marked : DB.t :=
  DB.set_issues
    (DB.issues db ++
     [Issue.mk 5 1 10 (Some 200%N) 6 (Some 30) false None;
      Issue.mk 6 1 10 (Some 200%N) 8 None true None])%list
    db.

Definition guest : User := mkUser 100 "UTC".
Definition member : User := mkUser 200 "UTC".

Definition request {D} (user : User) (GET : gmap string string)
    (data : gmap string D) : Request D :=
  mkRequest user GET data None.

End Standin.

(** ** Vocabulary of the properties *)

(** The issues that an outcome hands back to the caller, or on to a
    paginator. *)
Definition outcome_issues (o : Outcome) : list Issue.t :=
  match o with
  | Response (IssueSerializerMany _ _ queryset) _ => queryset
  | Response (ValuesBody issues _) _ => issue <$> issues
  | Response (IssueDetailSerializer row _ _) _ => [issue row]
  | SelfPaginate call => issue <$> pc_queryset call
  | ResponsePaginate call _ => sp_base_queryset call ++ (issue <$> sp_queryset call)
  | _ => []
  end.

(** The annotated rows that an outcome hands back or on. *)
Definition outcome_rows (o : Outcome) : list Row :=
  match o with
  | Response (ValuesBody issues _) _ => issues
  | Response (IssueDetailSerializer row _ _) _ => [row]
  | SelfPaginate call => pc_queryset call
  | ResponsePaginate call _ => sp_queryset call
  | _ => []
  end.

(** The issue snapshot that a queued task carries. *)
Definition task_issues (t : Task) : list Issue.t :=
  match t with
  | issue_activity _ _ _ _ _ (Some row) _ _ => [issue row]
  | _ => []
  end.

(** The issues that a handler returned or worked on. *)
Definition result_issues (r : Result) : list Issue.t :=
  outcome_issues (outcome r) ++ (tasks r ≫= task_issues).

(** The issue rows of [before] that are not the same in [after]. *)
Definition touched (before after : DB.t) : list Issue.t :=
  fst <$> filter (λ p : Issue.t * Issue.t, p.1 ≠ p.2)
                 (zip (DB.issues before) (DB.issues after)).

(** The marker [deleted_at] is not set on [i]. *)
Definition live (i : Issue.t) : Prop := Issue.deleted_at i = None.

(** None of the three soft-delete markers of the data model is set on [i]:
    it is not deleted, not archived and not a draft. *)
Definition visible (i : Issue.t) : Prop :=
  Issue.deleted_at i = None ∧ Issue.archived_at i = None ∧ Issue.is_draft i = false.

#[global] Instance visible_dec i : Decision (visible i).
Proof. unfold visible. apply _. Defined.

(** [pk] identifies an existing issue of the workspace and project on which
    [deleted_at] is not set. *)
Definition identifies_issue (db : DB.t) (slug : string) (project_id pk : UUID)
    : Prop :=
  Exists (λ i, Issue.id i = pk
               ∧ Issue.deleted_at i = None
               ∧ workspace__slug db (Issue.workspace_id i) slug
               ∧ Issue.project_id i = project_id)
         (DB.issues db).

#[global] Instance identifies_issue_dec db slug project_id pk :
  Decision (identifies_issue db slug project_id pk).
Proof. unfold identifies_issue. apply _. Defined.

(** [pk] identifies an existing issue of the workspace and project that
    carries no soft-delete marker. *)
Definition identifies_visible_issue (db : DB.t) (slug : string)
    (project_id pk : UUID) : Prop :=
  Exists (λ i, Issue.id i = pk
               ∧ visible i
               ∧ workspace__slug db (Issue.workspace_id i) slug
               ∧ Issue.project_id i = project_id)
         (DB.issues db).

#[global] Instance identifies_visible_issue_dec db slug project_id pk :
  Decision (identifies_visible_issue db slug project_id pk).
Proof. unfold identifies_visible_issue. apply _. Defined.

(** Primary keys are unique within the issue table. *)
Definition issue_pk_unique (db : DB.t) : Prop := NoDup (Issue.id <$> DB.issues db).

(** At most one display-property row for a user and project. *)
Definition property_unique (db : DB.t) : Prop :=
  ∀ user project_id,
    (length (filter (λ p, IssueUserProperty.user p = user
                          ∧ IssueUserProperty.project_id p = project_id)
                    (DB.issue_user_properties db)) ≤ 1)%nat.

(** [i] belongs to the workspace named [slug] and to the project. *)
Definition in_scope (db : DB.t) (slug : string) (project_id : UUID)
    (i : Issue.t) : Prop :=
  workspace__slug db (Issue.workspace_id i) slug ∧ Issue.project_id i = project_id.

#[global] Instance in_scope_dec db slug project_id i :
  Decision (in_scope db slug project_id i).
Proof. unfold in_scope. apply _. Defined.

(** Primary keys are unique within the display-property table. *)
Definition property_pk_unique (db : DB.t) : Prop :=
  NoDup (IssueUserProperty.id <$> DB.issue_user_properties db).

(** ** [IssueViewSet.create] *)

(** [IssueCreateSerializer(data=request.data, context=...)] of [create]:
    [is_valid()] followed by [save()].  The context holds the project's key
    and two columns of the project row, which is passed whole; the result is
    the key of the created issue ([serializer.data["id"]]) with the store
    after the save, or [None] when the payload is invalid. *)
Class IssueCreateSerializer := {
  serializer_create : DB.t → Project.t → gmap string JSON → option (UUID * DB.t)
}.

(** What [create] ends with: the created issue as the view's queryset shows
    it ([None] when it shows none), the serializer's errors, or an
    exception. *)
Inductive CreateOutcome :=
| CreateResponse (issue : option Row) (timezone : string) (status : Z)
| CreateErrors (status : Z)
| CreateRaise (e : Exception).

Record CreateResult := mkCreateResult {
  create_outcome : CreateOutcome;
  create_store : DB.t;
  create_tasks : list Task
}.

Definition IssueViewSet_create `{Collaborators} `{IssueCreateSerializer}
    (request : Request JSON) (slug : string) (project_id : UUID)
    (now : Timestamp) (db : DB.t) : CreateResult :=
  match get_one (filter (λ p, Project.id p = project_id) (DB.projects db)) with
  | inl e => mkCreateResult (CreateRaise e) db []
  | inr project =>
      match serializer_create db project (data request) with
      | Some (id, db') =>
          let issue :=
            first (λ r, Issue.id (issue r))
              (issue_queryset_grouper db'
                 (filter (λ i, Issue.id i = id)
                         (IssueViewSet.get_queryset slug project_id db'))
                 None None) in
          mkCreateResult
            (CreateResponse issue (user_timezone (user request)) HTTP_201_CREATED)
            db'
            [issue_activity "issue.activity.created" (data request)
               (user_id (user request)) id project_id None now
               (HTTP_ORIGIN request)]
      | None => mkCreateResult (CreateErrors HTTP_400_BAD_REQUEST) db []
      end
  end.

(** A stand-in for the serializer of [create]: a payload with a string
    [name] is valid, and the issue is stored in the project under the key
    that follows the largest key in use. *)
Module StandinCreate.

Definition next_id (db : DB.t) : UUID :=
  (foldr N.max 0 (Issue.id <$> DB.issues db) + 1)%N.

#[export] Instance serializer : IssueCreateSerializer := {|
  serializer_create := λ db project payload,
    match payload !! "name" with
    | Some (JStr _) =>
        Some (next_id db,
              DB.set_issues
                (DB.issues db ++
                 [Issue.mk (next_id db) (Project.workspace_id project)
                           (Project.id project) None 0 None false None])
                db)
    | _ => None
    end
|}.

End StandinCreate.

(** * Properties *)

(** ** Facts about the query combinators *)

Section queryset_facts.
Context {A : Type}.

#[global] Instance asc_transitive {K} (le : relation K) `{!Transitive le}
  (key : A → K) : Transitive (asc le key).
Proof. intros x y z. unfold asc. apply transitivity. Qed.

#[global] Instance asc_reflexive {K} (le : relation K) `{!Reflexive le}
  (key : A → K) : Reflexive (asc le key).
Proof. intros x. unfold asc. apply reflexivity. Qed.

#[global] Instance asc_total {K} (le : relation K) `{!Total le}
  (key : A → K) : Total (asc le key).
Proof. intros x y. unfold asc. apply total, _. Qed.

Lemma elem_of_order_by (key : A → Timestamp) qs x :
  x ∈ order_by key qs ↔ x ∈ qs.
Proof. unfold order_by. by rewrite merge_sort_Permutation. Qed.

Lemma order_by_sorted (key : A → Timestamp) qs :
  StronglySorted (asc Z.le key) (order_by key qs).
Proof. unfold order_by. apply StronglySorted_merge_sort; apply _. Qed.

Lemma first_elem_of (pk : A → UUID) qs x : first pk qs = Some x → x ∈ qs.
Proof.
  unfold first. intros Hhd.
  rewrite <- (merge_sort_Permutation (asc N.le pk) qs).
  destruct (merge_sort (asc N.le pk) qs) as [|y l]; simplify_eq/=. left.
Qed.

Lemma first_None (pk : A → UUID) qs : first pk qs = None → qs = [].
Proof.
  unfold first. intros Hhd.
  apply Permutation_nil_r. rewrite <- (merge_sort_Permutation (asc N.le pk) qs).
  by destruct (merge_sort (asc N.le pk) qs).
Qed.

Lemma elem_of_distinct `{EqDecision A} (qs : list A) x : x ∈ distinct qs ↔ x ∈ qs.
Proof. apply elem_of_remove_dups. Qed.

End queryset_facts.

Lemma elem_of_Issue_issue_objects db i :
  i ∈ Issue_issue_objects db ↔ visible i ∧ i ∈ DB.issues db.
Proof. unfold Issue_issue_objects, visible. by rewrite list_elem_of_filter. Qed.

Lemma visible_live i : visible i → live i.
Proof. by intros [? _]. Qed.

Lemma identifies_visible_issue_identifies db slug project_id pk :
  identifies_visible_issue db slug project_id pk →
  identifies_issue db slug project_id pk.
Proof.
  unfold identifies_visible_issue, identifies_issue. intros Hex.
  eapply Exists_impl; [exact Hex|]. intros i (? & [? _] & ? & ?). done.
Qed.

Lemma elem_of_IssueViewSet_get_queryset slug project_id db i :
  i ∈ IssueViewSet.get_queryset slug project_id db
  ↔ i ∈ DB.issues db ∧ visible i ∧ in_scope db slug project_id i.
Proof.
  unfold IssueViewSet.get_queryset, in_scope.
  rewrite elem_of_distinct, !list_elem_of_filter, elem_of_Issue_issue_objects.
  tauto.
Qed.

Lemma elem_of_IssuePaginatedViewSet_get_queryset slug project_id db i :
  i ∈ IssuePaginatedViewSet.get_queryset slug project_id db
  ↔ i ∈ DB.issues db ∧ visible i ∧ in_scope db slug project_id i.
Proof.
  unfold IssuePaginatedViewSet.get_queryset, in_scope.
  rewrite elem_of_distinct, list_elem_of_filter, elem_of_Issue_issue_objects.
  tauto.
Qed.

Lemma identifies_visible_issue_get_queryset db slug project_id pk :
  identifies_visible_issue db slug project_id pk
  ↔ ∃ i, i ∈ IssueViewSet.get_queryset slug project_id db ∧ Issue.id i = pk.
Proof.
  unfold identifies_visible_issue. rewrite Exists_exists.
  setoid_rewrite elem_of_IssueViewSet_get_queryset.
  unfold in_scope. split.
  - intros (i & ? & ? & ? & ? & ?). exists i. tauto.
  - intros (i & (? & ? & ? & ?) & ?). exists i. tauto.
Qed.

Lemma elem_of_Issue_objects db i :
  i ∈ Issue_objects db ↔ Issue.deleted_at i = None ∧ i ∈ DB.issues db.
Proof. unfold Issue_objects. by rewrite list_elem_of_filter. Qed.

(** ** The list view: narrowing by creator *)

(** C1. When the requesting user holds an active membership of the project
    with role 5, the queryset that [list] hands to the paginator is the
    listing narrowed to the issues whose [created_by] is that user, so every
    issue in it was created by the user; without such a membership the
    queryset is the listing as filtered, ordered and grouped, with no
    narrowing by creator. *)
Theorem list_restricted_member_sees_own_issues `{Collaborators} {D}
    (request : Request D) slug project_id db call :
  outcome (IssueViewSet.list request slug project_id db) = SelfPaginate call →
  let member := user_id (user request) in
  let issue_queryset := (IssueViewSet.list_queryset request slug project_id db).1 in
  (IssueViewSet.restricted_member db slug project_id member →
     pc_queryset call
       = filter (λ r, Issue.created_by (issue r) = Some member) issue_queryset
     ∧ Forall (λ r, Issue.created_by (issue r) = Some member) (pc_queryset call))
  ∧ (¬ IssueViewSet.restricted_member db slug project_id member →
     pc_queryset call = issue_queryset).
Proof.
  intros Hout member issue_queryset. subst member issue_queryset.
  unfold IssueViewSet.list in Hout.
  destruct (IssueViewSet.list_queryset request slug project_id db) as [qs ob].
  simpl in *.
  assert (Hqs : pc_queryset call =
    if decide (IssueViewSet.restricted_member db slug project_id (user_id (user request)))
    then filter (λ r, Issue.created_by (issue r) = Some (user_id (user request))) qs
    else qs).
  { repeat case_match; simplify_eq/=; reflexivity. }
  split; intros Hm.
  - rewrite decide_True in Hqs by done. split; [done|].
    rewrite Hqs. apply Forall_forall. intros r Hr.
    by apply list_elem_of_filter in Hr as [? _].
  - by rewrite decide_False in Hqs.
Qed.

Section list_creator_example.
Import Standin.

Lemma list_restricted_member_sees_own_issues_witness :
  ∃ call,
    outcome (IssueViewSet.list (Standin.request (D:=JSON) Standin.guest ∅ ∅)
               "acme" 10 Standin.db) = SelfPaginate call
    ∧ Forall (λ r, Issue.created_by (issue r) = Some 100%N) (pc_queryset call).
Proof.
  eexists. split; [vm_compute; reflexivity|].
  refine (proj2 (proj1 (list_restricted_member_sees_own_issues
            (Standin.request (D:=JSON) Standin.guest ∅ ∅) "acme" 10 Standin.db _ _) _)).
  - vm_compute. reflexivity.
  - vm_compute. apply Exists_cons_hd. repeat split. apply Exists_cons_hd. done.
Defined.

End list_creator_example.

(** ** The list view: grouping and sub-grouping by the same field *)

(** C2, as the code has it. When [group_by] and [sub_group_by] are both
    supplied with the same non-empty value, [list] answers 400 with the
    conflict message and hands nothing to a paginator, whatever the other
    parameters are; when [group_by] or [sub_group_by] is absent or empty, or
    the two differ, the handler ends in the paginator's call and raises no
    such error. *)
Theorem list_same_group_by_rejected `{Collaborators} {D}
    (request : Request D) slug project_id db :
  (∀ g, g ≠ "" →
        GET request !! "group_by" = Some g →
        GET request !! "sub_group_by" = Some g →
        IssueViewSet.list request slug project_id db
        = mkResult
            (Response
               (ErrorBody "Group by and sub group by cannot have same parameters")
               HTTP_400_BAD_REQUEST)
            db
            [recent_visited_task slug project_id "project" project_id
               (user_id (user request))])
  ∧ (truthy (GET request !! "group_by") = false
     ∨ truthy (GET request !! "sub_group_by") = false
     ∨ GET request !! "group_by" ≠ GET request !! "sub_group_by" →
     ∃ call, outcome (IssueViewSet.list request slug project_id db)
             = SelfPaginate call).
Proof.
  split.
  - intros g Hg Hgb Hsgb. unfold IssueViewSet.list.
    destruct (IssueViewSet.list_queryset request slug project_id db) as [qs ob].
    rewrite Hgb, Hsgb. simpl.
    rewrite bool_decide_true by done. simpl.
    by rewrite decide_True.
  - intros Habs. unfold IssueViewSet.list.
    destruct (IssueViewSet.list_queryset request slug project_id db) as [qs ob].
    destruct Habs as [-> | [-> | Hne]]; simpl.
    + by eexists.
    + destruct (truthy _); by eexists.
    + rewrite decide_False by done. repeat case_match; by eexists.
Qed.

Section list_group_by_example.
Import Standin.

Lemma list_same_group_by_rejected_witness :
  outcome (IssueViewSet.list
             (Standin.request (D:=JSON) Standin.member
                (<[ "group_by" := "state_id" ]> {[ "sub_group_by" := "state_id" ]}) ∅)
             "acme" 10 Standin.db)
  = Response (ErrorBody "Group by and sub group by cannot have same parameters") 400
  ∧ ∃ call,
      outcome (IssueViewSet.list
                 (Standin.request (D:=JSON) Standin.member
                    {[ "sub_group_by" := "state_id" ]} ∅)
                 "acme" 10 Standin.db)
      = SelfPaginate call.
Proof.
  split.
  - rewrite (proj1 (list_same_group_by_rejected
               (Standin.request (D:=JSON) Standin.member
                  (<[ "group_by" := "state_id" ]> {[ "sub_group_by" := "state_id" ]}) ∅)
               "acme" 10 Standin.db) "state_id");
      [reflexivity | discriminate | vm_compute; reflexivity | vm_compute; reflexivity].
  - apply (proj2 (list_same_group_by_rejected
               (Standin.request (D:=JSON) Standin.member
                  {[ "sub_group_by" := "state_id" ]} ∅)
               "acme" 10 Standin.db)).
    left. vm_compute. reflexivity.
Defined.

(** C2, as stated, fails when both parameters are supplied as the empty
    string: they are equal, yet [list] ends in the paginator's call. *)
Lemma list_same_group_by_counterexample :
  let request :=
    Standin.request (D:=JSON) Standin.member
      (<[ "group_by" := "" ]> {[ "sub_group_by" := "" ]}) ∅ in
  GET request !! "group_by" = Some ""
  ∧ GET request !! "sub_group_by" = Some ""
  ∧ (∃ call, outcome (IssueViewSet.list request "acme" 10 Standin.db)
             = SelfPaginate call)
  ∧ ∀ body, outcome (IssueViewSet.list request "acme" 10 Standin.db)
            ≠ Response body HTTP_400_BAD_REQUEST.
Proof.
  vm_compute. split; [done|]. split; [done|]. split; [by eexists|]. done.
Qed.

End list_group_by_example.

(** ** The aggregated id arrays *)

Lemma elem_of_left_outer {B} (matches : list B) (r : option B) :
  r ∈ left_outer matches ↔ (matches = [] ∧ r = None) ∨ (∃ b, r = Some b ∧ b ∈ matches).
Proof.
  destruct matches as [|b matches]; unfold left_outer.
  - rewrite list_elem_of_singleton. split; [by left|].
    intros [[_ ?]|(? & _ & Hb)]; [done|]. by apply elem_of_nil in Hb.
  - rewrite list_elem_of_fmap. split.
    + intros (x & -> & ?). right. eauto.
    + intros [[? _]|(x & -> & ?)]; [done|eauto].
Qed.

Lemma elem_of_ArrayAgg_Coalesce {R B} `{EqDecision B} (expr : R → option B)
    (cond : R → Prop) `{∀ r, Decision (cond r)} (rows : list R) v :
  v ∈ Coalesce (ArrayAgg expr cond rows) [] ↔ ∃ r, r ∈ rows ∧ cond r ∧ expr r = v.
Proof.
  unfold ArrayAgg, Coalesce.
  assert (Hin : ∀ r, r ∈ filter cond rows ↔ cond r ∧ r ∈ rows)
    by (intros; apply list_elem_of_filter).
  destruct (filter cond rows) as [|r0 rs]; cbn [default from_option].
  - split; [by intros ?%elem_of_nil|]. intros (r & Hr & Hc & _).
    destruct (Hin r) as [_ Hin']. by apply elem_of_nil in Hin'.
  - unfold id. rewrite elem_of_remove_dups, list_elem_of_fmap. split.
    + intros (r & -> & Hr). apply Hin in Hr as [? ?]. eauto.
    + intros (r & Hr & Hc & <-). exists r. split; [done|]. by apply Hin.
Qed.

(** Every id in [module_ids], as [retrieve] and the paginated list annotate
    it, is the id of a module linked to the issue, and no row of the module
    table with that id is archived when module ids are unique. *)
Lemma annotate_module_ids_not_archived db i v :
  NoDup (IssueModuleTarget.id <$> DB.modules db) →
  v ∈ annotate_module_ids db i →
  ∃ m, v = Some m
       ∧ IssueModule.mk (Issue.id i) m ∈ DB.issue_modules db
       ∧ ∀ t, t ∈ DB.modules db → IssueModuleTarget.id t = m →
              IssueModuleTarget.archived_at t = None.
Proof.
  intros Hnd. unfold annotate_module_ids.
  rewrite elem_of_ArrayAgg_Coalesce. intros (r & Hr & [Hnn Harch] & <-).
  unfold modules_join in Hr. apply list_elem_of_bind in Hr as (o & Hr & Ho).
  apply elem_of_left_outer in Ho as [[_ ->]|(im & -> & Him)].
  { apply list_elem_of_singleton in Hr as ->. done. }
  apply list_elem_of_filter in Him as [Hid Him].
  apply list_elem_of_fmap in Hr as (t' & -> & Ht'). simpl in *.
  exists (IssueModule.module_id im). split; [done|]. split.
  { destruct im; simpl in *; by subst. }
  intros t Ht Htid.
  apply elem_of_left_outer in Ht' as [[Hnil ->]|(t0 & -> & Ht0)].
  - exfalso. assert (Hin : t ∈ filter (λ m, IssueModuleTarget.id m = IssueModule.module_id im)
                                  (DB.modules db)) by by apply list_elem_of_filter.
    rewrite Hnil in Hin. by apply elem_of_nil in Hin.
  - apply list_elem_of_filter in Ht0 as [Ht0id Ht0]. simpl in Harch.
    assert (t = t0) as ->; [|done].
    apply list_elem_of_lookup in Ht as [j Hj], Ht0 as [k Hk].
    assert (j = k) as ->; [|congruence].
    eapply NoDup_lookup; [exact Hnd| |]; rewrite list_lookup_fmap.
    + by rewrite Hj.
    + rewrite Hk. simpl. by rewrite Ht0id, Htid.
Qed.

(** Every id in [assignee_ids] is the id of an assignee of the issue who has
    an active project-member row. *)
Lemma annotate_assignee_ids_active db i v :
  v ∈ annotate_assignee_ids db i →
  ∃ u, v = Some u
       ∧ IssueAssignee.mk (Issue.id i) u ∈ DB.issue_assignees db
       ∧ ∃ m, m ∈ DB.project_members db
              ∧ ProjectMember.member m = u
              ∧ ProjectMember.is_active m = true.
Proof.
  unfold annotate_assignee_ids.
  rewrite elem_of_ArrayAgg_Coalesce. intros (r & Hr & [Hnn Hact] & <-).
  unfold assignees_join in Hr. apply list_elem_of_bind in Hr as (o & Hr & Ho).
  apply elem_of_left_outer in Ho as [[_ ->]|(a & -> & Ha)].
  { apply list_elem_of_singleton in Hr as ->. done. }
  apply list_elem_of_filter in Ha as [Hid Ha].
  apply list_elem_of_fmap in Hr as (m' & -> & Hm'). simpl in *.
  exists (IssueAssignee.assignee_id a). split; [done|]. split.
  { destruct a; simpl in *; by subst. }
  apply elem_of_left_outer in Hm' as [[_ ->]|(m & -> & Hm)]; [done|].
  apply list_elem_of_filter in Hm as [Hmem Hm]. simpl in Hact.
  exists m. repeat split; [done|done|congruence].
Qed.

Section annotations.
Context `{Collaborators} {D : Type}.

(** [retrieve] returns the issue with [assignee_ids] restricted to active
    members and [module_ids] restricted to modules that are not archived. *)
Lemma retrieve_annotations self (request : Request D) slug project_id pk db
    row is_subscribed e status :
  outcome (IssueViewSet.retrieve self request slug project_id pk db)
  = Response (IssueDetailSerializer row is_subscribed e) status →
  assignee_ids row = annotate_assignee_ids db (issue row)
  ∧ module_ids row = annotate_module_ids db (issue row).
Proof.
  unfold IssueViewSet.retrieve.
  destruct (IssueViewSet.retrieve_issue request slug project_id pk db)
    as [[row' sub]|] eqn:Hissue; [|done].
  intros ?. apply first_elem_of in Hissue.
  apply list_elem_of_fmap in Hissue as (i & ? & _). by simplify_eq/=.
Qed.

(** So does the paginated list, for every row of its queryset. *)
Lemma paginated_list_annotations (request : Request D) slug project_id db
    call status row :
  outcome (IssuePaginatedViewSet.list request slug project_id db)
  = ResponsePaginate call status →
  row ∈ sp_queryset call →
  assignee_ids row = annotate_assignee_ids db (issue row)
  ∧ module_ids row = annotate_module_ids db (issue row).
Proof.
  unfold IssuePaginatedViewSet.list.
  destruct (IssuePaginatedViewSet.updated_at__gte _) as [e|since]; [done|].
  intros [= <- _]. simpl. intros (i & -> & _)%list_elem_of_fmap. done.
Qed.

(** [partial_update] restricts [assignee_ids] in the same way, and takes
    [module_ids] from every module linked to the issue. *)
Lemma partial_update_annotations slug project_id pk db row :
  IssueViewSet.partial_update_issue slug project_id pk db = Some row →
  assignee_ids row = annotate_assignee_ids db (issue row)
  ∧ module_ids row = annotate_module_ids_any db (issue row).
Proof.
  intros Hissue%first_elem_of.
  apply list_elem_of_filter in Hissue as [_ Hissue].
  apply list_elem_of_fmap in Hissue as (i & -> & _). done.
Qed.

End annotations.

Section annotations_example.
Import Standin.

(** C3. The first issue of [Standin.db] is linked to module 7, which is
    archived, and to module 8, which is not; its assignee 300 is inactive.
    [retrieve] and the paginated list annotate it with module 8 only, while
    [partial_update] resolves it with both modules and hands that snapshot on
    to the activity task; the assignees are restricted alike in all three. *)
Theorem partial_update_module_ids_keep_archived :
  let request := Standin.request (D:=JSON) member ∅ ∅ in
  let issue1 := Issue.mk 1 1 10 (Some 100%N) 5 None false None in
  outcome (IssueViewSet.retrieve (mkView [] []) request "acme" 10 1 db)
  = Response
      (IssueDetailSerializer
         (mkRow issue1 [Some 60%N] [Some 200%N] [Some 8%N]) false [])
      200
  ∧ module_ids <$>
      outcome_rows (outcome (IssuePaginatedViewSet.list request "acme" 10 db))
    = [[]; [Some 8%N]]
  ∧ assignee_ids <$>
      outcome_rows (outcome (IssuePaginatedViewSet.list request "acme" 10 db))
    = [[]; [Some 200%N]]
  ∧ IssueViewSet.partial_update_issue "acme" 10 1 db
    = Some (mkRow issue1 [Some 60%N] [Some 200%N] [Some 7%N; Some 8%N])
  ∧ IssueViewSet.partial_update request "acme" 10 1 77 db
    = mkResult (Response NoBody 204) db
        [issue_activity "issue.activity.updated" ∅ 200 1 10
           (Some (mkRow issue1 [Some 60%N] [Some 200%N] [Some 7%N; Some 8%N]))
           77 None].
Proof. repeat split; vm_compute; reflexivity. Qed.

(** The assignee filter looks for an active project-member row of the
    assignee in any project: once user 300, inactive in project 10, has an
    active membership of project 20, the issue of project 10 lists the
    user among its assignees. *)
Example assignee_active_in_another_project :
  let db' :=
    DB.mk (DB.workspaces db) (DB.projects db) (DB.issues db)
      (DB.project_members db ++ [ProjectMember.mk 1 20 300 20 true])
      (DB.modules db) (DB.issue_labels db) (DB.issue_assignees db)
      (DB.issue_modules db) (DB.issue_subscribers db)
      (DB.issue_user_properties db) in
  assignee_ids <$> IssueViewSet.partial_update_issue "acme" 10 1 db'
  = Some [Some 200%N; Some 300%N]
  ∧ assignee_ids <$>
      outcome_rows
        (outcome (IssueViewSet.retrieve (mkView [] [])
                    (Standin.request (D:=JSON) member ∅ ∅) "acme" 10 1 db'))
    = [[Some 200%N; Some 300%N]].
Proof. split; vm_compute; reflexivity. Qed.

End annotations_example.

(** ** Soft-deleted issues *)

(** Unfolds membership in a chain of query combinators. *)
Ltac queryset_elem :=
  repeat match goal with
  | Hin : _ ∈ distinct _ |- _ => apply (proj1 (elem_of_distinct _ _)) in Hin
  | Hin : _ ∈ order_by _ _ |- _ => apply (proj1 (elem_of_order_by _ _ _)) in Hin
  | Hin : _ ∈ filter _ _ |- _ =>
      apply (proj1 (list_elem_of_filter _ _ _)) in Hin as [? Hin]
  | Hin : _ ∈ Issue_issue_objects _ |- _ =>
      apply (proj1 (elem_of_Issue_issue_objects _ _)) in Hin as [(? & ? & ?) Hin]
  | Hin : _ ∈ Issue_objects _ |- _ =>
      apply (proj1 (elem_of_Issue_objects _ _)) in Hin as [? Hin]
  end.

Lemma zip_fmap_self {A B} (f : A → B) (l : list A) :
  zip l (f <$> l) = (λ x, (x, f x)) <$> l.
Proof. induction l as [|x l IH]; [done|]. csimpl. by f_equal. Qed.

Lemma touched_same db : touched db db = [].
Proof.
  unfold touched. rewrite zip_diag.
  assert (filter (λ p : Issue.t * Issue.t, p.1 ≠ p.2)
                 ((λ x, (x, x)) <$> DB.issues db) = []) as ->; [|done].
  apply elem_of_nil_inv. intros [a b] [Hne Hin]%list_elem_of_filter.
  apply list_elem_of_fmap in Hin as (x & ? & _). by simplify_eq/=.
Qed.

(** The rows that [soft_delete] changes are rows it selected. *)
Lemma touched_soft_delete now (selected : Issue.t → Prop)
    `{∀ i, Decision (selected i)} db i :
  i ∈ touched db (soft_delete now selected db) → selected i ∧ i ∈ DB.issues db.
Proof.
  unfold touched, soft_delete. simpl. rewrite zip_fmap_self.
  intros ([i1 i2] & -> & Hin)%list_elem_of_fmap.
  apply list_elem_of_filter in Hin as [Hne Hin].
  apply list_elem_of_fmap in Hin as (x & [= -> ->] & Hx). simpl in *.
  by destruct (decide (selected x)).
Qed.

Section soft_deleted.
Context `{Collaborators} `{!CollaboratorLaws} `{InstanceDelete} {D : Type}.

Lemma IssueViewSet_get_queryset_live slug project_id db i :
  i ∈ IssueViewSet.get_queryset slug project_id db → live i.
Proof. unfold IssueViewSet.get_queryset. intros Hin. by queryset_elem. Qed.

Lemma IssueListEndpoint_get_live self (request : Request D) slug project_id db :
  Forall live (result_issues (IssueListEndpoint.get self request slug project_id db)).
Proof.
  apply Forall_forall. intros i. unfold IssueListEndpoint.get, result_issues.
  repeat case_match; simpl; rewrite ?app_nil_r; try by intros ?%elem_of_nil.
  - intros Hin. by queryset_elem.
  - intros (row & -> & Hin)%list_elem_of_fmap.
    apply issue_queryset_grouper_sub, order_issue_queryset_sub in Hin.
    by queryset_elem.
Qed.

Lemma IssueViewSet_list_live (request : Request D) slug project_id db :
  Forall live (result_issues (IssueViewSet.list request slug project_id db)).
Proof.
  apply Forall_forall. intros i. unfold IssueViewSet.list, result_issues.
  unfold IssueViewSet.list_queryset.
  destruct (order_issue_queryset db _ _) as [qs ob] eqn:Horder.
  assert (Hlive : ∀ r, r ∈ issue_queryset_grouper db qs (GET request !! "group_by")
                              (GET request !! "sub_group_by") → live (issue r)).
  { intros r Hin%issue_queryset_grouper_sub.
    change qs with (qs, ob).1 in Hin. rewrite <- Horder in Hin.
    apply order_issue_queryset_sub in Hin. queryset_elem.
    by eapply IssueViewSet_get_queryset_live. }
  repeat case_match; simpl; rewrite ?app_nil_r; try by intros ?%elem_of_nil.
  all: intros (row & -> & Hin)%list_elem_of_fmap; queryset_elem; by apply Hlive.
Qed.

Lemma IssueViewSet_retrieve_live self (request : Request D) slug project_id pk db :
  Forall live (result_issues (IssueViewSet.retrieve self request slug project_id pk db)).
Proof.
  apply Forall_forall. intros i. unfold IssueViewSet.retrieve, result_issues.
  destruct (IssueViewSet.retrieve_issue _ _ _ _ _) as [[row sub]|] eqn:Hissue;
    simpl; [|by intros ?%elem_of_nil].
  intros ->%list_elem_of_singleton. apply first_elem_of in Hissue.
  apply list_elem_of_fmap in Hissue as (i & ? & Hin). simplify_eq/=.
  queryset_elem. by eapply IssueViewSet_get_queryset_live.
Qed.

Lemma IssueViewSet_partial_update_live (request : Request JSON) slug project_id
    pk now db :
  (∀ row, IssueViewSet.partial_update_issue slug project_id pk db = Some row →
          live (issue row))
  ∧ Forall live
      (result_issues (IssueViewSet.partial_update request slug project_id pk now db)).
Proof.
  assert (Hrow : ∀ row,
    IssueViewSet.partial_update_issue slug project_id pk db = Some row →
    live (issue row)).
  { intros row Hin%first_elem_of. queryset_elem.
    apply list_elem_of_fmap in Hin as (i & -> & Hin).
    by eapply IssueViewSet_get_queryset_live. }
  split; [done|].
  apply Forall_forall. intros i. unfold IssueViewSet.partial_update, result_issues.
  destruct (IssueViewSet.partial_update_issue _ _ _ _) as [row|];
    simpl; [|by intros ?%elem_of_nil].
  destruct (serializer_save _ _ _); simpl; [|by intros ?%elem_of_nil].
  intros ->%list_elem_of_singleton. by apply Hrow.
Qed.

Lemma IssuePaginatedViewSet_list_live (request : Request D) slug project_id db :
  Forall live (result_issues (IssuePaginatedViewSet.list request slug project_id db)).
Proof.
  apply Forall_forall. intros i. unfold IssuePaginatedViewSet.list, result_issues.
  destruct (IssuePaginatedViewSet.updated_at__gte _) as [e|since]; simpl;
    [by intros ?%elem_of_nil|].
  rewrite app_nil_r, elem_of_app, list_elem_of_fmap.
  unfold IssuePaginatedViewSet.get_queryset.
  intros [Hin|(r & -> & Hin)].
  - destruct since; by queryset_elem.
  - apply list_elem_of_fmap in Hin as (i & -> & Hin). simpl.
    destruct since; by queryset_elem.
Qed.

Lemma BulkDeleteIssuesEndpoint_delete_live request slug project_id now db :
  Forall live
    (touched db (store (BulkDeleteIssuesEndpoint.delete request slug project_id now db))).
Proof.
  apply Forall_forall. intros i. unfold BulkDeleteIssuesEndpoint.delete.
  repeat case_match; simpl; rewrite ?touched_same; try by intros ?%elem_of_nil.
  intros [Hin _]%touched_soft_delete. by queryset_elem.
Qed.

Lemma IssueViewSet_destroy_live (request : Request D) slug project_id pk now db :
  (∀ body status,
     outcome (IssueViewSet.destroy request slug project_id pk now db)
     = Response body status →
     ∃ i, i ∈ DB.issues db ∧ Issue.id i = pk ∧ live i
          ∧ store (IssueViewSet.destroy request slug project_id pk now db)
            = instance_delete now i db)
  ∧ (Forall (λ i, Issue.id i = pk → ¬ live i) (DB.issues db) →
     IssueViewSet.destroy request slug project_id pk now db
     = mkResult (Raise DoesNotExist) db []).
Proof.
  unfold IssueViewSet.destroy. split.
  - intros body status.
    destruct (get_one _) as [e|i] eqn:Hget; simpl; [done|]. intros _.
    unfold get_one in Hget. repeat case_match; simplify_eq.
    assert (Hin : i ∈ [i]) by left.
    match goal with Heq : filter _ _ = [i] |- _ => rewrite <- Heq in Hin end.
    queryset_elem. exists i. by destruct_and!.
  - intros Hall.
    assert (filter (λ i, workspace__slug db (Issue.workspace_id i) slug
                         ∧ Issue.project_id i = project_id ∧ Issue.id i = pk)
                   (Issue_objects db) = []) as ->; [|done].
    apply elem_of_nil_inv. intros i Hin. queryset_elem. destruct_and!.
    rewrite Forall_forall in Hall. by eapply Hall.
Qed.

End soft_deleted.

(** C4. No issue returned or worked on by the read handlers and by the bulk
    delete is soft-deleted: every issue in the outcome of
    [IssueListEndpoint.get], of [IssueViewSet.list], [retrieve] and
    [partial_update] and of [IssuePaginatedViewSet.list] has a null
    [deleted_at], as has every row that the bulk delete changes; and
    [destroy] resolves its target among the rows with a null [deleted_at],
    which is the instance it deletes, raising [DoesNotExist] when the key
    names soft-deleted rows only. *)
Theorem soft_deleted_issues_excluded `{C : Collaborators}
    (laws : CollaboratorLaws) `{InstanceDelete} {D} :
  (∀ self (request : Request D) slug project_id db,
     Forall live (result_issues (IssueListEndpoint.get self request slug project_id db)))
  ∧ (∀ (request : Request D) slug project_id db,
       Forall live (result_issues (IssueViewSet.list request slug project_id db)))
  ∧ (∀ self (request : Request D) slug project_id pk db,
       Forall live
         (result_issues (IssueViewSet.retrieve self request slug project_id pk db)))
  ∧ (∀ request slug project_id pk now db,
       (∀ row, IssueViewSet.partial_update_issue slug project_id pk db = Some row →
               live (issue row))
       ∧ Forall live
           (result_issues
              (IssueViewSet.partial_update request slug project_id pk now db)))
  ∧ (∀ (request : Request D) slug project_id db,
       Forall live
         (result_issues (IssuePaginatedViewSet.list request slug project_id db)))
  ∧ (∀ request slug project_id now db,
       Forall live
         (touched db
            (store (BulkDeleteIssuesEndpoint.delete request slug project_id now db))))
  ∧ (∀ (request : Request D) slug project_id pk now db,
       (∀ body status,
          outcome (IssueViewSet.destroy request slug project_id pk now db)
          = Response body status →
          ∃ i, i ∈ DB.issues db ∧ Issue.id i = pk ∧ live i
               ∧ store (IssueViewSet.destroy request slug project_id pk now db)
                 = instance_delete now i db)
       ∧ (Forall (λ i, Issue.id i = pk → ¬ live i) (DB.issues db) →
          IssueViewSet.destroy request slug project_id pk now db
          = mkResult (Raise DoesNotExist) db [])).
Proof.
  repeat split; intros.
  - apply IssueListEndpoint_get_live.
  - apply IssueViewSet_list_live.
  - apply IssueViewSet_retrieve_live.
  - by eapply IssueViewSet_partial_update_live.
  - by apply IssueViewSet_partial_update_live.
  - apply IssuePaginatedViewSet_list_live.
  - apply BulkDeleteIssuesEndpoint_delete_live.
  - by eapply IssueViewSet_destroy_live.
  - by apply IssueViewSet_destroy_live.
Qed.

(** The stand-in collaborators keep within the queryset they are given. *)
Lemma Standin_laws : @CollaboratorLaws Standin.collaborators.
Proof.
  split; simpl.
  - done.
  - intros db qs _ _ r (i & -> & Hi)%list_elem_of_fmap. done.
Qed.

Section soft_deleted_example.
Import Standin.

Lemma soft_deleted_issues_excluded_witness :
  Forall live
    (result_issues
       (IssueListEndpoint.get (mkView [] [])
          (Standin.request (D:=JSON) member {[ "issues" := "1,2,3" ]} ∅)
          "acme" 10 db))
  ∧ IssueViewSet.destroy (Standin.request (D:=JSON) member ∅ ∅) "acme" 10 3 77 db
    = mkResult (Raise DoesNotExist) db [].
Proof.
  pose proof (soft_deleted_issues_excluded Standin_laws (D:=JSON)) as Hall.
  split.
  - apply (proj1 Hall).
  - apply (proj2 (proj2 (proj2 (proj2 (proj2 (proj2 Hall)))))).
    vm_compute. repeat constructor; intros; discriminate.
Defined.

End soft_deleted_example.

(** ** Bulk delete *)

Lemma issue_pk_unique_eq db i j :
  issue_pk_unique db → i ∈ DB.issues db → j ∈ DB.issues db →
  Issue.id i = Issue.id j → i = j.
Proof.
  intros Hnd [n Hn]%list_elem_of_lookup [m Hm]%list_elem_of_lookup Hid.
  assert (n = m) as ->; [|congruence].
  eapply NoDup_lookup; [exact Hnd| |]; rewrite list_lookup_fmap.
  - by rewrite Hn.
  - rewrite Hm. simpl. by rewrite Hid.
Qed.

Section bulk_delete.
Context `{Collaborators}.

(** The rows of the handler's queryset. *)
Lemma elem_of_bulk_delete_queryset db slug project_id pks i :
  i ∈ filter (BulkDeleteIssuesEndpoint.selected db slug project_id pks)
             (Issue_issue_objects db)
  ↔ i ∈ DB.issues db ∧ visible i
    ∧ BulkDeleteIssuesEndpoint.selected db slug project_id pks i.
Proof. rewrite list_elem_of_filter, elem_of_Issue_issue_objects. tauto. Qed.

(** Under unique primary keys, the rows that the handler's queryset selects
    are the rows whose key is one of the given ids that identify an issue. *)
Lemma selected_iff_identified db slug project_id pks i :
  issue_pk_unique db → i ∈ DB.issues db →
  visible i ∧ BulkDeleteIssuesEndpoint.selected db slug project_id pks i
  ↔ Issue.id i ∈ filter (identifies_visible_issue db slug project_id)
                        (remove_dups pks).
Proof.
  intros Hnd Hi. rewrite list_elem_of_filter, elem_of_remove_dups.
  unfold BulkDeleteIssuesEndpoint.selected, identifies_visible_issue. split.
  - intros (Hvis & Hws & Hproj & Hpk). split; [|done].
    apply Exists_exists. exists i. split; [done|]. split; [done|]. tauto.
  - intros [(j & Hj & Hid & Hvis & Hws & Hproj)%Exists_exists Hpk].
    assert (j = i) as -> by by eapply issue_pk_unique_eq. tauto.
Qed.

Lemma total_issues_identified db slug project_id pks :
  issue_pk_unique db →
  length (filter (BulkDeleteIssuesEndpoint.selected db slug project_id pks)
                 (Issue_issue_objects db))
  = length (filter (identifies_visible_issue db slug project_id) (remove_dups pks)).
Proof.
  intros Hnd.
  rewrite <- (length_fmap Issue.id). apply Permutation_length, NoDup_Permutation.
  - refine (sublist_NoDup _ _ Hnd _). apply fmap_sublist.
    etrans; [apply sublist_filter|]. apply sublist_filter.
  - apply NoDup_filter, NoDup_remove_dups.
  - intros pk. rewrite list_elem_of_fmap. split.
    + intros (i & -> & (Hi & Hvis & Hsel)%elem_of_bulk_delete_queryset).
      apply selected_iff_identified; [done|done|]. by split.
    + intros Hpk.
      pose proof Hpk as [(i & Hi & <- & _)%Exists_exists _]%list_elem_of_filter.
      exists i. split; [done|].
      apply selected_iff_identified in Hpk as [Hvis Hsel]; [|done|done].
      by apply elem_of_bulk_delete_queryset.
Qed.

(** The handler on a non-empty list of ids that all convert. *)
Lemma bulk_delete_converted (request : Request (list string)) slug project_id
    now db issue_ids pks :
  data request !! "issue_ids" = Some issue_ids →
  issue_ids ≠ [] →
  pk__in issue_ids = Some pks →
  let issues :=
    filter (BulkDeleteIssuesEndpoint.selected db slug project_id pks)
           (Issue_issue_objects db) in
  BulkDeleteIssuesEndpoint.delete request slug project_id now db
  = mkResult
      (Response (MessageBody (pretty (length issues) +:+ " issues were deleted"))
                HTTP_200_OK)
      (soft_delete now (λ i, i ∈ issues) db) [].
Proof.
  intros Hdata Hne Hpks. unfold BulkDeleteIssuesEndpoint.delete.
  rewrite Hdata. simpl. rewrite bool_decide_false by (by destruct issue_ids).
  by rewrite Hpks.
Qed.

End bulk_delete.

(** C5, as the code has it. For a non-empty list of ids that are all
    well-formed, the bulk delete answers 200 with the number of distinct
    given ids that identify an existing issue of the named workspace and
    project that carries no soft-delete marker; ids that identify no such
    issue raise no error and change nothing; exactly the rows of the
    identified issues are marked deleted, keeping their key, every other row
    and table of the store is as before.  A list with an entry that is no
    UUID raises [ValidationError], and then no row is deleted, also not the
    rows that the other entries identify. *)
Theorem bulk_delete_counts_identified `{Collaborators}
    (request : Request (list string)) slug project_id now db issue_ids :
  issue_pk_unique db →
  data request !! "issue_ids" = Some issue_ids →
  issue_ids ≠ [] →
  let result := BulkDeleteIssuesEndpoint.delete request slug project_id now db in
  (Forall (λ s, is_Some (uuid_to_python s)) issue_ids →
   ∃ pks,
     Forall2 (λ s pk, uuid_to_python s = Some pk) issue_ids pks
     ∧ let identified :=
         filter (identifies_visible_issue db slug project_id) (remove_dups pks) in
       outcome result
       = Response (MessageBody (pretty (length identified) +:+ " issues were deleted"))
                  HTTP_200_OK
       ∧ Forall2 (λ i i', if decide (Issue.id i ∈ identified)
                          then Issue.id i' = Issue.id i
                               ∧ Issue.deleted_at i' = Some now
                          else i' = i)
                 (DB.issues db) (DB.issues (store result))
       ∧ store result = DB.set_issues (DB.issues (store result)) db
       ∧ tasks result = [])
  ∧ (Exists (λ s, uuid_to_python s = None) issue_ids →
     result = mkResult (Raise ValidationError) db []).
Proof.
  intros Hnd Hdata Hne result. subst result. split.
  - intros [pks Hpks]%mapM_is_Some_2. exists pks.
    split; [by apply mapM_Some_1|].
    rewrite (bulk_delete_converted request slug project_id now db issue_ids pks)
      by done.
    cbn [outcome store tasks].
    split; [by rewrite total_issues_identified|]. split; [|done].
    unfold soft_delete. cbn [DB.issues DB.set_issues].
    apply Forall2_fmap_r, Forall_Forall2_diag, Forall_forall. intros i Hi.
    pose proof (selected_iff_identified db slug project_id pks i Hnd Hi) as Hiff.
    unfold compose.
    destruct (decide (Issue.id i ∈ _)) as [Hin|Hnin].
    + rewrite decide_True; [done|].
      apply elem_of_bulk_delete_queryset. split; [done|]. by apply Hiff.
    + rewrite decide_False; [done|].
      intros (_ & Hvis & Hsel)%elem_of_bulk_delete_queryset. by apply Hnin, Hiff.
  - intros Hex%mapM_None_2. unfold BulkDeleteIssuesEndpoint.delete.
    rewrite Hdata. simpl. rewrite bool_decide_false by (by destruct issue_ids).
    unfold pk__in. by rewrite Hex.
Qed.

Section bulk_delete_example.
Import Standin.

Lemma bulk_delete_counts_identified_witness :
  (let request :=
     Standin.request member ∅
       {[ "issue_ids" := ["1"; "3"; "4"; "5"; "6"; "9"; "2"; "1"] ]} in
   ∃ pks,
     Forall2 (λ s pk, uuid_to_python s = Some pk)
             ["1"; "3"; "4"; "5"; "6"; "9"; "2"; "1"] pks
     ∧ outcome (BulkDeleteIssuesEndpoint.delete request "acme" 10 77 db_marked)
       = Response
           (MessageBody
              (pretty
                 (length (filter (identifies_visible_issue db_marked "acme" 10)
                                 (remove_dups pks)))
               +:+ " issues were deleted"))
           200)
  ∧ outcome (BulkDeleteIssuesEndpoint.delete
               (Standin.request member ∅
                  {[ "issue_ids" := ["1"; "3"; "4"; "5"; "6"; "9"; "2"; "1"] ]})
               "acme" 10 77 db_marked)
    = Response (MessageBody "2 issues were deleted") 200
  ∧ BulkDeleteIssuesEndpoint.delete
      (Standin.request member ∅ {[ "issue_ids" := ["1"; "not-a-uuid"] ]})
      "acme" 10 77 db_marked
    = mkResult (Raise ValidationError) db_marked [].
Proof.
  split; [|split].
  - destruct (proj1 (bulk_delete_counts_identified
              (Standin.request member ∅
                 {[ "issue_ids" := ["1"; "3"; "4"; "5"; "6"; "9"; "2"; "1"] ]})
              "acme" 10 77 db_marked ["1"; "3"; "4"; "5"; "6"; "9"; "2"; "1"]
              ltac:(apply (bool_decide_unpack _); vm_compute; exact I)
              ltac:(vm_compute; reflexivity) ltac:(discriminate)))
      as (pks & Hpks & Hout & _).
    + repeat constructor; vm_compute; by eexists.
    + exists pks. split; [exact Hpks|exact Hout].
  - vm_compute. reflexivity.
  - refine (proj2 (bulk_delete_counts_identified
              (Standin.request member ∅ {[ "issue_ids" := ["1"; "not-a-uuid"] ]})
              "acme" 10 77 db_marked ["1"; "not-a-uuid"] _ _ _) _).
    + apply (bool_decide_unpack _). vm_compute. exact I.
    + vm_compute. reflexivity.
    + discriminate.
    + apply Exists_cons_tl, Exists_cons_hd. vm_compute. reflexivity.
Defined.

(** C5, as stated, fails when an entry of the list is no UUID: the entry
    matches no issue, yet it is not ignored; the request raises
    [ValidationError], returns no count, and the issue that the other entry
    identifies is not deleted. *)
Lemma bulk_delete_malformed_id_counterexample :
  let request :=
    Standin.request member ∅ {[ "issue_ids" := ["1"; "not-a-uuid"] ]} in
  data request !! "issue_ids" = Some ["1"; "not-a-uuid"]
  ∧ uuid_to_python "1" = Some 1%N
  ∧ identifies_visible_issue db "acme" 10 1
  ∧ uuid_to_python "not-a-uuid" = None
  ∧ BulkDeleteIssuesEndpoint.delete request "acme" 10 77 db
    = mkResult (Raise ValidationError) db []
  ∧ ∀ body status,
      outcome (BulkDeleteIssuesEndpoint.delete request "acme" 10 77 db)
      ≠ Response body status.
Proof.
  vm_compute. split; [done|]. split; [done|].
  split; [apply Exists_cons_hd; repeat split; apply Exists_cons_hd; done|].
  split; [done|]. split; [done|]. done.
Qed.

End bulk_delete_example.

(** C6. A bulk delete whose [issue_ids] is the empty list answers 400 with
    the message that ids are required, and leaves the store as it was. *)
Theorem bulk_delete_empty_rejected `{Collaborators}
    (request : Request (list string)) slug project_id now db :
  data request !! "issue_ids" = Some [] →
  BulkDeleteIssuesEndpoint.delete request slug project_id now db
  = mkResult (Response (ErrorBody "Issue IDs are required") HTTP_400_BAD_REQUEST)
             db [].
Proof. intros Hdata. unfold BulkDeleteIssuesEndpoint.delete. by rewrite Hdata. Qed.

Section bulk_delete_empty_example.
Import Standin.

Lemma bulk_delete_empty_rejected_witness :
  BulkDeleteIssuesEndpoint.delete
    (Standin.request member ∅ {[ "issue_ids" := [] ]}) "acme" 10 77 db
  = mkResult (Response (ErrorBody "Issue IDs are required") 400) db [].
Proof.
  apply (bulk_delete_empty_rejected
           (Standin.request member ∅ {[ "issue_ids" := [] ]}) "acme" 10 77 db).
  vm_compute. reflexivity.
Defined.

End bulk_delete_empty_example.

(** ** The paginated list: ascending [updated_at] *)

Lemma StronglySorted_filter {A} (R : relation A) (P : A → Prop)
    `{∀ x, Decision (P x)} l :
  StronglySorted R l → StronglySorted R (filter P l).
Proof.
  induction 1 as [|x l Hl IH Hx]; [constructor|].
  rewrite filter_cons. destruct (decide (P x)); [|done].
  constructor; [done|]. apply Forall_forall. intros y [_ Hy]%list_elem_of_filter.
  rewrite Forall_forall in Hx. by apply Hx.
Qed.

Lemma StronglySorted_lookup_le {A} (R : relation A) `{!Reflexive R} l j k a b :
  StronglySorted R l → (j ≤ k)%nat → l !! j = Some a → l !! k = Some b → R a b.
Proof.
  intros Hl. revert j k. induction Hl as [|x l Hl IH Hx]; intros j k Hjk Hj Hk.
  { by rewrite lookup_nil in Hj. }
  destruct j as [|j], k as [|k]; simplify_eq/=; [done| |lia|].
  - rewrite Forall_forall in Hx. apply Hx. by eapply list_elem_of_lookup_2.
  - eapply (IH j k); [lia|done|done].
Qed.

Section paginated_list_selection.
Context `{Collaborators} {D : Type}.

(** The lower bound that the request puts on [updated_at]. *)
Lemma updated_at__gte_bound (request : Request D) since i :
  IssuePaginatedViewSet.updated_at__gte (GET request !! "updated_at__gte")
  = inr since →
  (∀ t, since = Some t → t ≤ Issue.updated_at i)
  ↔ (∀ s t, GET request !! "updated_at__gte" = Some s → s ≠ "" →
            datetime_to_python s = Some t → t ≤ Issue.updated_at i).
Proof.
  unfold IssuePaginatedViewSet.updated_at__gte.
  destruct (GET request !! "updated_at__gte") as [s|]; simpl.
  - case_bool_decide as Hs.
    + destruct (datetime_to_python s) as [t|] eqn:Ht; [|done].
      intros [= <-]. split.
      * intros Hb s' t' [= <-] _ Ht'. apply Hb. congruence.
      * intros Hb t' [= <-]. by eapply Hb.
    + intros [= <-]. split; [|done]. intros _ s' t' [= <-] Hne. by destruct Hs.
  - intros [= <-]. split; [done|]. by intros _ t [=].
Qed.

End paginated_list_selection.

(** C7. The queryset that the paginated list hands to the paginator is in
    ascending order of [updated_at], so the sort key never decreases from one
    position to a later one, whichever consecutive pages the positions fall
    in; and when [updated_at__gte] is supplied with a datetime, every issue
    of the queryset has [updated_at] at or after it.  The queryset holds the
    issues of the workspace and project that carry no soft-delete marker and
    meet that bound, the issues at the bound among them, and no other issue;
    so does the base queryset.  The handler reaches the paginator whenever
    the parameter is absent or holds a datetime. *)
Theorem paginated_list_ascending `{Collaborators} {D}
    (request : Request D) slug project_id db :
  (∀ call status,
     outcome (IssuePaginatedViewSet.list request slug project_id db)
     = ResponsePaginate call status →
     StronglySorted (asc Z.le (λ r, Issue.updated_at (issue r))) (sp_queryset call)
     ∧ StronglySorted (asc Z.le Issue.updated_at) (sp_base_queryset call)
     ∧ (∀ j k a b, (j ≤ k)%nat →
          sp_queryset call !! j = Some a → sp_queryset call !! k = Some b →
          Issue.updated_at (issue a) ≤ Issue.updated_at (issue b))
     ∧ (∀ s t, GET request !! "updated_at__gte" = Some s → s ≠ "" →
          datetime_to_python s = Some t →
          Forall (λ r, t ≤ Issue.updated_at (issue r)) (sp_queryset call)
          ∧ Forall (λ i, t ≤ Issue.updated_at i) (sp_base_queryset call))
     ∧ (let selected i :=
          i ∈ DB.issues db ∧ visible i ∧ in_scope db slug project_id i
          ∧ ∀ s t, GET request !! "updated_at__gte" = Some s → s ≠ "" →
                   datetime_to_python s = Some t → t ≤ Issue.updated_at i in
        (∀ i, i ∈ issue <$> sp_queryset call ↔ selected i)
        ∧ (∀ i, i ∈ sp_base_queryset call ↔ selected i)))
  ∧ (GET request !! "updated_at__gte" = None
     ∨ (∃ s t, GET request !! "updated_at__gte" = Some s
               ∧ datetime_to_python s = Some t) →
     ∃ call, outcome (IssuePaginatedViewSet.list request slug project_id db)
             = ResponsePaginate call HTTP_200_OK).
Proof.
  split.
  - intros call status. unfold IssuePaginatedViewSet.list.
    destruct (IssuePaginatedViewSet.updated_at__gte _) as [e|since] eqn:Hsince;
      [done|].
    intros [= <- _]. cbn [sp_queryset sp_base_queryset].
    assert (Hq : StronglySorted (asc Z.le (λ r, Issue.updated_at (issue r)))
              (IssuePaginatedViewSet.annotate db <$>
                 match since with
                 | Some t =>
                     filter (λ i, t ≤ Issue.updated_at i)
                       (order_by Issue.updated_at
                          (IssuePaginatedViewSet.get_queryset slug project_id db))
                 | None =>
                     order_by Issue.updated_at
                       (IssuePaginatedViewSet.get_queryset slug project_id db)
                 end)).
    { apply (StronglySorted_fmap _ (asc Z.le Issue.updated_at)); [done|].
      destruct since; [apply StronglySorted_filter|]; apply order_by_sorted. }
    split; [done|]. split.
    { destruct since; [apply StronglySorted_filter|]; apply order_by_sorted. }
    split.
    { intros j k a b Hjk Hj Hk.
      apply (StronglySorted_lookup_le _ _ j k a b Hq Hjk Hj Hk). }
    split.
    { intros s t Hs Hne Ht. unfold IssuePaginatedViewSet.updated_at__gte in Hsince.
      rewrite Hs in Hsince. simpl in Hsince.
      rewrite bool_decide_true, Ht in Hsince by done. simplify_eq. split.
      + apply Forall_fmap, Forall_forall. by intros i [? _]%list_elem_of_filter.
      + apply Forall_forall. by intros i [? _]%list_elem_of_filter. }
    rewrite <- list_fmap_compose.
    assert (Hid : ∀ l : list Issue.t,
              (issue ∘ IssuePaginatedViewSet.annotate db) <$> l = l).
    { intros l. rewrite <- (list_fmap_id l) at 2. by apply list_fmap_ext. }
    rewrite Hid. split.
    + intros i. rewrite <- (updated_at__gte_bound request since i Hsince).
      destruct since as [t|].
      * rewrite list_elem_of_filter, elem_of_order_by,
          elem_of_IssuePaginatedViewSet_get_queryset.
        split; [intros (? & ? & ? & ?)|intros (? & ? & ? & Hb)].
        -- do 3 (split; [done|]). by intros ? [= <-].
        -- split; [by apply Hb|done].
      * rewrite elem_of_order_by, elem_of_IssuePaginatedViewSet_get_queryset.
        split; [intros (? & ? & ?)|intros (? & ? & ? & _)]; done.
    + intros i. rewrite <- (updated_at__gte_bound request since i Hsince).
      unfold in_scope.
      destruct since as [t|].
      * rewrite list_elem_of_filter, elem_of_order_by, list_elem_of_filter,
          elem_of_Issue_issue_objects.
        split; [intros (? & ? & ? & ?)|intros (? & ? & ? & Hb)].
        -- do 3 (split; [done|]). by intros ? [= <-].
        -- split; [by apply Hb|done].
      * rewrite elem_of_order_by, list_elem_of_filter, elem_of_Issue_issue_objects.
        split; [intros (? & ? & ?)|intros (? & ? & ? & _)]; done.
  - unfold IssuePaginatedViewSet.list, IssuePaginatedViewSet.updated_at__gte.
    intros [->|(s & t & -> & Ht)]; simpl; [by eexists|].
    destruct (bool_decide (s ≠ "")); [rewrite Ht|]; by eexists.
Qed.

Section paginated_list_example.
Import Standin.

Lemma paginated_list_ascending_witness :
  ∃ call,
    outcome (IssuePaginatedViewSet.list
               (Standin.request (D:=JSON) member {[ "updated_at__gte" := "3" ]} ∅)
               "acme" 10 db_marked)
    = ResponsePaginate call 200
    ∧ StronglySorted (asc Z.le (λ r, Issue.updated_at (issue r))) (sp_queryset call)
    ∧ Forall (λ r, 3 ≤ Issue.updated_at (issue r)) (sp_queryset call)
    ∧ Issue.mk 2 1 10 (Some 200%N) 3 None false None ∈ issue <$> sp_queryset call
    ∧ Issue.mk 1 1 10 (Some 100%N) 5 None false None ∈ issue <$> sp_queryset call
    ∧ Issue.mk 5 1 10 (Some 200%N) 6 (Some 30) false None
      ∉ issue <$> sp_queryset call.
Proof.
  eexists. split; [vm_compute; reflexivity|].
  match goal with |- StronglySorted _ (sp_queryset ?c) ∧ _ =>
    assert (Hout : outcome (IssuePaginatedViewSet.list
                     (Standin.request (D:=JSON) member
                        {[ "updated_at__gte" := "3" ]} ∅)
                     "acme" 10 db_marked)
                   = ResponsePaginate c 200) by (vm_compute; reflexivity);
    destruct (proj1 (paginated_list_ascending
                (Standin.request (D:=JSON) member {[ "updated_at__gte" := "3" ]} ∅)
                "acme" 10 db_marked) c 200 Hout)
      as (Hsorted & _ & _ & Hbound & Hmem & _)
  end.
  split; [exact Hsorted|]. split.
  { refine (proj1 (Hbound "3" 3 _ _ _)); [vm_compute; reflexivity|discriminate|].
    vm_compute. reflexivity. }
  assert (Hscope : ∀ i, Issue.workspace_id i = 1%N → Issue.project_id i = 10%N →
            in_scope db_marked "acme" 10 i).
  { intros i Hws Hproj. split; [|done]. apply Exists_cons_hd. by split. }
  assert (Hsince : ∀ i, 3 ≤ Issue.updated_at i →
            ∀ s t, GET (Standin.request (D:=JSON) member
                          {[ "updated_at__gte" := "3" ]} ∅) !! "updated_at__gte"
                   = Some s → s ≠ "" →
                   datetime_to_python s = Some t → t ≤ Issue.updated_at i).
  { intros i Hi s t Hs _ Ht. vm_compute in Hs. injection Hs as <-.
    vm_compute in Ht. injection Ht as <-. exact Hi. }
  split; [|split].
  - apply Hmem. split; [|split; [|split]].
    + apply (bool_decide_unpack _). vm_compute. exact I.
    + by repeat split.
    + by apply Hscope.
    + by apply Hsince.
  - apply Hmem. split; [|split; [|split]].
    + apply (bool_decide_unpack _). vm_compute. exact I.
    + by repeat split.
    + by apply Hscope.
    + by apply Hsince.
  - intros (_ & (_ & Harchived & _) & _)%Hmem. discriminate.
Defined.

End paginated_list_example.

(** ** The id-scoped list: empty entries of [issues] *)

(** C8, as the code has it. The empty entries of a non-empty [issues]
    parameter are dropped before the lookup: they never reach the UUID
    conversion, so the request fails validation only when a non-empty entry is
    no UUID, and every issue returned has one of the non-empty entries as its
    key.  The lookup on the remaining entries is applied in every case: when
    all entries are empty, it is a lookup on the empty set, and the answer is
    a 200 without issues. *)
Theorem issues_parameter_empty_entries_dropped `{C : Collaborators}
    (laws : CollaboratorLaws) {D} self (request : Request D) slug project_id db s :
  GET request !! "issues" = Some s →
  s ≠ "" →
  let entries := filter (λ e, e ≠ "") (split comma s) in
  let result := IssueListEndpoint.get self request slug project_id db in
  (outcome result = Raise ValidationError
   ↔ Exists (λ e, uuid_to_python e = None) entries)
  ∧ (∀ pks, mapM uuid_to_python entries = Some pks →
       (∃ body, outcome result = Response body HTTP_200_OK)
       ∧ Forall (λ i, Issue.id i ∈ pks) (outcome_issues (outcome result)))
  ∧ (entries = [] →
       (∃ body, outcome result = Response body HTTP_200_OK)
       ∧ outcome_issues (outcome result) = []).
Proof.
  intros Hs Hne entries result.
  assert (Hpks : ∀ pks, mapM uuid_to_python entries = Some pks →
    (∃ body, outcome result = Response body HTTP_200_OK)
    ∧ Forall (λ i, Issue.id i ∈ pks) (outcome_issues (outcome result))).
  { intros pks Hpks. subst result. unfold IssueListEndpoint.get.
    rewrite Hs. simpl. rewrite bool_decide_true by done. simpl.
    fold entries. unfold pk__in. rewrite Hpks.
    case_bool_decide; simpl; (split; [by eexists|]); apply Forall_forall; intros i.
    - intros Hin. queryset_elem. by destruct_and!.
    - intros (row & -> & Hin)%list_elem_of_fmap.
      apply issue_queryset_grouper_sub, order_issue_queryset_sub in Hin.
      queryset_elem. by destruct_and!. }
  split; [|split; [done|]].
  - destruct (mapM uuid_to_python entries) as [pks|] eqn:Hconv.
    + destruct (Hpks pks eq_refl) as [[body ->] _]. split; [done|].
      intros Hex%mapM_None_2. congruence.
    + split; [intros _; by apply mapM_None_1|]. intros _.
      subst result. unfold IssueListEndpoint.get.
      rewrite Hs. simpl. rewrite bool_decide_true by done. simpl.
      fold entries. unfold pk__in. by rewrite Hconv.
  - intros Hnil. destruct (Hpks []) as [Hbody Hall]; [by rewrite Hnil|].
    split; [done|]. apply elem_of_nil_inv. intros i Hi.
    rewrite Forall_forall in Hall. by apply Hall, elem_of_nil in Hi.
Qed.

Section issues_parameter_example.
Import Standin.

Lemma issues_parameter_empty_entries_dropped_witness :
  (∃ body,
     outcome (IssueListEndpoint.get (mkView [] [])
                (Standin.request (D:=JSON) member {[ "issues" := "1,,2," ]} ∅)
                "acme" 10 db)
     = Response body 200)
  ∧ Forall (λ i, Issue.id i ∈ [1; 2]%N)
      (outcome_issues
         (outcome (IssueListEndpoint.get (mkView [] [])
                     (Standin.request (D:=JSON) member {[ "issues" := "1,,2," ]} ∅)
                     "acme" 10 db))).
Proof.
  refine (proj1 (proj2 (issues_parameter_empty_entries_dropped Standin_laws
            (mkView [] [])
            (Standin.request (D:=JSON) member {[ "issues" := "1,,2," ]} ∅)
            "acme" 10 db "1,,2," _ _)) [1; 2]%N _).
  - vm_compute. reflexivity.
  - discriminate.
  - vm_compute. reflexivity.
Defined.

(** C8, as stated, fails on a parameter made of separators only: with
    [issues=,] every entry is dropped and the lookup on the empty set matches
    nothing, although the project holds issues, where a parameter without any
    entry is answered with the 400 of a missing parameter. *)
Lemma issues_only_separators_counterexample :
  let request s := Standin.request (D:=JSON) member {[ "issues" := s ]} ∅ in
  outcome (IssueListEndpoint.get (mkView [] []) (request ",") "acme" 10 db)
  = Response (ValuesBody [] "UTC") 200
  ∧ outcome (IssueListEndpoint.get (mkView [] []) (request "") "acme" 10 db)
    = Response (ErrorBody "Issues are required") 400
  ∧ length (outcome_issues
              (outcome (IssueListEndpoint.get (mkView [] []) (request "1,2")
                          "acme" 10 db))) = 2%nat.
Proof. vm_compute. done. Qed.

End issues_parameter_example.

(** ** Display properties *)

Section display_properties.
Context `{Collaborators} {D : Type}.

Lemma get_never_not_found (request : Request D) slug project_id new_id db :
  outcome (IssueUserDisplayPropertyEndpoint.get request slug project_id new_id db)
  ≠ Raise DoesNotExist
  ∧ ∀ body,
      outcome (IssueUserDisplayPropertyEndpoint.get request slug project_id new_id db)
      ≠ Response body HTTP_404_NOT_FOUND.
Proof.
  unfold IssueUserDisplayPropertyEndpoint.get,
    IssueUserDisplayPropertyEndpoint.get_or_create,
    IssueUserDisplayPropertyEndpoint.create, get_one.
  repeat case_match; simplify_eq/=; done.
Qed.

(** Adding the row of a user and project that had none keeps the rows
    unique. *)
Lemma property_unique_create p db :
  property_unique db →
  filter (λ q, IssueUserProperty.user q = IssueUserProperty.user p
               ∧ IssueUserProperty.project_id q = IssueUserProperty.project_id p)
         (DB.issue_user_properties db) = [] →
  property_unique
    (DB.set_issue_user_properties (DB.issue_user_properties db ++ [p]) db).
Proof.
  intros Huniq Hnone user project_id. simpl. rewrite filter_app, length_app.
  rewrite filter_cons, filter_nil.
  destruct (decide (IssueUserProperty.user p = user
                    ∧ IssueUserProperty.project_id p = project_id)) as [[<- <-]|_];
    simpl.
  - rewrite Hnone. simpl. lia.
  - specialize (Huniq user project_id). lia.
Qed.

End display_properties.

(** C9. Reading the display properties never fails with not-found: the
    handler neither raises [DoesNotExist] nor answers 404.  On a store with
    at most one row per user and project, for a project that exists, it
    answers 200 with the row of the user and project: the row already stored,
    the store being left as it is, or, when there was none, a new row with the
    default values, added to the store.  Asked again on the resulting store
    it gives the same answer and changes nothing. *)
Theorem display_properties_get_total `{Collaborators} {D}
    (request : Request D) slug project_id new_id db :
  let result :=
    IssueUserDisplayPropertyEndpoint.get request slug project_id new_id db in
  let existing :=
    filter (λ p, IssueUserProperty.user p = user_id (user request)
                 ∧ IssueUserProperty.project_id p = project_id)
           (DB.issue_user_properties db) in
  (outcome result ≠ Raise DoesNotExist
   ∧ ∀ body, outcome result ≠ Response body HTTP_404_NOT_FOUND)
  ∧ (property_unique db →
     Exists (λ p, Project.id p = project_id) (DB.projects db) →
     Forall (λ p, IssueUserProperty.id p ≠ new_id) (DB.issue_user_properties db) →
     ∃ p,
       outcome result = Response (IssueUserPropertySerializer p) HTTP_200_OK
       ∧ IssueUserProperty.user p = user_id (user request)
       ∧ IssueUserProperty.project_id p = project_id
       ∧ property_unique (store result)
       ∧ (existing = [] →
            p = IssueUserProperty.mk new_id (user_id (user request)) project_id
                  default_filters default_display_filters default_display_properties
            ∧ store result
              = DB.set_issue_user_properties (DB.issue_user_properties db ++ [p]) db)
       ∧ (existing ≠ [] → existing = [p] ∧ store result = db)
       ∧ ∀ new_id',
           IssueUserDisplayPropertyEndpoint.get request slug project_id new_id'
             (store result)
           = mkResult (Response (IssueUserPropertySerializer p) HTTP_200_OK)
                      (store result) []).
Proof.
  intros result existing. split; [apply get_never_not_found|].
  intros Huniq Hproject Hfresh. subst result.
  unfold IssueUserDisplayPropertyEndpoint.get,
    IssueUserDisplayPropertyEndpoint.get_or_create.
  pose proof (Huniq (user_id (user request)) project_id) as Hlen.
  fold existing in Hlen |- *.
  destruct existing as [|p [|q l]] eqn:Hexisting; simpl in Hlen; [| |lia].
  - unfold IssueUserDisplayPropertyEndpoint.create. simpl.
    rewrite decide_True by done. simpl.
    eexists. split; [done|]. repeat split; try done.
    + by apply property_unique_create.
    + intros new_id'. unfold IssueUserDisplayPropertyEndpoint.get,
        IssueUserDisplayPropertyEndpoint.get_or_create. simpl.
      rewrite filter_app. fold existing. rewrite Hexisting. simpl.
      rewrite filter_cons, filter_nil. simpl. by rewrite decide_True.
  - simpl. assert (Hp : p ∈ existing) by (rewrite Hexisting; left).
    apply list_elem_of_filter in Hp as [[Hu Hpr] Hp].
    exists p. repeat split; try done.
    intros new_id'. unfold IssueUserDisplayPropertyEndpoint.get,
      IssueUserDisplayPropertyEndpoint.get_or_create.
    fold existing. by rewrite Hexisting.
Qed.

Section display_properties_get_example.
Import Standin.

Lemma display_properties_get_total_witness :
  ∃ p,
    outcome (IssueUserDisplayPropertyEndpoint.get
               (Standin.request (D:=JSON) member ∅ ∅) "acme" 10 900 db)
    = Response (IssueUserPropertySerializer p) 200
    ∧ IssueUserProperty.user p = 200%N.
Proof.
  destruct (proj2 (display_properties_get_total
                     (Standin.request (D:=JSON) member ∅ ∅) "acme" 10 900 db))
    as (p & Hout & Huser & _).
  - intros u pr. vm_compute. lia.
  - vm_compute. apply Exists_cons_hd. reflexivity.
  - vm_compute. constructor.
  - exists p. split; [exact Hout|exact Huser].
Defined.

End display_properties_get_example.

(** C10. Updating the display properties of the row [p] of the user and
    project answers 201 with a row that keeps [p]'s key, user and project and
    in which each of [filters], [display_filters] and [display_properties] is
    the payload's value when the payload has the key and [p]'s value when it
    has not; the stored rows with [p]'s key take that row, every other row
    of the table and every other table is unchanged.  Without one such row
    the handler raises and the store is untouched. *)
Theorem display_properties_patch_frame (request : Request JSON)
    slug project_id db :
  let result := IssueUserDisplayPropertyEndpoint.patch request slug project_id db in
  let existing :=
    filter (λ p, IssueUserProperty.user p = user_id (user request)
                 ∧ IssueUserProperty.project_id p = project_id)
           (DB.issue_user_properties db) in
  (∀ p, existing = [p] →
     ∃ p',
       outcome result = Response (IssueUserPropertySerializer p') HTTP_201_CREATED
       ∧ IssueUserProperty.id p' = IssueUserProperty.id p
       ∧ IssueUserProperty.user p' = IssueUserProperty.user p
       ∧ IssueUserProperty.project_id p' = IssueUserProperty.project_id p
       ∧ IssueUserProperty.filters p'
         = default (IssueUserProperty.filters p) (data request !! "filters")
       ∧ IssueUserProperty.display_filters p'
         = default (IssueUserProperty.display_filters p)
                   (data request !! "display_filters")
       ∧ IssueUserProperty.display_properties p'
         = default (IssueUserProperty.display_properties p)
                   (data request !! "display_properties")
       ∧ (data request !! "filters" = None
          → data request !! "display_filters" = None
          → data request !! "display_properties" = None → p' = p)
       ∧ Forall2 (λ q q', if decide (IssueUserProperty.id q = IssueUserProperty.id p)
                          then q' = p' else q' = q)
                 (DB.issue_user_properties db)
                 (DB.issue_user_properties (store result))
       ∧ store result
         = DB.set_issue_user_properties (DB.issue_user_properties (store result)) db)
  ∧ ((∀ p, existing ≠ [p]) →
     (∃ e, outcome result = Raise e) ∧ store result = db).
Proof.
  intros result existing. subst result.
  unfold IssueUserDisplayPropertyEndpoint.patch. fold existing. split.
  - intros p ->. simpl. eexists. split; [done|]. simpl. repeat split.
    + intros -> -> ->. by destruct p.
    + apply Forall2_fmap_r, Forall_Forall2_diag, Forall_forall. intros q _.
      unfold compose. simpl. by destruct (decide _).
  - intros Hnot. unfold get_one. destruct existing as [|p [|q l]]; simpl.
    + split; [by eexists|done].
    + by destruct (Hnot p).
    + split; [by eexists|done].
Qed.

Section display_properties_patch_example.
Import Standin.

Lemma display_properties_patch_frame_witness :
  let stored := IssueUserProperty.mk 900 200 10 (JObj []) (JStr "list") JNull in
  let db' := DB.set_issue_user_properties [stored] db in
  ∃ p',
    outcome (IssueUserDisplayPropertyEndpoint.patch
               (Standin.request member ∅ {[ "filters" := JStr "mine" ]})
               "acme" 10 db')
    = Response (IssueUserPropertySerializer p') 201
    ∧ IssueUserProperty.display_filters p' = JStr "list".
Proof.
  intros stored db'.
  destruct (proj1 (display_properties_patch_frame
                     (Standin.request member ∅ {[ "filters" := JStr "mine" ]})
                     "acme" 10 db') stored)
    as (p' & Hout & _ & _ & _ & _ & Hdf & _).
  - vm_compute. reflexivity.
  - exists p'. split; [exact Hout|]. rewrite Hdf. vm_compute. reflexivity.
Defined.

End display_properties_patch_example.

(** * Further properties of the handlers *)

(** ** The scope of the read handlers *)

Lemma first_is_Some {A} (pk : A → UUID) qs : qs ≠ [] → is_Some (first pk qs).
Proof.
  intros Hne. destruct (first pk qs) as [x|] eqn:Hfirst; [by eexists|].
  by apply first_None in Hfirst.
Qed.

Section scope.
Context `{C : Collaborators} (laws : CollaboratorLaws) {D : Type}.

Lemma IssueListEndpoint_get_in_scope self (request : Request D) slug project_id db :
  Forall (in_scope db slug project_id)
    (result_issues (IssueListEndpoint.get self request slug project_id db)).
Proof.
  apply Forall_forall. intros i. unfold IssueListEndpoint.get, result_issues, in_scope.
  repeat case_match; simpl; rewrite ?app_nil_r; try by intros ?%elem_of_nil.
  - intros Hin. queryset_elem. by destruct_and!.
  - intros (row & -> & Hin)%list_elem_of_fmap.
    apply issue_queryset_grouper_sub, order_issue_queryset_sub in Hin.
    queryset_elem. by destruct_and!.
Qed.

Lemma IssueViewSet_list_in_scope (request : Request D) slug project_id db :
  Forall (in_scope db slug project_id)
    (result_issues (IssueViewSet.list request slug project_id db)).
Proof.
  apply Forall_forall. intros i. unfold IssueViewSet.list, result_issues.
  unfold IssueViewSet.list_queryset.
  destruct (order_issue_queryset db _ _) as [qs ob] eqn:Horder.
  assert (Hscope : ∀ r, r ∈ issue_queryset_grouper db qs (GET request !! "group_by")
                               (GET request !! "sub_group_by") →
                        in_scope db slug project_id (issue r)).
  { intros r Hin%issue_queryset_grouper_sub.
    change qs with (qs, ob).1 in Hin. rewrite <- Horder in Hin.
    apply order_issue_queryset_sub in Hin. queryset_elem.
    by apply elem_of_IssueViewSet_get_queryset in Hin as (_ & _ & ?). }
  repeat case_match; simpl; rewrite ?app_nil_r; try by intros ?%elem_of_nil.
  all: intros (row & -> & Hin)%list_elem_of_fmap; queryset_elem; by apply Hscope.
Qed.

Lemma IssueViewSet_retrieve_in_scope self (request : Request D) slug project_id pk db :
  Forall (in_scope db slug project_id)
    (result_issues (IssueViewSet.retrieve self request slug project_id pk db)).
Proof.
  apply Forall_forall. intros i. unfold IssueViewSet.retrieve, result_issues.
  destruct (IssueViewSet.retrieve_issue _ _ _ _ _) as [[row sub]|] eqn:Hissue;
    simpl; [|by intros ?%elem_of_nil].
  intros ->%list_elem_of_singleton. apply first_elem_of in Hissue.
  apply list_elem_of_fmap in Hissue as (i & ? & Hin). simplify_eq/=.
  queryset_elem. by apply elem_of_IssueViewSet_get_queryset in Hin as (_ & _ & ?).
Qed.

Lemma IssueViewSet_partial_update_in_scope (request : Request JSON) slug
    project_id pk now db :
  Forall (in_scope db slug project_id)
    (result_issues (IssueViewSet.partial_update request slug project_id pk now db)).
Proof.
  apply Forall_forall. intros i. unfold IssueViewSet.partial_update, result_issues.
  destruct (IssueViewSet.partial_update_issue _ _ _ _) as [row|] eqn:Hissue;
    simpl; [|by intros ?%elem_of_nil].
  destruct (serializer_save _ _ _); simpl; [|by intros ?%elem_of_nil].
  intros ->%list_elem_of_singleton. apply first_elem_of in Hissue. queryset_elem.
  apply list_elem_of_fmap in Hissue as (i & -> & Hin).
  by apply elem_of_IssueViewSet_get_queryset in Hin as (_ & _ & ?).
Qed.

Lemma IssuePaginatedViewSet_list_in_scope (request : Request D) slug project_id db :
  Forall (in_scope db slug project_id)
    (result_issues (IssuePaginatedViewSet.list request slug project_id db)).
Proof.
  apply Forall_forall. intros i. unfold IssuePaginatedViewSet.list, result_issues.
  destruct (IssuePaginatedViewSet.updated_at__gte _) as [e|since]; simpl;
    [by intros ?%elem_of_nil|].
  rewrite app_nil_r, elem_of_app, list_elem_of_fmap.
  intros [Hin|(r & -> & Hin)].
  - destruct since; by queryset_elem.
  - apply list_elem_of_fmap in Hin as (i & -> & Hin). simpl.
    destruct since; queryset_elem;
      by apply elem_of_IssuePaginatedViewSet_get_queryset in Hin as (_ & _ & ?).
Qed.

End scope.

(** X1. Every issue that a read handler returns, hands to a paginator or
    snapshots for the activity log belongs to the workspace and the project
    named in the request's URL. *)
Theorem reads_stay_in_scope `{C : Collaborators} (laws : CollaboratorLaws) {D} :
  (∀ self (request : Request D) slug project_id db,
     Forall (in_scope db slug project_id)
       (result_issues (IssueListEndpoint.get self request slug project_id db)))
  ∧ (∀ (request : Request D) slug project_id db,
       Forall (in_scope db slug project_id)
         (result_issues (IssueViewSet.list request slug project_id db)))
  ∧ (∀ self (request : Request D) slug project_id pk db,
       Forall (in_scope db slug project_id)
         (result_issues (IssueViewSet.retrieve self request slug project_id pk db)))
  ∧ (∀ request slug project_id pk now db,
       Forall (in_scope db slug project_id)
         (result_issues
            (IssueViewSet.partial_update request slug project_id pk now db)))
  ∧ (∀ (request : Request D) slug project_id db,
       Forall (in_scope db slug project_id)
         (result_issues (IssuePaginatedViewSet.list request slug project_id db))).
Proof.
  repeat split; intros.
  - by apply IssueListEndpoint_get_in_scope.
  - by apply IssueViewSet_list_in_scope.
  - apply IssueViewSet_retrieve_in_scope.
  - apply IssueViewSet_partial_update_in_scope.
  - apply IssuePaginatedViewSet_list_in_scope.
Qed.

Section scope_example.
Import Standin.

Lemma reads_stay_in_scope_witness :
  Forall (in_scope db "acme" 10)
    (result_issues
       (IssueListEndpoint.get (mkView [] [])
          (Standin.request (D:=JSON) member {[ "issues" := "1,2,4" ]} ∅)
          "acme" 10 db)).
Proof.
  apply (proj1 (reads_stay_in_scope Standin_laws (D:=JSON))).
Defined.

End scope_example.

(** ** Retrieving and updating one issue *)

Section one_issue.
Context {D : Type}.

Lemma retrieve_issue_None (request : Request D) slug project_id pk db :
  IssueViewSet.retrieve_issue request slug project_id pk db = None
  ↔ ¬ identifies_visible_issue db slug project_id pk.
Proof.
  rewrite identifies_visible_issue_get_queryset.
  unfold IssueViewSet.retrieve_issue. split.
  - intros Hnone%first_None%fmap_nil_inv (i & Hin & Hpk).
    assert (Hi : i ∈ filter (λ i, Issue.id i = pk)
                       (IssueViewSet.get_queryset slug project_id db))
      by by apply list_elem_of_filter.
    rewrite Hnone in Hi. by apply elem_of_nil in Hi.
  - intros Hnot. destruct (first _ _) as [[row sub]|] eqn:Hfirst; [|done].
    apply first_elem_of, list_elem_of_fmap in Hfirst as (i & _ & Hin).
    apply list_elem_of_filter in Hin as [Hpk Hin]. destruct Hnot. eauto.
Qed.

Lemma partial_update_issue_None slug project_id pk db :
  IssueViewSet.partial_update_issue slug project_id pk db = None
  ↔ ¬ identifies_visible_issue db slug project_id pk.
Proof.
  rewrite identifies_visible_issue_get_queryset.
  unfold IssueViewSet.partial_update_issue.
  split.
  - intros Hnone%first_None (i & Hin & Hpk).
    assert (Hi : mkRow i (annotate_label_ids db i) (annotate_assignee_ids db i)
                       (annotate_module_ids_any db i)
                 ∈ filter (λ r, Issue.id (issue r) = pk)
                     ((λ i, mkRow i (annotate_label_ids db i)
                                  (annotate_assignee_ids db i)
                                  (annotate_module_ids_any db i))
                        <$> IssueViewSet.get_queryset slug project_id db)).
    { apply list_elem_of_filter. split; [done|]. apply list_elem_of_fmap. eauto. }
    rewrite Hnone in Hi. by apply elem_of_nil in Hi.
  - intros Hnot. destruct (first _ _) as [row|] eqn:Hfirst; [|done].
    apply first_elem_of, list_elem_of_filter in Hfirst as [Hpk Hin].
    apply list_elem_of_fmap in Hin as (i & -> & Hin). destruct Hnot. eauto.
Qed.

End one_issue.

(** X2. [retrieve] answers 404, records no visit and leaves the store alone
    exactly when the key identifies no issue of the workspace and project
    that carries no soft-delete marker: the key of a deleted, an archived or
    a draft issue is answered like a key that is not in use.  Otherwise it
    answers 200 with an issue of that key, taken from the issue table and
    carrying no marker, and records the visit of that issue. *)
Theorem retrieve_found_iff_identified {D} self (request : Request D)
    slug project_id pk db :
  (¬ identifies_visible_issue db slug project_id pk
   ↔ IssueViewSet.retrieve self request slug project_id pk db
     = mkResult
         (Response (ErrorBody "The required object does not exist.")
                   HTTP_404_NOT_FOUND)
         db [])
  ∧ (identifies_visible_issue db slug project_id pk →
     ∃ row is_subscribed,
       IssueViewSet.retrieve self request slug project_id pk db
       = mkResult
           (Response (IssueDetailSerializer row is_subscribed (expand self))
                     HTTP_200_OK)
           db
           [recent_visited_task slug project_id "issue" pk (user_id (user request))]
       ∧ Issue.id (issue row) = pk
       ∧ issue row ∈ DB.issues db
       ∧ visible (issue row)).
Proof.
  unfold IssueViewSet.retrieve. split; [split|].
  - intros Hnot%(retrieve_issue_None request). by rewrite Hnot.
  - destruct (IssueViewSet.retrieve_issue request slug project_id pk db)
      as [[row sub]|] eqn:Hissue; [done|].
    intros _. by apply (retrieve_issue_None request).
  - intros Hid.
    destruct (IssueViewSet.retrieve_issue request slug project_id pk db)
      as [[row sub]|] eqn:Hissue.
    + exists row, sub. split; [done|].
      apply first_elem_of, list_elem_of_fmap in Hissue as (i & ? & Hin).
      simplify_eq/=. apply list_elem_of_filter in Hin as [Hpk Hin].
      by apply elem_of_IssueViewSet_get_queryset in Hin as (? & ? & _).
    + by apply retrieve_issue_None in Hissue.
Qed.

Section retrieve_example.
Import Standin.

Lemma retrieve_found_iff_identified_witness :
  IssueViewSet.retrieve (mkView [] []) (Standin.request (D:=JSON) member ∅ ∅)
    "acme" 10 5 db_marked
  = mkResult (Response (ErrorBody "The required object does not exist.") 404)
             db_marked []
  ∧ ∃ row is_subscribed,
      IssueViewSet.retrieve (mkView [] []) (Standin.request (D:=JSON) member ∅ ∅)
        "acme" 10 2 db_marked
      = mkResult (Response (IssueDetailSerializer row is_subscribed []) 200)
                 db_marked [recent_visited_task "acme" 10 "issue" 2 200]
      ∧ Issue.id (issue row) = 2%N.
Proof.
  split.
  - apply (proj1 (proj1 (retrieve_found_iff_identified (mkView [] [])
                    (Standin.request (D:=JSON) member ∅ ∅) "acme" 10 5 db_marked))).
    apply (bool_decide_unpack _). vm_compute. exact I.
  - destruct (proj2 (retrieve_found_iff_identified (mkView [] [])
                       (Standin.request (D:=JSON) member ∅ ∅) "acme" 10 2 db_marked))
      as (row & sub & Hres & Hpk & _).
    + apply (bool_decide_unpack _). vm_compute. exact I.
    + exists row, sub. split; [exact Hres|exact Hpk].
Defined.

End retrieve_example.

(** X3. [partial_update] answers 404 without consulting the serializer,
    changing the store or queueing a task exactly when the key identifies no
    issue of the workspace and project that carries no soft-delete marker.
    Otherwise a payload that the serializer rejects gives 400 with the store
    unchanged and no task, and a payload it accepts gives 204 with the
    serializer's store and one activity task, whose [current_instance] is
    the issue of that key as it stood before the update. *)
Theorem partial_update_outcomes `{Collaborators} (request : Request JSON)
    slug project_id pk now db :
  let result := IssueViewSet.partial_update request slug project_id pk now db in
  (¬ identifies_visible_issue db slug project_id pk
   ↔ result = mkResult (Response (ErrorBody "Issue not found") HTTP_404_NOT_FOUND)
                       db [])
  ∧ (identifies_visible_issue db slug project_id pk →
     ∃ row,
       IssueViewSet.partial_update_issue slug project_id pk db = Some row
       ∧ Issue.id (issue row) = pk
       ∧ issue row ∈ DB.issues db
       ∧ visible (issue row)
       ∧ match serializer_save db row (data request) with
         | None =>
             result = mkResult (Response SerializerErrors HTTP_400_BAD_REQUEST) db []
         | Some db' =>
             result
             = mkResult (Response NoBody HTTP_204_NO_CONTENT) db'
                 [issue_activity "issue.activity.updated" (data request)
                    (user_id (user request)) pk project_id (Some row) now
                    (HTTP_ORIGIN request)]
         end).
Proof.
  intros result. subst result. unfold IssueViewSet.partial_update. split; [split|].
  - intros Hnot%partial_update_issue_None. by rewrite Hnot.
  - destruct (IssueViewSet.partial_update_issue slug project_id pk db)
      as [row|] eqn:Hissue.
    + by destruct (serializer_save db row (data request)).
    + intros _. by apply partial_update_issue_None.
  - intros Hid.
    destruct (IssueViewSet.partial_update_issue slug project_id pk db)
      as [row|] eqn:Hissue; [|by apply partial_update_issue_None in Hissue].
    exists row. split; [done|].
    apply first_elem_of, list_elem_of_filter in Hissue as [Hpk Hin].
    apply list_elem_of_fmap in Hin as (i & -> & Hin).
    apply elem_of_IssueViewSet_get_queryset in Hin as (? & ? & _).
    split; [done|]. split; [done|]. split; [done|].
    by destruct (serializer_save _ _ _).
Qed.

Section partial_update_example.
Import Standin.

Lemma partial_update_outcomes_witness :
  IssueViewSet.partial_update (Standin.request member ∅ ∅) "acme" 10 6 77 db_marked
  = mkResult (Response (ErrorBody "Issue not found") 404) db_marked []
  ∧ ∃ row,
      IssueViewSet.partial_update_issue "acme" 10 2 db_marked = Some row
      ∧ Issue.id (issue row) = 2%N
      ∧ IssueViewSet.partial_update (Standin.request member ∅ ∅)
          "acme" 10 2 77 db_marked
        = mkResult (Response NoBody 204) db_marked
            [issue_activity "issue.activity.updated" ∅ 200 2 10 (Some row) 77 None].
Proof.
  split.
  - apply (proj1 (proj1 (partial_update_outcomes (Standin.request member ∅ ∅)
                    "acme" 10 6 77 db_marked))).
    apply (bool_decide_unpack _). vm_compute. exact I.
  - destruct (proj2 (partial_update_outcomes (Standin.request member ∅ ∅)
                       "acme" 10 2 77 db_marked))
      as (row & Hrow & Hpk & _ & _ & Hres).
    + apply (bool_decide_unpack _). vm_compute. exact I.
    + exists row. split; [exact Hrow|]. split; [exact Hpk|exact Hres].
Defined.

End partial_update_example.

(** ** Deleting issues *)

Lemma filter_unique_key {A} (key : A → UUID) (P : A → Prop)
    `{∀ x, Decision (P x)} l x :
  NoDup (key <$> l) → x ∈ l → P x → (∀ y, y ∈ l → P y → key y = key x) →
  filter P l = [x].
Proof.
  induction l as [|a l IH]; intros Hnd Hx HP Hkey; [by apply elem_of_nil in Hx|].
  rewrite fmap_cons in Hnd. apply NoDup_cons in Hnd as [Ha Hnd].
  assert (Hrest : ∀ y, y ∈ l → P y → key y = key x)
    by (intros y Hy; apply Hkey; by right).
  rewrite filter_cons. apply elem_of_cons in Hx as [<-|Hx].
  - rewrite decide_True by done. f_equal. apply elem_of_nil_inv.
    intros y [HPy Hy]%list_elem_of_filter. apply Ha.
    rewrite <- (Hrest y Hy HPy). apply list_elem_of_fmap. eauto.
  - rewrite decide_False; [by apply IH|].
    intros HPa. apply Ha. rewrite (Hkey a); [|left|done].
    apply list_elem_of_fmap. eauto.
Qed.

Lemma soft_delete_pk_unique now (P : Issue.t → Prop) `{∀ i, Decision (P i)} db :
  issue_pk_unique db → issue_pk_unique (soft_delete now P db).
Proof.
  unfold issue_pk_unique, soft_delete. simpl. rewrite <- list_fmap_compose.
  intros Hnd. erewrite list_fmap_ext; [exact Hnd|].
  intros _ i _. simpl. by destruct (decide (P i)).
Qed.

(** After a soft delete, a key identifies a visible issue when it identified
    one before that the delete did not select. *)
Lemma identifies_visible_issue_soft_delete now (P : Issue.t → Prop)
    `{∀ i, Decision (P i)} db slug project_id pk :
  identifies_visible_issue (soft_delete now P db) slug project_id pk
  ↔ ∃ i, i ∈ DB.issues db ∧ Issue.id i = pk ∧ visible i
         ∧ in_scope db slug project_id i ∧ ¬ P i.
Proof.
  unfold identifies_visible_issue, in_scope. rewrite Exists_exists.
  unfold soft_delete at 1. simpl. setoid_rewrite list_elem_of_fmap. split.
  - intros (i' & (i & -> & Hi) & Hpk & Hvis & Hws & Hproj).
    destruct (decide (P i)) as [HP|HP]; [by destruct Hvis|]. exists i. tauto.
  - intros (i & Hi & Hpk & Hvis & [Hws Hproj] & HP).
    exists i. split; [exists i; by rewrite decide_False|tauto].
Qed.

Section destroy.
Context `{InstanceDelete} {D : Type}.

(** The rows that the delete of an instance changes have the instance's
    key. *)
Lemma touched_instance_delete now issue db i :
  i ∈ touched db (instance_delete now issue db) →
  Issue.id i = Issue.id issue ∧ i ∈ DB.issues db.
Proof.
  unfold touched, instance_delete. simpl. rewrite zip_fmap_self.
  intros ([i1 i2] & -> & Hin)%list_elem_of_fmap.
  apply list_elem_of_filter in Hin as [Hne Hin].
  apply list_elem_of_fmap in Hin as (x & [= -> ->] & Hx). simpl in *.
  by destruct (decide (Issue.id x = Issue.id issue)).
Qed.


(** Once an instance is deleted, its key identifies no issue. *)
Lemma instance_delete_gone `{!InstanceDeleteLaws} now issue db slug project_id :
  ¬ identifies_issue (instance_delete now issue db) slug project_id (Issue.id issue).
Proof.
  unfold identifies_issue, instance_delete. rewrite Exists_exists. simpl.
  intros (i' & (i & -> & Hi)%list_elem_of_fmap & Hpk & Hlive & _).
  destruct (decide (Issue.id i = Issue.id issue)); [|done].
  by apply (Issue_delete_deleted_at now issue).
Qed.

Lemma destroy_not_identified (request : Request D) slug project_id pk now db :
  ¬ identifies_issue db slug project_id pk →
  IssueViewSet.destroy request slug project_id pk now db
  = mkResult (Raise DoesNotExist) db [].
Proof.
  intros Hnot. unfold IssueViewSet.destroy.
  assert (filter (λ i, workspace__slug db (Issue.workspace_id i) slug
                       ∧ Issue.project_id i = project_id ∧ Issue.id i = pk)
                 (Issue_objects db) = []) as ->; [|done].
  apply elem_of_nil_inv. intros i Hin. queryset_elem. destruct_and!.
  apply Hnot, Exists_exists. exists i. tauto.
Qed.

Lemma destroy_identified (request : Request D) slug project_id pk now db :
  issue_pk_unique db →
  identifies_issue db slug project_id pk →
  ∃ i, i ∈ DB.issues db ∧ Issue.id i = pk ∧ live i ∧ in_scope db slug project_id i
       ∧ IssueViewSet.destroy request slug project_id pk now db
         = mkResult (Response NoBody HTTP_204_NO_CONTENT)
             (instance_delete now i db)
             [issue_activity "issue.activity.deleted"
                {[ "issue_id" := JStr (pretty pk) ]}
                (user_id (user request)) pk project_id None now
                (HTTP_ORIGIN request)].
Proof.
  intros Hnd (i & Hi & Hpk & Hlive & Hws & Hproj)%Exists_exists.
  exists i. repeat split; try done.
  unfold IssueViewSet.destroy, Issue_objects. rewrite list_filter_filter.
  rewrite (filter_unique_key Issue.id _ (DB.issues db) i); try done.
  intros j _ [(_ & _ & ->) _]. done.
Qed.

End destroy.

(** The stand-in for the delete of an instance keeps the key and sets the
    marker. *)
Lemma Standin_delete_laws : @InstanceDeleteLaws Standin.issue_model.
Proof. by split. Qed.


Section destroy_example.
Import Standin.


End destroy_example.

(** X5. With unique issue keys, once [destroy] has deleted the issue of a
    key, a second [destroy] of the key raises [DoesNotExist], [retrieve]
    answers 404 and [partial_update] answers 404, each leaving the store as
    the first delete left it. *)
Theorem destroy_then_gone `{Collaborators} `{M : InstanceDelete}
    (laws : InstanceDeleteLaws) {D} (request : Request D)
    slug project_id pk now db :
  issue_pk_unique db →
  identifies_issue db slug project_id pk →
  let db' := store (IssueViewSet.destroy request slug project_id pk now db) in
  (∀ (request' : Request D) now',
     IssueViewSet.destroy request' slug project_id pk now' db'
     = mkResult (Raise DoesNotExist) db' [])
  ∧ (∀ self (request' : Request D),
       IssueViewSet.retrieve self request' slug project_id pk db'
       = mkResult
           (Response (ErrorBody "The required object does not exist.")
                     HTTP_404_NOT_FOUND)
           db' [])
  ∧ (∀ request' now',
       IssueViewSet.partial_update request' slug project_id pk now' db'
       = mkResult (Response (ErrorBody "Issue not found") HTTP_404_NOT_FOUND)
                  db' []).
Proof.
  intros Hnd Hid db'.
  assert (Hgone : ¬ identifies_issue db' slug project_id pk).
  { subst db'.
    destruct (destroy_identified request slug project_id pk now db Hnd Hid)
      as (i & _ & <- & _ & _ & ->). cbn [store]. apply instance_delete_gone. }
  assert (Hhidden : ¬ identifies_visible_issue db' slug project_id pk).
  { intros Hvis. by apply Hgone, identifies_visible_issue_identifies. }
  repeat split; intros.
  - by apply destroy_not_identified.
  - unfold IssueViewSet.retrieve.
    by rewrite (proj2 (retrieve_issue_None request' slug project_id pk db')).
  - unfold IssueViewSet.partial_update.
    by rewrite (proj2 (partial_update_issue_None slug project_id pk db')).
Qed.

Section destroy_then_gone_example.
Import Standin.

Lemma destroy_then_gone_witness :
  let db' :=
    store (IssueViewSet.destroy (Standin.request (D:=JSON) member ∅ ∅)
             "acme" 10 2 77 db) in
  IssueViewSet.retrieve (mkView [] []) (Standin.request (D:=JSON) guest ∅ ∅)
    "acme" 10 2 db'
  = mkResult (Response (ErrorBody "The required object does not exist.") 404) db' [].
Proof.
  refine (proj1 (proj2 (destroy_then_gone Standin_delete_laws
            (Standin.request (D:=JSON) member ∅ ∅) "acme" 10 2 77 db _ _))
            (mkView [] []) (Standin.request (D:=JSON) guest ∅ ∅)).
  - apply (bool_decide_unpack _). vm_compute. exact I.
  - apply (bool_decide_unpack _). vm_compute. exact I.
Defined.

End destroy_then_gone_example.

(** X6. The bulk delete answers 400 exactly when [issue_ids] is absent or
    empty.  With a non-empty list it raises [ValidationError] exactly when
    some entry is no UUID, and answers 200 otherwise; when it answers 400 or
    raises, no row is deleted, also not the rows of the entries that are
    well-formed. *)
Theorem bulk_delete_validation `{Collaborators}
    (request : Request (list string)) slug project_id now db :
  let issue_ids := default [] (data request !! "issue_ids") in
  let result := BulkDeleteIssuesEndpoint.delete request slug project_id now db in
  (issue_ids = []
   ↔ outcome result
     = Response (ErrorBody "Issue IDs are required") HTTP_400_BAD_REQUEST)
  ∧ (issue_ids ≠ [] ∧ Exists (λ s, uuid_to_python s = None) issue_ids
     ↔ outcome result = Raise ValidationError)
  ∧ (issue_ids ≠ [] ∧ Forall (λ s, is_Some (uuid_to_python s)) issue_ids
     ↔ ∃ message, outcome result = Response (MessageBody message) HTTP_200_OK)
  ∧ ((∀ message, outcome result ≠ Response (MessageBody message) HTTP_200_OK) →
     store result = db ∧ tasks result = []).
Proof.
  intros issue_ids result. subst result. unfold BulkDeleteIssuesEndpoint.delete.
  fold issue_ids. unfold pk__in.
  clearbody issue_ids. destruct (decide (issue_ids = [])) as [->|Hne].
  { simpl. split; [done|]. split; [split; [by intros [? _]|done]|].
    split; [split; [by intros [? _]|by intros [? ?]]|]. done. }
  rewrite bool_decide_false by (by destruct issue_ids).
  destruct (mapM uuid_to_python issue_ids) as [pks|] eqn:Hconv; simpl.
  - assert (Hall : Forall (λ s, is_Some (uuid_to_python s)) issue_ids)
      by (apply mapM_is_Some_1; by eexists).
    split; [done|]. split; [split; [|done]|].
    { intros [_ Hex%mapM_None_2]. congruence. }
    split; [split; [by eexists|done]|].
    intros Hno. exfalso. by eapply Hno.
  - assert (Hex : Exists (λ s, uuid_to_python s = None) issue_ids)
      by by apply mapM_None_1.
    split; [done|]. split; [done|]. split; [|done].
    split; [|by intros [? ?]].
    intros [_ Hall%mapM_is_Some_2]. rewrite Hconv in Hall. by destruct Hall.
Qed.

Section bulk_delete_validation_example.
Import Standin.

Lemma bulk_delete_validation_witness :
  BulkDeleteIssuesEndpoint.delete
    (Standin.request member ∅ {[ "issue_ids" := ["1"; "not-a-uuid"] ]})
    "acme" 10 77 db
  = mkResult (Raise ValidationError) db [].
Proof.
  pose proof (bulk_delete_validation
                (Standin.request member ∅ {[ "issue_ids" := ["1"; "not-a-uuid"] ]})
                "acme" 10 77 db) as (_ & Hraise & _ & Hsame).
  destruct (BulkDeleteIssuesEndpoint.delete _ _ _ _ _) as [o st ts] eqn:Hdel.
  simpl in *. 
  assert (Ho : o = Raise ValidationError).
  { apply Hraise. split; [vm_compute; discriminate|].
    apply Exists_cons_tl, Exists_cons_hd. vm_compute. reflexivity. }
  destruct Hsame as [-> ->]; [intros message; rewrite Ho; discriminate|].
  by rewrite Ho.
Defined.

End bulk_delete_validation_example.

Lemma soft_delete_none now (P : Issue.t → Prop) `{∀ i, Decision (P i)} db :
  (∀ i, i ∈ DB.issues db → ¬ P i) → soft_delete now P db = db.
Proof.
  intros Hnone. unfold soft_delete, DB.set_issues. destruct db as [? ? issues ?]; simpl in *.
  f_equal. rewrite <- (list_fmap_id issues) at 2. apply list_fmap_ext.
  intros _ i Hi%list_elem_of_lookup_2. rewrite decide_False; [done|by apply Hnone].
Qed.

(** X7. After a bulk delete of well-formed ids, none of the given ids
    identifies an issue of the workspace and project that carries no
    soft-delete marker any more; repeating the request then reports that 0
    issues were deleted and leaves the store as it is. *)
Theorem bulk_delete_then_gone `{Collaborators}
    (request : Request (list string)) slug project_id now db issue_ids pks :
  data request !! "issue_ids" = Some issue_ids →
  issue_ids ≠ [] →
  pk__in issue_ids = Some pks →
  let db' :=
    store (BulkDeleteIssuesEndpoint.delete request slug project_id now db) in
  Forall (λ pk, ¬ identifies_visible_issue db' slug project_id pk) pks
  ∧ ∀ now',
      BulkDeleteIssuesEndpoint.delete request slug project_id now' db'
      = mkResult (Response (MessageBody "0 issues were deleted") HTTP_200_OK)
                 db' [].
Proof.
  intros Hdata Hne Hpks db'.
  assert (Hdb' : db' = soft_delete now
            (λ i, i ∈ filter (BulkDeleteIssuesEndpoint.selected db slug project_id pks)
                             (Issue_issue_objects db)) db).
  { subst db'.
    by rewrite (bulk_delete_converted request slug project_id now db issue_ids pks). }
  assert (Hgone : ∀ pk, pk ∈ pks → ¬ identifies_visible_issue db' slug project_id pk).
  { intros pk Hpk. rewrite Hdb'.
    intros (i & Hi & <- & Hvis & [Hws Hproj] & Hnot)%identifies_visible_issue_soft_delete.
    apply Hnot, elem_of_bulk_delete_queryset.
    unfold BulkDeleteIssuesEndpoint.selected. tauto. }
  assert (Hempty : filter (BulkDeleteIssuesEndpoint.selected db' slug project_id pks)
                          (Issue_issue_objects db') = []).
  { apply elem_of_nil_inv.
    intros i (Hi & Hvis & Hws & Hproj & Hpk)%elem_of_bulk_delete_queryset.
    apply (Hgone (Issue.id i) Hpk), Exists_exists. exists i. tauto. }
  split; [by apply Forall_forall|].
  intros now'.
  rewrite (bulk_delete_converted request slug project_id now' db' issue_ids pks)
    by done.
  rewrite Hempty. cbn [length]. f_equal.
  apply soft_delete_none. intros i _ Hin. by apply elem_of_nil in Hin.
Qed.

Section bulk_delete_then_gone_example.
Import Standin.

Lemma bulk_delete_then_gone_witness :
  let request := Standin.request member ∅ {[ "issue_ids" := ["1"; "5"; "2"] ]} in
  let db' := store (BulkDeleteIssuesEndpoint.delete request "acme" 10 77 db_marked) in
  Forall (λ pk, ¬ identifies_visible_issue db' "acme" 10 pk) [1; 5; 2]%N
  ∧ BulkDeleteIssuesEndpoint.delete request "acme" 10 78 db'
    = mkResult (Response (MessageBody "0 issues were deleted") 200) db' [].
Proof.
  destruct (bulk_delete_then_gone
              (Standin.request member ∅ {[ "issue_ids" := ["1"; "5"; "2"] ]})
              "acme" 10 77 db_marked ["1"; "5"; "2"] [1; 5; 2]%N)
    as [Hgone Hagain].
  - vm_compute. reflexivity.
  - discriminate.
  - vm_compute. reflexivity.
  - split; [exact Hgone|exact (Hagain 78)].
Defined.

End bulk_delete_then_gone_example.

(** X8. The delete handlers change no issue outside the URL's workspace and
    project: every issue row that the bulk delete changes belongs to them
    and has one of the given keys, and, with unique issue keys, so does every
    row that [destroy] changes. *)
Theorem deletes_stay_in_scope `{Collaborators} `{InstanceDelete} {D}
    slug project_id now db :
  (∀ request,
     Forall (λ i, in_scope db slug project_id i
                  ∧ ∃ s, s ∈ default [] (data request !! "issue_ids")
                         ∧ uuid_to_python s = Some (Issue.id i))
       (touched db
          (store (BulkDeleteIssuesEndpoint.delete request slug project_id now db))))
  ∧ (issue_pk_unique db →
     ∀ (request : Request D) pk,
       Forall (λ i, in_scope db slug project_id i ∧ Issue.id i = pk)
         (touched db (store (IssueViewSet.destroy request slug project_id pk now db)))).
Proof.
  split.
  - intros request. apply Forall_forall. intros i.
    unfold BulkDeleteIssuesEndpoint.delete.
    destruct (bool_decide _); simpl; [rewrite touched_same; by intros ?%elem_of_nil|].
    unfold pk__in.
    destruct (mapM uuid_to_python _) as [pks|] eqn:Hconv; simpl;
      [|rewrite touched_same; by intros ?%elem_of_nil].
    intros [Hsel _]%touched_soft_delete.
    apply elem_of_bulk_delete_queryset in Hsel as (_ & _ & Hws & Hproj & Hpk).
    split; [done|].
    apply mapM_Some_1 in Hconv.
    apply list_elem_of_lookup in Hpk as [n Hn].
    destruct (Forall2_lookup_r _ _ _ _ _ Hconv Hn) as (s & Hs & Hconv').
    exists s. split; [by eapply list_elem_of_lookup_2|done].
  - intros Hnd request pk. apply Forall_forall. intros i.
    destruct (decide (identifies_issue db slug project_id pk)) as [Hid|Hnot].
    + destruct (destroy_identified request slug project_id pk now db Hnd Hid)
        as (j & Hj & Hpk & _ & Hscope & ->). cbn [store].
      intros [Hi Hin]%touched_instance_delete.
      assert (i = j) as -> by (eapply issue_pk_unique_eq; [done..|congruence]).
      done.
    + rewrite destroy_not_identified by done. simpl. rewrite touched_same.
      by intros ?%elem_of_nil.
Qed.

Section deletes_stay_in_scope_example.
Import Standin.

Lemma deletes_stay_in_scope_witness :
  (let request :=
     Standin.request member ∅ {[ "issue_ids" := ["2"; "4"; "5"; "1"] ]} in
   let changed :=
     touched db_marked
       (store (BulkDeleteIssuesEndpoint.delete request "acme" 10 77 db_marked)) in
   changed = [Issue.mk 1 1 10 (Some 100%N) 5 None false None;
              Issue.mk 2 1 10 (Some 200%N) 3 None false None]
   ∧ Forall (λ i, in_scope db_marked "acme" 10 i
                  ∧ ∃ s, s ∈ default [] (data request !! "issue_ids")
                         ∧ uuid_to_python s = Some (Issue.id i))
            changed)
  ∧ (let changed :=
       touched db_marked
         (store (IssueViewSet.destroy (Standin.request (D:=JSON) member ∅ ∅)
                   "acme" 10 2 77 db_marked)) in
     changed = [Issue.mk 2 1 10 (Some 200%N) 3 None false None]
     ∧ Forall (λ i, in_scope db_marked "acme" 10 i ∧ Issue.id i = 2%N) changed).
Proof.
  split; (split; [vm_compute; reflexivity|]).
  - apply (proj1 (deletes_stay_in_scope (D:=JSON) "acme" 10 77 db_marked)
             (Standin.request member ∅ {[ "issue_ids" := ["2"; "4"; "5"; "1"] ]})).
  - apply (proj2 (deletes_stay_in_scope (D:=JSON) "acme" 10 77 db_marked)).
    apply (bool_decide_unpack _). vm_compute. exact I.
Defined.

End deletes_stay_in_scope_example.

(** ** Display properties: reading and updating together *)

Lemma filter_fmap_commute {A} (P : A → Prop) `{∀ x, Decision (P x)}
    (f : A → A) (l : list A) :
  (∀ x, x ∈ l → P (f x) ↔ P x) → filter P (f <$> l) = f <$> filter P l.
Proof.
  induction l as [|a l IH]; intros Hf; [done|].
  rewrite fmap_cons, !filter_cons.
  assert (Hl : ∀ x, x ∈ l → P (f x) ↔ P x) by (intros x Hx; apply Hf; by right).
  destruct (decide (P a)) as [Ha|Ha].
  - rewrite decide_True by (apply Hf; [left|done]). rewrite fmap_cons. f_equal. auto.
  - rewrite decide_False; [auto|]. intros Hfa. apply Ha, Hf; [left|done].
Qed.

Section display_properties_store.
Context {D : Type}.

(** The rows of a user and project after [save] of an instance that keeps
    the key, user and project of the stored row [p]. *)
Lemma existing_after_save db user project_id p p' :
  property_pk_unique db →
  filter (λ q, IssueUserProperty.user q = user
               ∧ IssueUserProperty.project_id q = project_id)
         (DB.issue_user_properties db) = [p] →
  IssueUserProperty.id p' = IssueUserProperty.id p →
  IssueUserProperty.user p' = IssueUserProperty.user p →
  IssueUserProperty.project_id p' = IssueUserProperty.project_id p →
  filter (λ q, IssueUserProperty.user q = user
               ∧ IssueUserProperty.project_id q = project_id)
         (DB.issue_user_properties (IssueUserDisplayPropertyEndpoint.save p' db))
  = [p'].
Proof.
  intros Hnd Hexisting Hid Huser Hproject.
  assert (Hp : p ∈ filter (λ q, IssueUserProperty.user q = user
                                ∧ IssueUserProperty.project_id q = project_id)
                          (DB.issue_user_properties db))
    by (rewrite Hexisting; left).
  apply list_elem_of_filter in Hp as [[Hu Hpr] Hp].
  unfold IssueUserDisplayPropertyEndpoint.save. simpl.
  rewrite filter_fmap_commute.
  - rewrite Hexisting. simpl. rewrite Hid. by rewrite decide_True.
  - intros q Hq. rewrite Hid.
    destruct (decide (IssueUserProperty.id q = IssueUserProperty.id p)) as [Heq|_];
      [|done].
    assert (q = p) as ->; [|by rewrite Huser, Hproject].
    apply list_elem_of_lookup in Hq as [n Hn], Hp as [m Hm].
    assert (n = m) as ->; [|congruence].
    eapply NoDup_lookup; [exact Hnd| |]; rewrite list_lookup_fmap.
    + by rewrite Hn.
    + rewrite Hm. simpl. by rewrite Heq.
Qed.

Lemma save_pk_unique db p' :
  property_pk_unique db →
  property_pk_unique (IssueUserDisplayPropertyEndpoint.save p' db).
Proof.
  unfold property_pk_unique, IssueUserDisplayPropertyEndpoint.save. simpl.
  rewrite <- list_fmap_compose. intros Hnd.
  erewrite list_fmap_ext; [exact Hnd|].
  intros _ q _. simpl. by destruct (decide _).
Qed.

(** What [patch] does to the store when the user has one row [p]. *)
Lemma patch_existing (request : Request JSON) slug project_id db p :
  filter (λ q, IssueUserProperty.user q = user_id (user request)
               ∧ IssueUserProperty.project_id q = project_id)
         (DB.issue_user_properties db) = [p] →
  let p' :=
    IssueUserProperty.mk (IssueUserProperty.id p) (IssueUserProperty.user p)
      (IssueUserProperty.project_id p)
      (default (IssueUserProperty.filters p) (data request !! "filters"))
      (default (IssueUserProperty.display_filters p)
               (data request !! "display_filters"))
      (default (IssueUserProperty.display_properties p)
               (data request !! "display_properties")) in
  IssueUserDisplayPropertyEndpoint.patch request slug project_id db
  = mkResult (Response (IssueUserPropertySerializer p') HTTP_201_CREATED)
             (IssueUserDisplayPropertyEndpoint.save p' db) [].
Proof.
  intros Hexisting. unfold IssueUserDisplayPropertyEndpoint.patch.
  by rewrite Hexisting.
Qed.

End display_properties_store.

(** X9. [patch] never creates a row: when the user has no display-property
    row for the project it raises [DoesNotExist] and the store is as before,
    and in every case the table holds the same keys in the same order
    afterwards. *)
Theorem display_properties_patch_never_creates (request : Request JSON)
    slug project_id db :
  let result := IssueUserDisplayPropertyEndpoint.patch request slug project_id db in
  (filter (λ p, IssueUserProperty.user p = user_id (user request)
                ∧ IssueUserProperty.project_id p = project_id)
          (DB.issue_user_properties db) = [] →
   result = mkResult (Raise DoesNotExist) db [])
  ∧ IssueUserProperty.id <$> DB.issue_user_properties (store result)
    = IssueUserProperty.id <$> DB.issue_user_properties db.
Proof.
  intros result. subst result. unfold IssueUserDisplayPropertyEndpoint.patch. split.
  - by intros ->.
  - destruct (get_one _) as [e|p]; simpl; [done|].
    rewrite <- list_fmap_compose. apply list_fmap_ext.
    intros _ q _. simpl. by destruct (decide _).
Qed.

Section display_properties_patch_never_creates_example.
Import Standin.

Lemma display_properties_patch_never_creates_witness :
  IssueUserDisplayPropertyEndpoint.patch
    (Standin.request member ∅ {[ "filters" := JStr "mine" ]}) "acme" 10 db
  = mkResult (Raise DoesNotExist) db [].
Proof.
  apply (proj1 (display_properties_patch_never_creates
                  (Standin.request member ∅ {[ "filters" := JStr "mine" ]})
                  "acme" 10 db)).
  vm_compute. reflexivity.
Defined.

End display_properties_patch_never_creates_example.

(** X10. With unique keys in the display-property table, a [patch] of the
    user's row is read back by [get]: it answers 200 with the row that
    [patch] answered, creates nothing and leaves the store as [patch] left
    it. *)
Theorem display_properties_patch_then_get `{Collaborators} {D}
    (request : Request JSON) (request' : Request D) slug project_id db p :
  property_pk_unique db →
  user request' = user request →
  filter (λ q, IssueUserProperty.user q = user_id (user request)
               ∧ IssueUserProperty.project_id q = project_id)
         (DB.issue_user_properties db) = [p] →
  let result := IssueUserDisplayPropertyEndpoint.patch request slug project_id db in
  ∃ p',
    outcome result = Response (IssueUserPropertySerializer p') HTTP_201_CREATED
    ∧ ∀ new_id,
        IssueUserDisplayPropertyEndpoint.get request' slug project_id new_id
          (store result)
        = mkResult (Response (IssueUserPropertySerializer p') HTTP_200_OK)
                   (store result) [].
Proof.
  intros Hnd Huser Hexisting result. subst result.
  rewrite (patch_existing request slug project_id db p Hexisting).
  cbn [outcome store].
  set (p' := IssueUserProperty.mk _ _ _ _ _ _).
  exists p'. split; [done|]. intros new_id.
  unfold IssueUserDisplayPropertyEndpoint.get,
    IssueUserDisplayPropertyEndpoint.get_or_create.
  rewrite Huser.
  by rewrite (existing_after_save db (user_id (user request)) project_id p p'
                Hnd Hexisting eq_refl eq_refl eq_refl).
Qed.

Section display_properties_patch_then_get_example.
Import Standin.

Lemma display_properties_patch_then_get_witness :
  let stored := IssueUserProperty.mk 900 200 10 (JObj []) (JStr "list") JNull in
  let db' := DB.set_issue_user_properties [stored] db in
  let patched :=
    store (IssueUserDisplayPropertyEndpoint.patch
             (Standin.request member ∅ {[ "filters" := JStr "mine" ]})
             "acme" 10 db') in
  outcome (IssueUserDisplayPropertyEndpoint.get
             (Standin.request (D:=JSON) member ∅ ∅) "acme" 10 901 patched)
  = Response
      (IssueUserPropertySerializer
         (IssueUserProperty.mk 900 200 10 (JStr "mine") (JStr "list") JNull))
      200.
Proof.
  intros stored db' patched.
  destruct (display_properties_patch_then_get
              (Standin.request member ∅ {[ "filters" := JStr "mine" ]})
              (Standin.request (D:=JSON) member ∅ ∅) "acme" 10 db' stored)
    as (p' & Hout & Hget).
  - apply (bool_decide_unpack _). vm_compute. exact I.
  - reflexivity.
  - vm_compute. reflexivity.
  - subst patched. rewrite (Hget 901%N). simpl. f_equal.
    vm_compute in Hout. by injection Hout as <-.
Defined.

End display_properties_patch_then_get_example.

(** X11. With unique keys in the display-property table, [patch] is
    idempotent: applied again to the store it left, the same request gives
    the same answer and the same store. *)
Theorem display_properties_patch_idempotent (request : Request JSON)
    slug project_id db p :
  property_pk_unique db →
  filter (λ q, IssueUserProperty.user q = user_id (user request)
               ∧ IssueUserProperty.project_id q = project_id)
         (DB.issue_user_properties db) = [p] →
  let result := IssueUserDisplayPropertyEndpoint.patch request slug project_id db in
  IssueUserDisplayPropertyEndpoint.patch request slug project_id (store result)
  = result.
Proof.
  intros Hnd Hexisting result. subst result.
  rewrite (patch_existing request slug project_id db p Hexisting).
  cbn [outcome store].
  set (p' := IssueUserProperty.mk _ _ _ _ _ _).
  rewrite (patch_existing request slug project_id
             (IssueUserDisplayPropertyEndpoint.save p' db) p').
  - assert (Hp' : IssueUserProperty.mk (IssueUserProperty.id p')
                    (IssueUserProperty.user p') (IssueUserProperty.project_id p')
                    (default (IssueUserProperty.filters p') (data request !! "filters"))
                    (default (IssueUserProperty.display_filters p')
                             (data request !! "display_filters"))
                    (default (IssueUserProperty.display_properties p')
                             (data request !! "display_properties")) = p').
    { subst p'. simpl.
      by destruct (data request !! "filters"), (data request !! "display_filters"),
        (data request !! "display_properties"). }
    rewrite Hp'. f_equal.
    unfold IssueUserDisplayPropertyEndpoint.save, DB.set_issue_user_properties.
    destruct db as [? ? ? ? ? ? ? ? ? props]; simpl. f_equal.
    rewrite <- list_fmap_compose. apply list_fmap_ext. intros _ q _. simpl.
    destruct (decide (IssueUserProperty.id q = IssueUserProperty.id p)) as [Heq|Hne].
    + by rewrite decide_True.
    + by rewrite decide_False.
  - by apply (existing_after_save db _ _ p p').
Qed.

Section display_properties_patch_idempotent_example.
Import Standin.

Lemma display_properties_patch_idempotent_witness :
  let stored := IssueUserProperty.mk 900 200 10 (JObj []) (JStr "list") JNull in
  let db' := DB.set_issue_user_properties [stored] db in
  let request := Standin.request member ∅ {[ "filters" := JStr "mine" ]} in
  IssueUserDisplayPropertyEndpoint.patch request "acme" 10
    (store (IssueUserDisplayPropertyEndpoint.patch request "acme" 10 db'))
  = IssueUserDisplayPropertyEndpoint.patch request "acme" 10 db'.
Proof.
  intros stored db' request.
  apply (display_properties_patch_idempotent request "acme" 10 db' stored).
  - apply (bool_decide_unpack _). vm_compute. exact I.
  - vm_compute. reflexivity.
Defined.

End display_properties_patch_idempotent_example.

(** ** The aggregated id arrays, in full *)

Lemma left_outer_Some_1 {B} (matches : list B) (b : B) :
  Some b ∈ left_outer matches → b ∈ matches.
Proof. rewrite elem_of_left_outer. intros [[_ ?]|(b' & ? & ?)]; by simplify_eq. Qed.

Lemma left_outer_Some_2 {B} (matches : list B) (b : B) :
  b ∈ matches → Some b ∈ left_outer matches.
Proof. rewrite elem_of_left_outer. intros Hb. right. eauto. Qed.

Lemma NoDup_ArrayAgg_Coalesce {R B} `{EqDecision B} (expr : R → option B)
    (cond : R → Prop) `{∀ r, Decision (cond r)} (rows : list R) :
  NoDup (Coalesce (ArrayAgg expr cond rows) []).
Proof.
  unfold ArrayAgg, Coalesce.
  destruct (filter cond rows); cbn [default from_option]; unfold id.
  - constructor.
  - apply NoDup_remove_dups.
Qed.

Lemma elem_of_annotate_label_ids db i v :
  v ∈ annotate_label_ids db i
  ↔ ∃ l, v = Some l ∧ IssueLabel.mk (Issue.id i) l ∈ DB.issue_labels db.
Proof.
  unfold annotate_label_ids, labels_join. rewrite elem_of_ArrayAgg_Coalesce.
  setoid_rewrite list_elem_of_fmap. split.
  - intros (r & (o & -> & Ho) & Hnn & <-).
    destruct o as [x|]; [|done]. apply left_outer_Some_1 in Ho.
    apply list_elem_of_filter in Ho as [Hid Hx].
    exists (IssueLabel.label_id x). split; [done|]. destruct x; simpl in *; by subst.
  - intros (l & -> & Hl). exists (Some l). split; [|done].
    exists (Some (IssueLabel.mk (Issue.id i) l)). split; [done|].
    apply left_outer_Some_2, list_elem_of_filter. by split.
Qed.

Lemma elem_of_annotate_assignee_ids db i v :
  v ∈ annotate_assignee_ids db i
  ↔ ∃ u, v = Some u
         ∧ IssueAssignee.mk (Issue.id i) u ∈ DB.issue_assignees db
         ∧ ∃ m, m ∈ DB.project_members db
                ∧ ProjectMember.member m = u
                ∧ ProjectMember.is_active m = true.
Proof.
  split; [apply annotate_assignee_ids_active|].
  intros (u & -> & Hu & m & Hm & Hmem & Hact).
  unfold annotate_assignee_ids. apply elem_of_ArrayAgg_Coalesce.
  exists (mkAssigneeJoin (Some u) (Some true)). split; [|done].
  unfold assignees_join. apply list_elem_of_bind.
  exists (Some (IssueAssignee.mk (Issue.id i) u)). split.
  - simpl. apply list_elem_of_fmap. exists (Some m). rewrite <- Hact. split; [done|].
    apply left_outer_Some_2, list_elem_of_filter. by split.
  - apply left_outer_Some_2, list_elem_of_filter. by split.
Qed.

Lemma elem_of_annotate_module_ids_any db i v :
  v ∈ annotate_module_ids_any db i
  ↔ ∃ m, v = Some m ∧ IssueModule.mk (Issue.id i) m ∈ DB.issue_modules db.
Proof.
  unfold annotate_module_ids_any. rewrite elem_of_ArrayAgg_Coalesce.
  unfold modules_join. setoid_rewrite list_elem_of_bind. split.
  - intros (r & (o & Hr & Ho) & Hnn & <-).
    apply elem_of_left_outer in Ho as [[_ ->]|(im & -> & Him)].
    { apply list_elem_of_singleton in Hr as ->. done. }
    apply list_elem_of_filter in Him as [Hid Him].
    apply list_elem_of_fmap in Hr as (t & -> & _). simpl.
    exists (IssueModule.module_id im). split; [done|].
    destruct im; simpl in *; by subst.
  - intros (m & -> & Hm).
    destruct (left_outer (filter (λ t, IssueModuleTarget.id t = m) (DB.modules db)))
      as [|t ts] eqn:Hjoin.
    { unfold left_outer in Hjoin. by destruct (filter _ _). }
    exists (mkModuleJoin (Some m) (t ≫= IssueModuleTarget.archived_at)).
    split; [|done].
    exists (Some (IssueModule.mk (Issue.id i) m)). split.
    + simpl. rewrite Hjoin. apply list_elem_of_fmap. exists t. split; [done|left].
    + apply left_outer_Some_2, list_elem_of_filter. by split.
Qed.

Lemma elem_of_annotate_module_ids db i v :
  v ∈ annotate_module_ids db i
  ↔ ∃ m, v = Some m
         ∧ IssueModule.mk (Issue.id i) m ∈ DB.issue_modules db
         ∧ (Exists (λ t, IssueModuleTarget.id t = m
                         ∧ IssueModuleTarget.archived_at t = None) (DB.modules db)
            ∨ Forall (λ t, IssueModuleTarget.id t ≠ m) (DB.modules db)).
Proof.
  unfold annotate_module_ids. rewrite elem_of_ArrayAgg_Coalesce.
  unfold modules_join. setoid_rewrite list_elem_of_bind. split.
  - intros (r & (o & Hr & Ho) & [Hnn Harch] & <-).
    apply elem_of_left_outer in Ho as [[_ ->]|(im & -> & Him)].
    { apply list_elem_of_singleton in Hr as ->. done. }
    apply list_elem_of_filter in Him as [Hid Him].
    apply list_elem_of_fmap in Hr as (t & -> & Ht). simpl in *.
    exists (IssueModule.module_id im). split; [done|]. split.
    { destruct im; simpl in *; by subst. }
    apply elem_of_left_outer in Ht as [[Hnil ->]|(t0 & -> & Ht0)].
    + right. apply Forall_forall. intros t Ht Htid.
      assert (Hin : t ∈ filter (λ t, IssueModuleTarget.id t = IssueModule.module_id im)
                             (DB.modules db)) by by apply list_elem_of_filter.
      rewrite Hnil in Hin. by apply elem_of_nil in Hin.
    + left. apply list_elem_of_filter in Ht0 as [Hid0 Ht0].
      apply Exists_exists. exists t0. by repeat split.
  - intros (m & -> & Hm & Hmod).
    assert (Hrow : ∃ o, o ∈ left_outer (filter (λ t, IssueModuleTarget.id t = m)
                                              (DB.modules db))
                        ∧ o ≫= IssueModuleTarget.archived_at = None).
    { destruct Hmod as [(t & Ht & Hid & Harch)%Exists_exists|Hnone].
      - exists (Some t). split; [|done].
        apply left_outer_Some_2, list_elem_of_filter. by split.
      - exists None. split; [|done]. apply elem_of_left_outer. left. split; [|done].
        apply elem_of_nil_inv. intros t [Hid Ht]%list_elem_of_filter.
        rewrite Forall_forall in Hnone. by apply (Hnone t). }
    destruct Hrow as (o & Ho & Harch).
    exists (mkModuleJoin (Some m) (o ≫= IssueModuleTarget.archived_at)).
    split; [|by split].
    exists (Some (IssueModule.mk (Issue.id i) m)). split.
    + simpl. apply list_elem_of_fmap. eauto.
    + apply left_outer_Some_2, list_elem_of_filter. by split.
Qed.

(** X12. The three aggregated arrays are sets of keys: each is free of
    duplicates and of nulls.  [label_ids] holds the labels linked to the
    issue; [assignee_ids] holds the assignees of the issue that have an
    active project-member row; [module_ids] as annotated by [retrieve] and
    the paginated list holds the linked modules that have a row which is not
    archived, or no row at all, and as annotated by [partial_update] holds
    every linked module, so that it contains the former. *)
Theorem aggregated_id_arrays db i :
  (NoDup (annotate_label_ids db i) ∧ NoDup (annotate_assignee_ids db i)
   ∧ NoDup (annotate_module_ids db i) ∧ NoDup (annotate_module_ids_any db i))
  ∧ ((None ∉ annotate_label_ids db i) ∧ (None ∉ annotate_assignee_ids db i)
     ∧ (None ∉ annotate_module_ids db i) ∧ (None ∉ annotate_module_ids_any db i))
  ∧ (∀ l, Some l ∈ annotate_label_ids db i
          ↔ IssueLabel.mk (Issue.id i) l ∈ DB.issue_labels db)
  ∧ (∀ u, Some u ∈ annotate_assignee_ids db i
          ↔ IssueAssignee.mk (Issue.id i) u ∈ DB.issue_assignees db
            ∧ Exists (λ m, ProjectMember.member m = u
                           ∧ ProjectMember.is_active m = true)
                     (DB.project_members db))
  ∧ (∀ m, Some m ∈ annotate_module_ids db i
          ↔ IssueModule.mk (Issue.id i) m ∈ DB.issue_modules db
            ∧ (Exists (λ t, IssueModuleTarget.id t = m
                            ∧ IssueModuleTarget.archived_at t = None)
                      (DB.modules db)
               ∨ Forall (λ t, IssueModuleTarget.id t ≠ m) (DB.modules db)))
  ∧ (∀ m, Some m ∈ annotate_module_ids_any db i
          ↔ IssueModule.mk (Issue.id i) m ∈ DB.issue_modules db)
  ∧ annotate_module_ids db i ⊆ annotate_module_ids_any db i.
Proof.
  split; [repeat split; apply NoDup_ArrayAgg_Coalesce|].
  split.
  { repeat split.
    - by intros (? & ? & _)%elem_of_annotate_label_ids.
    - by intros (? & ? & _)%elem_of_annotate_assignee_ids.
    - by intros (? & ? & _)%elem_of_annotate_module_ids.
    - by intros (? & ? & _)%elem_of_annotate_module_ids_any. }
  split.
  { intros l. rewrite elem_of_annotate_label_ids. split.
    - by intros (? & [= <-] & ?).
    - eauto. }
  split.
  { intros u. rewrite elem_of_annotate_assignee_ids, Exists_exists. split.
    - intros (? & [= <-] & ? & m & ? & ? & ?). eauto.
    - intros (? & m & ? & ? & ?). eauto 10. }
  split.
  { intros m. rewrite elem_of_annotate_module_ids. split.
    - by intros (? & [= <-] & ?).
    - eauto. }
  split.
  { intros m. rewrite elem_of_annotate_module_ids_any. split.
    - by intros (? & [= <-] & ?).
    - eauto. }
  intros v (m & -> & Hm & _)%elem_of_annotate_module_ids.
  apply elem_of_annotate_module_ids_any. eauto.
Qed.

(** ** The paginated list: what it selects *)

Lemma distinct_NoDup {A} `{EqDecision A} (l : list A) : NoDup l → distinct l = l.
Proof.
  unfold distinct. induction 1 as [|x l Hx Hl IH]; [done|]. simpl.
  destruct (decide_rel _ x l); [done|]. by rewrite IH.
Qed.

Lemma NoDup_order_by {A} (key : A → Timestamp) (l : list A) :
  NoDup l → NoDup (order_by key l).
Proof. unfold order_by. by rewrite merge_sort_Permutation. Qed.


(** X13. The queryset that the paginated list hands to the paginator holds
    every issue of the workspace and project that carries no soft-delete
    marker and whose [updated_at] is at or after the datetime of
    [updated_at__gte], when one is given, and no other issue; each issue
    occurs in it once, and each row is the issue with its three id arrays.
    So does the base queryset on which the paginator counts: with unique
    issue keys its rows are the issues of the queryset, up to the order of
    issues with the same [updated_at], and the two run through the same
    sequence of [updated_at] values. *)
Theorem paginated_list_selects `{Collaborators} {D} (request : Request D)
    slug project_id db call status :
  outcome (IssuePaginatedViewSet.list request slug project_id db)
  = ResponsePaginate call status →
  let selected i :=
    i ∈ DB.issues db ∧ visible i ∧ in_scope db slug project_id i
    ∧ ∀ s t, GET request !! "updated_at__gte" = Some s → s ≠ "" →
             datetime_to_python s = Some t → t ≤ Issue.updated_at i in
  (∀ i, i ∈ issue <$> sp_queryset call ↔ selected i)
  ∧ (∀ i, i ∈ sp_base_queryset call ↔ selected i)
  ∧ NoDup (issue <$> sp_queryset call)
  ∧ sp_queryset call
    = IssuePaginatedViewSet.annotate db <$> (issue <$> sp_queryset call)
  ∧ (issue_pk_unique db →
     issue <$> sp_queryset call ≡ₚ sp_base_queryset call
     ∧ Issue.updated_at <$> (issue <$> sp_queryset call)
       = Issue.updated_at <$> sp_base_queryset call).
Proof.
  unfold IssuePaginatedViewSet.list.
  destruct (IssuePaginatedViewSet.updated_at__gte _) as [e|since] eqn:Hsince;
    [done|].
  intros Heq. cbn [outcome] in Heq. injection Heq as <- _.
  cbn [sp_queryset sp_base_queryset].
  rewrite <- list_fmap_compose.
  assert (Hid : ∀ l : list Issue.t,
            (issue ∘ IssuePaginatedViewSet.annotate db) <$> l = l).
  { intros l. rewrite <- (list_fmap_id l) at 2. by apply list_fmap_ext. }
  rewrite Hid.
  split; [|split; [|split; [|split]]].
  - intros i. rewrite <- (updated_at__gte_bound request since i Hsince).
    destruct since as [t|].
    + rewrite list_elem_of_filter, elem_of_order_by,
        elem_of_IssuePaginatedViewSet_get_queryset.
      split; [intros (? & ? & ? & ?)|intros (? & ? & ? & Hb)].
      * do 3 (split; [done|]). by intros ? [= <-].
      * split; [by apply Hb|done].
    + rewrite elem_of_order_by, elem_of_IssuePaginatedViewSet_get_queryset.
      split; [intros (? & ? & ?)|intros (? & ? & ? & _)]; done.
  - intros i. rewrite <- (updated_at__gte_bound request since i Hsince).
    unfold in_scope.
    destruct since as [t|].
    + rewrite list_elem_of_filter, elem_of_order_by, list_elem_of_filter,
        elem_of_Issue_issue_objects.
      split; [intros (? & ? & ? & ?)|intros (? & ? & ? & Hb)].
      * do 3 (split; [done|]). by intros ? [= <-].
      * split; [by apply Hb|done].
    + rewrite elem_of_order_by, list_elem_of_filter, elem_of_Issue_issue_objects.
      split; [intros (? & ? & ?)|intros (? & ? & ? & _)]; done.
  - assert (NoDup (order_by Issue.updated_at
                     (IssuePaginatedViewSet.get_queryset slug project_id db))).
    { apply NoDup_order_by. unfold IssuePaginatedViewSet.get_queryset.
      apply NoDup_remove_dups. }
    destruct since; [by apply NoDup_filter|done].
  - done.
  - intros Hnd%NoDup_fmap_1.
    unfold IssuePaginatedViewSet.get_queryset. rewrite distinct_NoDup; [done|].
    unfold Issue_issue_objects. by do 2 apply NoDup_filter.
Qed.

Section paginated_list_selects_example.
Import Standin.

Lemma paginated_list_selects_witness :
  ∃ call,
    outcome (IssuePaginatedViewSet.list (Standin.request (D:=JSON) member ∅ ∅)
               "acme" 10 db_marked)
    = ResponsePaginate call 200
    ∧ length (sp_queryset call) = 2%nat
    ∧ NoDup (issue <$> sp_queryset call)
    ∧ issue <$> sp_queryset call ≡ₚ sp_base_queryset call
    ∧ Issue.updated_at <$> (issue <$> sp_queryset call)
      = Issue.updated_at <$> sp_base_queryset call.
Proof.
  eexists. split; [vm_compute; reflexivity|]. split; [vm_compute; reflexivity|].
  match goal with |- NoDup (issue <$> sp_queryset ?c) ∧ _ =>
    assert (Hout : outcome (IssuePaginatedViewSet.list
                     (Standin.request (D:=JSON) member ∅ ∅) "acme" 10 db_marked)
                   = ResponsePaginate c 200) by (vm_compute; reflexivity);
    destruct (paginated_list_selects (Standin.request (D:=JSON) member ∅ ∅)
                "acme" 10 db_marked c 200 Hout)
      as (_ & _ & Hnd & _ & Hbase)
  end.
  split; [exact Hnd|]. apply Hbase.
  apply (bool_decide_unpack _). vm_compute. exact I.
Defined.

End paginated_list_selects_example.

(** X14. The paginated list raises [ValidationError], handing nothing to the
    paginator, exactly when [updated_at__gte] is supplied, non-empty and no
    datetime.  Otherwise the paginator receives the request's cursor
    unchanged and the 26 required fields, followed by [description_html]
    exactly when the [description] parameter is supplied with a non-empty
    value, of whatever content. *)
Theorem paginated_list_parameters `{Collaborators} {D} (request : Request D)
    slug project_id db :
  let result := IssuePaginatedViewSet.list request slug project_id db in
  ((∃ s, GET request !! "updated_at__gte" = Some s ∧ s ≠ ""
         ∧ datetime_to_python s = None)
   ↔ result = mkResult (Raise ValidationError) db [])
  ∧ (∀ call status, outcome result = ResponsePaginate call status →
       status = HTTP_200_OK
       ∧ store result = db ∧ tasks result = []
       ∧ sp_cursor call = GET request !! "cursor"
       ∧ sp_timezone call = user_timezone (user request)
       ∧ take 26 (sp_fields call) = IssuePaginatedViewSet.required_fields
       ∧ drop 26 (sp_fields call)
         = (if truthy (GET request !! "description")
            then ["description_html"] else [])
       ∧ ("description_html" ∈ sp_fields call
          ↔ ∃ v, GET request !! "description" = Some v ∧ v ≠ "")).
Proof.
  intros result. subst result.
  unfold IssuePaginatedViewSet.list, IssuePaginatedViewSet.updated_at__gte. split.
  - destruct (GET request !! "updated_at__gte") as [s|]; simpl.
    + case_bool_decide as Hs; simpl.
      * destruct (datetime_to_python s) as [t|] eqn:Ht; simpl.
        -- split; [|done]. intros (s' & [= <-] & _ & Ht'). congruence.
        -- split; [done|]. intros _. eauto.
      * split; [|done]. intros (s' & [= <-] & Hne & _). by destruct Hs.
    + split; [|done]. by intros (s' & [=] & _).
  - intros call status.
    destruct (if truthy (GET request !! "updated_at__gte") then _ else _)
      as [e|since]; [done|].
    cbn [outcome store tasks]. intros [= <- <-]. cbn [sp_cursor sp_timezone sp_fields].
    repeat split.
    + by destruct (truthy (GET request !! "description")).
    + by destruct (truthy (GET request !! "description")).
    + assert (Hreq : "description_html" ∉ IssuePaginatedViewSet.required_fields)
        by (apply (bool_decide_unpack _); vm_compute; exact I).
      destruct (GET request !! "description") as [v|]; simpl; [|done].
      case_bool_decide as Hv; [eauto|done].
    + intros (v & -> & Hv). cbn [truthy]. rewrite bool_decide_true by done.
      apply (bool_decide_unpack _). vm_compute. exact I.
Qed.

Section paginated_list_parameters_example.
Import Standin.

Lemma paginated_list_parameters_witness :
  IssuePaginatedViewSet.list
    (Standin.request (D:=JSON) member {[ "updated_at__gte" := "yesterday" ]} ∅)
    "acme" 10 db
  = mkResult (Raise ValidationError) db [].
Proof.
  apply (proj1 (paginated_list_parameters
                  (Standin.request (D:=JSON) member
                     {[ "updated_at__gte" := "yesterday" ]} ∅) "acme" 10 db)).
  exists "yesterday". split; [vm_compute; reflexivity|].
  split; [discriminate|vm_compute; reflexivity].
Defined.

End paginated_list_parameters_example.

(** ** The list view: which paginator it calls *)

(** X15. [list] records the visit of the project and leaves the store alone
    whatever it answers, the 400 of a grouping conflict included.  When it
    calls the paginator, the callback carries the request's [group_by] and
    [sub_group_by] as they are, and the paginator is chosen by the two
    parameters: none, without grouping values and count filter, when
    [group_by] is absent or empty, even if [sub_group_by] is supplied; the
    grouped one when only [group_by] is supplied; the sub-grouped one, with
    the values of both fields, when both are supplied and differ. *)
Theorem list_paginator_choice `{Collaborators} {D} (request : Request D)
    slug project_id db :
  let result := IssueViewSet.list request slug project_id db in
  let group_by := GET request !! "group_by" in
  let sub_group_by := GET request !! "sub_group_by" in
  let filters := issue_filters (GET request) "GET" in
  store result = db
  ∧ tasks result
    = [recent_visited_task slug project_id "project" project_id
         (user_id (user request))]
  ∧ ∀ call, outcome result = SelfPaginate call →
      pc_on_results call = (group_by, sub_group_by)
      ∧ pc_order_by call = (IssueViewSet.list_queryset request slug project_id db).2
      ∧ (truthy group_by = false →
           pc_paginator_cls call = None
           ∧ pc_group_by_fields call = None ∧ pc_sub_group_by_fields call = None
           ∧ pc_group_by_field_name call = None
           ∧ pc_sub_group_by_field_name call = None
           ∧ pc_count_filter call = None)
      ∧ (truthy group_by = true → truthy sub_group_by = false →
           pc_paginator_cls call = Some GroupedOffsetPaginator
           ∧ pc_group_by_fields call
             = Some (issue_group_values db (default "" group_by) slug project_id
                       filters)
           ∧ pc_sub_group_by_fields call = None
           ∧ pc_group_by_field_name call = group_by
           ∧ pc_sub_group_by_field_name call = None
           ∧ pc_count_filter call = Some list_count_filter)
      ∧ (truthy group_by = true → truthy sub_group_by = true →
           group_by ≠ sub_group_by
           ∧ pc_paginator_cls call = Some SubGroupedOffsetPaginator
           ∧ pc_group_by_fields call
             = Some (issue_group_values db (default "" group_by) slug project_id
                       filters)
           ∧ pc_sub_group_by_fields call
             = Some (issue_group_values db (default "" sub_group_by) slug
                       project_id filters)
           ∧ pc_group_by_field_name call = group_by
           ∧ pc_sub_group_by_field_name call = sub_group_by
           ∧ pc_count_filter call = Some list_count_filter).
Proof.
  intros result group_by sub_group_by filters.
  subst result group_by sub_group_by filters. unfold IssueViewSet.list.
  destruct (IssueViewSet.list_queryset request slug project_id db) as [qs ob].
  destruct (truthy (GET request !! "group_by")) eqn:Hg;
    [destruct (truthy (GET request !! "sub_group_by")) eqn:Hs;
       [destruct (decide (GET request !! "group_by" = GET request !! "sub_group_by"))|]|];
    cbn [outcome store tasks]; (split; [done|]); (split; [done|]);
    intros call Hcall; simplify_eq; cbn; repeat split; done.
Qed.

Section list_paginator_choice_example.
Import Standin.

Lemma list_paginator_choice_witness :
  ∃ call,
    outcome (IssueViewSet.list
               (Standin.request (D:=JSON) member {[ "sub_group_by" := "state_id" ]} ∅)
               "acme" 10 db)
    = SelfPaginate call
    ∧ pc_paginator_cls call = None.
Proof.
  eexists. split; [vm_compute; reflexivity|].
  refine (proj1 (proj1 (proj2 (proj2 (proj2 (proj2 (list_paginator_choice
            (Standin.request (D:=JSON) member {[ "sub_group_by" := "state_id" ]} ∅)
            "acme" 10 db)) _ _))) _)).
  - vm_compute. reflexivity.
  - vm_compute. reflexivity.
Defined.

End list_paginator_choice_example.

(** ** The id-scoped list: what it answers *)

(** X16. [IssueListEndpoint.get] answers 400 and records no visit exactly
    when the [issues] parameter is absent or empty.  When the view is asked
    for [fields] or [expand], the serialized queryset is the one built from
    the ids alone: it holds, once each, exactly the issues of the workspace
    and project that carry no soft-delete marker and have one of the given
    keys, whatever the filters, the ordering and the grouping of the request
    are. *)
Theorem issues_list_with_fields `{Collaborators} {D} self (request : Request D)
    slug project_id db :
  let result := IssueListEndpoint.get self request slug project_id db in
  (truthy (GET request !! "issues") = false
   ↔ result = mkResult (Response (ErrorBody "Issues are required")
                                 HTTP_400_BAD_REQUEST) db [])
  ∧ (∀ s pks,
       GET request !! "issues" = Some s → s ≠ "" →
       pk__in (filter (λ e, e ≠ "") (split comma s)) = Some pks →
       fields self ≠ [] ∨ expand self ≠ [] →
       ∃ queryset,
         result
         = mkResult
             (Response (IssueSerializerMany (fields self) (expand self) queryset)
                       HTTP_200_OK)
             db
             [recent_visited_task slug project_id "project" project_id
                (user_id (user request))]
         ∧ NoDup queryset
         ∧ ∀ i, i ∈ queryset
                ↔ i ∈ DB.issues db ∧ visible i ∧ in_scope db slug project_id i
                  ∧ Issue.id i ∈ pks).
Proof.
  intros result. subst result. unfold IssueListEndpoint.get. split.
  - destruct (truthy (GET request !! "issues")); simpl; [|done].
    split; [done|]. repeat case_match; done.
  - intros s pks Hs Hne Hpks Hfe.
    set (entries := filter (λ e, e ≠ "") (split comma s)) in *.
    rewrite Hs. simpl. rewrite bool_decide_true by done. simpl.
    fold entries. rewrite Hpks. rewrite bool_decide_true by done.
    eexists. split; [done|]. split; [apply NoDup_remove_dups|].
    intros i. rewrite elem_of_distinct, !list_elem_of_filter,
      elem_of_Issue_issue_objects. unfold in_scope. tauto.
Qed.

Section issues_list_with_fields_example.
Import Standin.

Lemma issues_list_with_fields_witness :
  ∃ queryset,
    outcome (IssueListEndpoint.get (mkView ["name"] [])
               (Standin.request (D:=JSON) member {[ "issues" := "2,3,4,5,1" ]} ∅)
               "acme" 10 db_marked)
    = Response (IssueSerializerMany ["name"] [] queryset) 200
    ∧ NoDup queryset
    ∧ Issue.mk 1 1 10 (Some 100%N) 5 None false None ∈ queryset
    ∧ Issue.mk 2 1 10 (Some 200%N) 3 None false None ∈ queryset
    ∧ Forall (λ i, visible i ∧ Issue.id i ∈ [2; 3; 4; 5; 1]%N) queryset.
Proof.
  destruct (proj2 (issues_list_with_fields (mkView ["name"] [])
                     (Standin.request (D:=JSON) member
                        {[ "issues" := "2,3,4,5,1" ]} ∅)
                     "acme" 10 db_marked) "2,3,4,5,1" [2; 3; 4; 5; 1]%N)
    as (queryset & Hres & Hnd & Hmem).
  - vm_compute. reflexivity.
  - discriminate.
  - vm_compute. reflexivity.
  - left. discriminate.
  - exists queryset. split; [by rewrite Hres|]. split; [exact Hnd|].
    assert (Hscope : ∀ i, Issue.workspace_id i = 1%N → Issue.project_id i = 10%N →
              in_scope db_marked "acme" 10 i).
    { intros i Hws Hproj. split; [|done]. apply Exists_cons_hd. by split. }
    split; [|split].
    + apply Hmem. split; [|split; [|split]].
      * apply (bool_decide_unpack _). vm_compute. exact I.
      * by repeat split.
      * by apply Hscope.
      * apply (bool_decide_unpack _). vm_compute. exact I.
    + apply Hmem. split; [|split; [|split]].
      * apply (bool_decide_unpack _). vm_compute. exact I.
      * by repeat split.
      * by apply Hscope.
      * apply (bool_decide_unpack _). vm_compute. exact I.
    + apply Forall_forall. intros i (_ & Hvis & _ & Hpk)%Hmem. by split.
Defined.

End issues_list_with_fields_example.

(** ** Display properties: the table's invariants *)

Lemma save_property_unique db p p' :
  property_pk_unique db → property_unique db →
  p ∈ DB.issue_user_properties db →
  IssueUserProperty.id p' = IssueUserProperty.id p →
  IssueUserProperty.user p' = IssueUserProperty.user p →
  IssueUserProperty.project_id p' = IssueUserProperty.project_id p →
  property_unique (IssueUserDisplayPropertyEndpoint.save p' db).
Proof.
  intros Hnd Huniq Hp Hid Huser Hproject user project_id.
  unfold IssueUserDisplayPropertyEndpoint.save. simpl.
  rewrite filter_fmap_commute; [rewrite length_fmap; apply Huniq|].
  intros q Hq. rewrite Hid.
  destruct (decide (IssueUserProperty.id q = IssueUserProperty.id p)) as [Heq|_];
    [|done].
  assert (q = p) as ->; [|by rewrite Huser, Hproject].
  apply list_elem_of_lookup in Hq as [n Hn], Hp as [m Hm].
  assert (n = m) as ->; [|congruence].
  eapply NoDup_lookup; [exact Hnd| |]; rewrite list_lookup_fmap.
  - by rewrite Hn.
  - rewrite Hm. simpl. by rewrite Heq.
Qed.

(** X17. Both display-property handlers keep the table well-formed: on a
    store with unique keys and at most one row per user and project, the
    store that [get] leaves and the store that [patch] leaves have unique
    keys and at most one row per user and project, whatever they answer. *)
Theorem display_properties_invariants `{Collaborators} {D} slug project_id db :
  property_pk_unique db →
  property_unique db →
  (∀ (request : Request D) new_id,
     property_pk_unique
       (store (IssueUserDisplayPropertyEndpoint.get request slug project_id new_id db))
     ∧ property_unique
         (store (IssueUserDisplayPropertyEndpoint.get request slug project_id
                   new_id db)))
  ∧ (∀ request,
       property_pk_unique
         (store (IssueUserDisplayPropertyEndpoint.patch request slug project_id db))
       ∧ property_unique
           (store (IssueUserDisplayPropertyEndpoint.patch request slug project_id db))).
Proof.
  intros Hnd Huniq. split.
  - intros request new_id.
    unfold IssueUserDisplayPropertyEndpoint.get,
      IssueUserDisplayPropertyEndpoint.get_or_create, get_one.
    destruct (filter _ _) as [|p [|q l]] eqn:Hexisting; [|done..].
    unfold IssueUserDisplayPropertyEndpoint.create.
    destruct (decide _) as [[Hproject Hfresh]|]; [|done].
    cbn [store]. split.
    + unfold property_pk_unique. simpl. rewrite fmap_app. apply NoDup_app.
      split; [done|]. split; [|apply NoDup_singleton].
      intros k (q & Hk & Hq)%list_elem_of_fmap Hin.
      apply list_elem_of_fmap in Hin as (q' & Hk' & ->%list_elem_of_singleton).
      rewrite Forall_forall in Hfresh. apply (Hfresh q Hq). simpl in Hk'. congruence.
    + by apply property_unique_create.
  - intros request. unfold IssueUserDisplayPropertyEndpoint.patch, get_one.
    destruct (filter _ _) as [|p [|q l]] eqn:Hexisting; [done| |done].
    cbn [store].
    assert (Hp : p ∈ DB.issue_user_properties db).
    { assert (Hin : p ∈ [p]) by left. rewrite <- Hexisting in Hin.
      by apply list_elem_of_filter in Hin as [_ ?]. }
    split; [by apply save_pk_unique|by eapply save_property_unique].
Qed.

Section display_properties_invariants_example.
Import Standin.

Lemma display_properties_invariants_witness :
  property_unique
    (store (IssueUserDisplayPropertyEndpoint.get
              (Standin.request (D:=JSON) member ∅ ∅) "acme" 10 900 db)).
Proof.
  refine (proj2 (proj1 (display_properties_invariants (D:=JSON) "acme" 10 db _ _)
                   (Standin.request (D:=JSON) member ∅ ∅) 900%N)).
  - apply (bool_decide_unpack _). vm_compute. exact I.
  - intros u pr. vm_compute. lia.
Defined.

End display_properties_invariants_example.

(** X18. Reading the display properties first makes the update succeed: on a
    store with at most one row per user and project, for a project that
    exists and a fresh key, a [patch] by the same user on the store that
    [get] left answers 201 with the row that [get] answered, changed in the
    fields that the payload holds. *)
Theorem display_properties_get_then_patch `{Collaborators} {D}
    (request : Request D) (request' : Request JSON) slug project_id new_id db :
  user request' = user request →
  property_unique db →
  Exists (λ p, Project.id p = project_id) (DB.projects db) →
  Forall (λ p, IssueUserProperty.id p ≠ new_id) (DB.issue_user_properties db) →
  let read := IssueUserDisplayPropertyEndpoint.get request slug project_id new_id db in
  ∃ p,
    outcome read = Response (IssueUserPropertySerializer p) HTTP_200_OK
    ∧ outcome (IssueUserDisplayPropertyEndpoint.patch request' slug project_id
                 (store read))
      = Response
          (IssueUserPropertySerializer
             (IssueUserProperty.mk (IssueUserProperty.id p)
                (IssueUserProperty.user p) (IssueUserProperty.project_id p)
                (default (IssueUserProperty.filters p) (data request' !! "filters"))
                (default (IssueUserProperty.display_filters p)
                         (data request' !! "display_filters"))
                (default (IssueUserProperty.display_properties p)
                         (data request' !! "display_properties"))))
          HTTP_201_CREATED.
Proof.
  intros Huser Huniq Hproject Hfresh read. subst read.
  assert (Hread : ∃ p,
    IssueUserDisplayPropertyEndpoint.get request slug project_id new_id db
    = mkResult (Response (IssueUserPropertySerializer p) HTTP_200_OK)
        (store (IssueUserDisplayPropertyEndpoint.get request slug project_id
                  new_id db)) []
    ∧ filter (λ q, IssueUserProperty.user q = user_id (user request')
                   ∧ IssueUserProperty.project_id q = project_id)
             (DB.issue_user_properties
                (store (IssueUserDisplayPropertyEndpoint.get request slug
                          project_id new_id db))) = [p]).
  { rewrite Huser.
    unfold IssueUserDisplayPropertyEndpoint.get,
      IssueUserDisplayPropertyEndpoint.get_or_create, get_one.
    pose proof (Huniq (user_id (user request)) project_id) as Hlen.
    destruct (filter _ _) as [|p [|q l]] eqn:Hexisting; simpl in Hlen; [| |lia].
    - unfold IssueUserDisplayPropertyEndpoint.create.
      rewrite decide_True by done. cbn [store]. eexists. split; [done|].
      simpl. rewrite filter_app, Hexisting, filter_cons, filter_nil. simpl.
      by rewrite decide_True.
    - cbn [store]. by exists p. }
  destruct Hread as (p & Hget & Hexisting). exists p. split; [by rewrite Hget|].
  by rewrite (patch_existing request' slug project_id _ p Hexisting).
Qed.

Section display_properties_get_then_patch_example.
Import Standin.

Lemma display_properties_get_then_patch_witness :
  ∃ p,
    outcome (IssueUserDisplayPropertyEndpoint.get
               (Standin.request (D:=JSON) member ∅ ∅) "acme" 10 900 db)
    = Response (IssueUserPropertySerializer p) 200.
Proof.
  destruct (display_properties_get_then_patch
              (Standin.request (D:=JSON) member ∅ ∅)
              (Standin.request member ∅ {[ "filters" := JStr "mine" ]})
              "acme" 10 900 db) as (p & Hread & _).
  - reflexivity.
  - intros u pr. vm_compute. lia.
  - vm_compute. apply Exists_cons_hd. reflexivity.
  - vm_compute. constructor.
  - exists p. exact Hread.
Defined.

End display_properties_get_then_patch_example.

(** ** Creating an issue *)

(** X19. [create] raises [DoesNotExist] before anything is validated,
    stored or queued when no project has the key of the URL.  For the
    project of that key, a payload that the serializer rejects gives 400
    with the store unchanged and no task; a payload it accepts gives 201
    with the serializer's store and one creation activity for the key of the
    new issue, without a previous instance.  The issue sent back is read
    from the view's queryset after the save: if there is one it has the new
    key, is not soft-deleted and belongs to the workspace and project of the
    URL, and there is none when the new key identifies no such issue. *)
Theorem create_outcomes `{C : Collaborators} (laws : CollaboratorLaws)
    `{S : IssueCreateSerializer} (request : Request JSON)
    slug project_id now db :
  let result := IssueViewSet_create request slug project_id now db in
  (Forall (λ p, Project.id p ≠ project_id) (DB.projects db) →
   result = mkCreateResult (CreateRaise DoesNotExist) db [])
  ∧ (∀ project,
       filter (λ p, Project.id p = project_id) (DB.projects db) = [project] →
       match serializer_create db project (data request) with
       | None =>
           result = mkCreateResult (CreateErrors HTTP_400_BAD_REQUEST) db []
       | Some (id, db') =>
           ∃ created,
             result
             = mkCreateResult
                 (CreateResponse created (user_timezone (user request))
                                 HTTP_201_CREATED)
                 db'
                 [issue_activity "issue.activity.created" (data request)
                    (user_id (user request)) id project_id None now
                    (HTTP_ORIGIN request)]
             ∧ (∀ row, created = Some row →
                  Issue.id (issue row) = id
                  ∧ issue row ∈ DB.issues db'
                  ∧ live (issue row)
                  ∧ in_scope db' slug project_id (issue row))
             ∧ (¬ identifies_issue db' slug project_id id → created = None)
       end).
Proof.
  intros result. subst result. unfold IssueViewSet_create. split.
  - intros Hnone.
    assert (filter (λ p, Project.id p = project_id) (DB.projects db) = []) as ->;
      [|done].
    apply elem_of_nil_inv. intros p [Hid Hp]%list_elem_of_filter.
    rewrite Forall_forall in Hnone. by apply (Hnone p).
  - intros project ->. cbn [get_one].
    destruct (serializer_create db project (data request)) as [[id db']|]; [|done].
    eexists. split; [done|]. split.
    + intros row Hrow%first_elem_of.
      apply issue_queryset_grouper_sub in Hrow.
      apply list_elem_of_filter in Hrow as [Hid Hrow].
      apply elem_of_IssueViewSet_get_queryset in Hrow as (? & ?%visible_live & ?).
      done.
    + intros Hnot.
      destruct (first _ _) as [row|] eqn:Hfirst; [|done].
      apply first_elem_of, issue_queryset_grouper_sub in Hfirst.
      apply list_elem_of_filter in Hfirst as [Hid Hrow].
      destruct Hnot. apply identifies_visible_issue_identifies.
      apply identifies_visible_issue_get_queryset. eauto.
Qed.

Section create_example.
Import Standin StandinCreate.

Lemma create_outcomes_witness :
  ∃ created,
    create_outcome
      (IssueViewSet_create
         (Standin.request member ∅ {[ "name" := JStr "Fix the build" ]})
         "acme" 10 77 db)
    = CreateResponse (Some created) "UTC" 201
    ∧ Issue.id (issue created) = 5%N.
Proof.
  pose proof (proj2 (create_outcomes Standin_laws
                       (Standin.request member ∅ {[ "name" := JStr "Fix the build" ]})
                       "acme" 10 77 db) (Project.mk 10 1)) as Hcreate.
  destruct (serializer_create db (Project.mk 10 1)
              (data (Standin.request member ∅ {[ "name" := JStr "Fix the build" ]})))
    as [[id db']|] eqn:Hser; [|vm_compute in Hser; discriminate].
  vm_compute in Hser. injection Hser as <- <-.
  destruct Hcreate as (created & Hres & Hrow & _); [vm_compute; reflexivity|].
  rewrite Hres. cbn [create_outcome].
  destruct created as [row|]; [|vm_compute in Hres; discriminate].
  exists row. split; [done|]. by apply Hrow.
Defined.

End create_example.
